(** * PDFoster creative API: the two Netlify handlers, embedded and verified

    The repository holds two serverless handlers:
    - [netlify/functions/generate-creative.js] ([GenerateCreative] below):
      image and video generation with a cost estimate and a best-effort
      usage log;
    - the video status checker ([VideoStatus] below).

    Both are embedded as functions of the incoming event and of a [World]:
    the process configuration, the network, the clock and the JavaScript
    built-ins the handlers call ([JSON.parse], [JSON.stringify], number
    printing, the engine's error texts).  The built-ins are fields of the
    world, so every theorem holds whatever the engine answers; the module
    [Node] gives one concrete, executable world on which the handlers run
    on request texts. *)

From Stdlib Require Import List String Ascii Bool ZArith Lia Floats DecimalString.
Import ListNotations.
Local Open Scope string_scope.
Set Warnings "-inexact-float,-register-all".

(** ** JavaScript values

    The values that reach the handlers come out of [JSON.parse] (request
    bodies, vendor responses) or are built by the handlers themselves, so
    they are JSON values plus [undefined].  Numbers are IEEE 754 doubles
    (Rocq's primitive floats); strings are sequences of 8-bit code units;
    an object is the list of its own properties in enumeration order. *)

Inductive value : Type :=
| VUndefined
| VNull
| VBool (b : bool)
| VNum (n : float)
| VStr (s : string)
| VArr (elems : list value)
| VObj (props : list (string * value)).

(** What the engine or node-fetch throws, and what the source throws with
    [new Error(message)]. *)
Inductive type_error : Type :=
| ReadOfNullish (key : string)   (* property read or destructuring of null/undefined *)
| NotAFunction (name : string)   (* call of a property that is not callable *)
| NotPrimitive.                  (* object that cannot be converted to a string *)

Inductive exn : Type :=
| Error (message : string)
| SyntaxError (text : string)
| TypeError (why : type_error)
| FetchError (reason : string).

(** ToBoolean. *)
Definition truthy (v : value) : bool :=
  match v with
  | VUndefined | VNull => false
  | VBool b => b
  | VNum n => negb (PrimFloat.eqb n 0) && PrimFloat.eqb n n
  | VStr s => negb (s =? "")
  | VArr _ | VObj _ => true
  end.

(** [v === 'literal']. *)
Definition strict_eq_str (v : value) (lit : string) : bool :=
  match v with
  | VStr s => s =? lit
  | _ => false
  end.

Definition nullish (v : value) : bool :=
  match v with
  | VUndefined | VNull => true
  | _ => false
  end.

Fixpoint lookup (k : string) (props : list (string * value)) : value :=
  match props with
  | [] => VUndefined
  | (k', v) :: rest => if k =? k' then v else lookup k rest
  end.

Definition has_own (k : string) (props : list (string * value)) : bool :=
  existsb (fun kv => k =? fst kv) props.

(** [v.k] for the property names the handlers read (type, prompt, options,
    size, error, status, ...): none of them is found on a prototype, so
    on a string, number, boolean or array the read gives [undefined], on
    an object the own property, and on [null] or [undefined] it throws. *)
Definition get (v : value) (k : string) : exn + value :=
  match v with
  | VUndefined | VNull => inl (TypeError (ReadOfNullish k))
  | VObj props => inr (lookup k props)
  | _ => inr VUndefined
  end.

(** [v[0]]: first element of an array, first code unit of a string, the
    property named "0" of an object. *)
Definition get_0 (v : value) : exn + value :=
  match v with
  | VUndefined | VNull => inl (TypeError (ReadOfNullish "0"))
  | VArr elems => inr (nth 0 elems VUndefined)
  | VStr (String c _) => inr (VStr (String c ""))
  | VObj props => inr (lookup "0" props)
  | _ => inr VUndefined
  end.

(** [v?.[0]]. *)
Definition optional_get_0 (v : value) : exn + value :=
  if nullish v then inr VUndefined else get_0 v.

(** Destructuring with a default, [const { k = d } = v]: the default
    replaces [undefined] only. *)
Definition or_default (v d : value) : value :=
  match v with
  | VUndefined => d
  | _ => v
  end.

Definition get_default (v : value) (k : string) (d : value) : exn + value :=
  match get v k with
  | inl e => inl e
  | inr x => inr (or_default x d)
  end.

(** [haystack] has [needle] as a substring. *)
Fixpoint contains (haystack needle : string) : bool :=
  String.prefix needle haystack
  || match haystack with
     | EmptyString => false
     | String _ rest => contains rest needle
     end.

(** [recv.includes(arg)] with a string argument: [String.prototype.includes]
    on a string, [Array.prototype.includes] on an array; any other receiver
    has no callable [includes]. *)
Definition call_includes (recv : value) (arg : string) : exn + value :=
  match recv with
  | VStr s => inr (VBool (contains s arg))
  | VArr elems => inr (VBool (existsb (fun x => strict_eq_str x arg) elems))
  | _ => inl (TypeError (NotAFunction "includes"))
  end.

(** [recv?.includes(arg)]. *)
Definition optional_includes (recv : value) (arg : string) : exn + value :=
  if nullish recv then inr VUndefined else call_includes recv arg.

(** Object literal with a spread, [{ ...target, ...source }]: a property of
    [source] overwrites the one of the same name in place, a new one is
    appended. *)
Fixpoint set_prop (k : string) (v : value) (props : list (string * value))
  : list (string * value) :=
  match props with
  | [] => [(k, v)]
  | (k', v') :: rest =>
      if k =? k' then (k, v) :: rest else (k', v') :: set_prop k v rest
  end.

Definition spread (target : list (string * value)) (source : value)
  : list (string * value) :=
  match source with
  | VObj props => fold_left (fun acc kv => set_prop (fst kv) (snd kv) acc) props target
  | _ => target
  end.

(** ** The world *)

Record request : Type := {
  url : string;
  method : string;
  req_headers : list (string * string);
  req_body : option string
}.

(** [await fetch(...)] either rejects or resolves to a response, of which
    the handlers only read the body, through [response.json()]. *)
Record response : Type := {
  response_url : string;
  response_text : string
}.

Inductive fetch_outcome : Type :=
| Rejects (reason : string)
| Resolves (r : response).

Record World : Type := {
  (* process.env *)
  OPENAI_API_KEY : option string;
  RUNWAY_API_KEY : option string;
  SUPABASE_URL : option string;
  SUPABASE_SERVICE_ROLE_KEY : option string;
  NODE_ENV : option string;
  (* built-ins of the engine; [None] is a SyntaxError *)
  JSON_parse : string -> option value;
  JSON_stringify : value -> string;
  Number_toString : float -> string;
  SyntaxError_message : string -> string;
  TypeError_message : type_error -> string;
  Error_stack : exn -> string;
  Date_toISOString : string;
  (* the network *)
  fetch : request -> fetch_outcome
}.

(** A string that may be [undefined] (a configuration variable, a query
    parameter), read as a condition and inside a template. *)
Definition opt_truthy (x : option string) : bool :=
  match x with
  | Some s => negb (s =? "")
  | None => false
  end.

(** [x === 'literal']. *)
Definition opt_is (x : option string) (lit : string) : bool :=
  match x with
  | Some s => s =? lit
  | None => false
  end.

Definition opt_text (x : option string) : string :=
  match x with
  | Some s => s
  | None => "undefined"
  end.

(** [error.message]. *)
Definition message (w : World) (e : exn) : string :=
  match e with
  | Error m => m
  | SyntaxError text => SyntaxError_message w text
  | TypeError why => TypeError_message w why
  | FetchError reason => reason
  end.

(** ToString, as a template literal and [new Error(x)] apply it, given the
    engine's printer of numbers.  An array joins its elements with commas
    ([null] and [undefined] print empty); an object prints
    "[object Object]" unless it has an own [toString], which coming from
    JSON is never callable. *)
Fixpoint to_string (number_text : float -> string) (v : value) : exn + string :=
  match v with
  | VUndefined => inr "undefined"
  | VNull => inr "null"
  | VBool true => inr "true"
  | VBool false => inr "false"
  | VNum n => inr (number_text n)
  | VStr s => inr s
  | VArr elems =>
      (fix join (l : list value) : exn + string :=
         match l with
         | [] => inr ""
         | x :: rest =>
             match (if nullish x then inr "" else to_string number_text x) with
             | inl e => inl e
             | inr s =>
                 match rest with
                 | [] => inr s
                 | _ :: _ =>
                     match join rest with
                     | inl e => inl e
                     | inr r => inr (s ++ "," ++ r)
                     end
                 end
             end
         end) elems
  | VObj props =>
      if has_own "toString" props then inl (TypeError NotPrimitive)
      else inr "[object Object]"
  end.

Definition ToString (w : World) (v : value) : exn + string :=
  to_string (Number_toString w) v.

(** [new Error(x)]. *)
Definition new_Error (w : World) (x : value) : exn + exn :=
  match x with
  | VUndefined => inr (Error "")
  | _ => match ToString w x with
         | inl e => inl e
         | inr s => inr (Error s)
         end
  end.

(** ** Effects

    A handler run leaves a trace of what it did to the outside: outbound
    requests and console output, in order.  Code that can throw runs in the
    monad [M]: a trace transformer returning a value or the exception. *)

Inductive effect : Type :=
| Fetch (r : request)
| Console_error (label : string) (e : exn)
| Console_warn (text : string).

Definition trace : Type := list effect.

Definition M (A : Type) : Type := trace -> (exn + A) * trace.

Definition ret {A : Type} (a : A) : M A := fun t => (inr a, t).

Definition throw {A : Type} (e : exn) : M A := fun t => (inl e, t).

Definition bind {A B : Type} (m : M A) (k : A -> M B) : M B :=
  fun t =>
    match m t with
    | (inl e, t') => (inl e, t')
    | (inr a, t') => k a t'
    end.

Definition lift {A : Type} (r : exn + A) : M A := fun t => (r, t).

Definition emit (e : effect) : M unit := fun t => (inr tt, (t ++ [e])%list).

(** [try { m } catch (error) { h error }]. *)
Definition try_catch {A : Type} (m : M A) (h : exn -> M A) : M A :=
  fun t =>
    match m t with
    | (inl e, t') => h e t'
    | (inr a, t') => (inr a, t')
    end.

Declare Scope js_scope.
Delimit Scope js_scope with js.
Notation "x <- m ;; k" := (bind m (fun x => k))
  (at level 61, m at next level, right associativity) : js_scope.
Notation "m ;;; k" := (bind m (fun _ => k))
  (at level 61, right associativity) : js_scope.
Local Open Scope js_scope.

(** [await fetch(url, init)]. *)
Definition await_fetch (w : World) (r : request) : M response :=
  emit (Fetch r) ;;;
  match fetch w r with
  | Rejects reason => throw (FetchError reason)
  | Resolves response => ret response
  end.

(** [await response.json()]: node-fetch (version 2, the one [require]
    loads) parses the body text and rejects with a FetchError of its own
    when the text is not JSON. *)
Definition response_json (w : World) (r : response) : M value :=
  match JSON_parse w (response_text r) with
  | Some v => ret v
  | None =>
      throw (FetchError ("invalid json response body at " ++ response_url r
                         ++ " reason: " ++ SyntaxError_message w (response_text r)))
  end.

(** The event Netlify hands to a handler and the response it expects. *)
Module Event.
Record t : Type := {
  httpMethod : string;
  path : string;
  queryStringParameters : option (list (string * string));
  body : option string   (* [None] is [null] *)
}.
End Event.

Module Response.
Record t : Type := {
  statusCode : Z;
  headers : list (string * string);
  body : string
}.
End Response.

(** The double quote, for texts that contain one. *)
Definition dquote : string := String "034"%char EmptyString.

(** ** netlify/functions/generate-creative.js *)
Module GenerateCreative.

(** Cost per generation (for tracking). *)
Definition COSTS : list (string * float) :=
  [ ("dall-e-3-standard", 0.04%float);
    ("dall-e-3-hd", 0.08%float);
    ("dall-e-3-wide", 0.08%float);
    ("dall-e-3-wide-hd", 0.12%float);
    ("gpt-image-mini", 0.015%float);
    ("runway-video", 0.50%float) ].

Fixpoint price (table : list (string * float)) (costKey : string) : option float :=
  match table with
  | [] => None
  | (k, c) :: rest => if costKey =? k then Some c else price rest costKey
  end.

(** [COSTS[costKey]]. *)
Definition COSTS_at (costKey : string) : value :=
  match price COSTS costKey with
  | Some c => VNum c
  | None => VUndefined
  end.

(** CORS headers. *)
Definition headers : list (string * string) :=
  [ ("Access-Control-Allow-Origin", "*");
    ("Access-Control-Allow-Headers", "Content-Type, Authorization");
    ("Access-Control-Allow-Methods", "POST, OPTIONS");
    ("Content-Type", "application/json") ].

(** Generate image via OpenAI DALL-E. *)
Definition generateImage (w : World) (prompt options : value) : M value :=
  let options := or_default options (VObj []) in
  let apiKey := OPENAI_API_KEY w in
  if negb (opt_truthy apiKey) then throw (Error "OPENAI_API_KEY not configured")
  else
    model <- lift (get_default options "model" (VStr "dall-e-3")) ;;
    size <- lift (get_default options "size" (VStr "1024x1024")) ;;
    quality <- lift (get_default options "quality" (VStr "standard")) ;;
    style <- lift (get_default options "style" (VStr "vivid")) ;;
    response <- await_fetch w
      {| url := "https://api.openai.com/v1/images/generations";
         method := "POST";
         req_headers :=
           [ ("Authorization", "Bearer " ++ opt_text apiKey);
             ("Content-Type", "application/json") ];
         req_body := Some (JSON_stringify w (VObj
           [ ("model", model);
             ("prompt", prompt);
             ("n", VNum 1);
             ("size", size);
             ("quality", quality);
             ("style", style);
             ("response_format", VStr "url") ])) |} ;;
    data <- response_json w response ;;
    error <- lift (get data "error") ;;
    if truthy error then
      m <- lift (get error "message") ;;
      e <- lift (new_Error w m) ;;
      throw e
    else
      items <- lift (get data "data") ;;
      item <- lift (get_0 items) ;;
      image_url <- lift (get item "url") ;;
      items' <- lift (get data "data") ;;
      item' <- lift (get_0 items') ;;
      revised_prompt <- lift (get item' "revised_prompt") ;;
      ret (VObj
        [ ("image_url", image_url);
          ("revised_prompt", revised_prompt);
          ("model", model);
          ("size", size);
          ("quality", quality) ]).

(** Generate video via Runway API. *)
Definition generateVideo (w : World) (prompt options : value) : M value :=
  let options := or_default options (VObj []) in
  let apiKey := RUNWAY_API_KEY w in
  if negb (opt_truthy apiKey) then throw (Error "RUNWAY_API_KEY not configured")
  else
    duration <- lift (get_default options "duration" (VNum 5)) ;;
    model <- lift (get_default options "model" (VStr "gen3a_turbo")) ;;
    response <- await_fetch w
      {| url := "https://api.dev.runwayml.com/v1/text_to_video";
         method := "POST";
         req_headers :=
           [ ("Authorization", "Bearer " ++ opt_text apiKey);
             ("Content-Type", "application/json");
             ("X-Runway-Version", "2024-11-06") ];
         req_body := Some (JSON_stringify w (VObj
           [ ("model", model);
             ("prompt_text", prompt);
             ("duration", duration);
             ("watermark", VBool false);
             ("ratio", VStr "16:9") ])) |} ;;
    data <- response_json w response ;;
    error <- lift (get data "error") ;;
    if truthy error then
      e <- lift (new_Error w error) ;;
      throw e
    else
      task_id <- lift (get data "id") ;;
      id <- lift (get data "id") ;;
      id_text <- lift (ToString w id) ;;
      ret (VObj
        [ ("task_id", task_id);
          ("status", VStr "processing");
          ("poll_url", VStr ("https://api.dev.runwayml.com/v1/tasks/" ++ id_text));
          ("model", model);
          ("duration", duration);
          ("note", VStr "Video is generating. Poll the task_id endpoint for completion.") ]).

(** Log usage to Supabase for billing/tracking. *)
Definition logUsage (w : World) (customerId type cost : value) (costKey : string)
  : M unit :=
  try_catch
    (let supabaseUrl := SUPABASE_URL w in
     let supabaseKey := SUPABASE_SERVICE_ROLE_KEY w in
     if negb (opt_truthy supabaseUrl) || negb (opt_truthy supabaseKey) then
       emit (Console_warn "Supabase not configured, skipping usage log")
     else
       await_fetch w
         {| url := opt_text supabaseUrl ++ "/rest/v1/creative_usage";
            method := "POST";
            req_headers :=
              [ ("apikey", opt_text supabaseKey);
                ("Authorization", "Bearer " ++ opt_text supabaseKey);
                ("Content-Type", "application/json");
                ("Prefer", "return=minimal") ];
            req_body := Some (JSON_stringify w (VObj
              [ ("customer_id", customerId);
                ("type", type);
                ("cost", cost);
                ("cost_key", VStr costKey);
                ("created_at", VStr (Date_toISOString w)) ])) |} ;;;
       ret tt)
    (fun error => emit (Console_error "Failed to log usage:" error)).

(** [options.size?.includes('1792')]. *)
Definition wide_format (options : value) : exn + value :=
  match get options "size" with
  | inl e => inl e
  | inr size => optional_includes size "1792"
  end.

(** The cost key of an image, lines 72 to 74. *)
Definition image_costKey (options : value) : exn + string :=
  match get options "quality" with
  | inl e => inl e
  | inr quality =>
      if strict_eq_str quality "hd" then
        match wide_format options with
        | inl e => inl e
        | inr wide => inr (if truthy wide then "dall-e-3-wide-hd" else "dall-e-3-hd")
        end
      else
        match wide_format options with
        | inl e => inl e
        | inr wide => inr (if truthy wide then "dall-e-3-wide" else "dall-e-3-standard")
        end
  end.

(** The locals [result], [cost] and [costKey] after the switch. *)
Record generation : Type := {
  result : value;
  cost : value;
  costKey : string
}.

(** [switch (type)]: the generation of an image or a video with its cost;
    [None] is the default branch, which leaves the handler. *)
Definition switch_type (w : World) (type prompt options : value)
  : M (option generation) :=
  if strict_eq_str type "image" then
    result <- generateImage w prompt options ;;
    costKey <- lift (image_costKey options) ;;
    ret (Some {| result := result; cost := COSTS_at costKey; costKey := costKey |})
  else if strict_eq_str type "video" then
    result <- generateVideo w prompt options ;;
    ret (Some {| result := result; cost := COSTS_at "runway-video";
                 costKey := "runway-video" |})
  else ret None.

(** [JSON.parse(event.body)]; a [null] body is converted to the text "null". *)
Definition parse_body (w : World) (body : option string) : M value :=
  let text := match body with Some s => s | None => "null" end in
  match JSON_parse w text with
  | Some v => ret v
  | None => throw (SyntaxError text)
  end.

Definition json_response (w : World) (status : Z) (payload : list (string * value))
  : Response.t :=
  Response.Build_t status headers (JSON_stringify w (VObj payload)).

(** The body of the [try] block. *)
Definition handler_try (w : World) (event : Event.t) : M Response.t :=
  body <- parse_body w (Event.body event) ;;
  type <- lift (get body "type") ;;
  prompt <- lift (get body "prompt") ;;
  customer_id <- lift (get body "customer_id") ;;
  options <- lift (get_default body "options" (VObj [])) ;;
  if negb (truthy type) || negb (truthy prompt) then
    ret (json_response w 400
           [ ("error", VStr "Missing required fields: type, prompt") ])
  else
    g <- switch_type w type prompt options ;;
    match g with
    | None =>
        type_text <- lift (ToString w type) ;;
        ret (json_response w 400
               [ ("error", VStr ("Unknown type: " ++ type_text ++ ". Use "
                                 ++ dquote ++ "image" ++ dquote ++ " or "
                                 ++ dquote ++ "video" ++ dquote)) ])
    | Some g =>
        (* Log usage if customer_id provided *)
        (if truthy customer_id && opt_truthy (SUPABASE_URL w)
         then logUsage w customer_id type (cost g) (costKey g)
         else ret tt) ;;;
        ret (json_response w 200
               (spread [ ("success", VBool true); ("type", type); ("cost", cost g) ]
                       (result g)))
    end.

(** The response of the [catch] block. *)
Definition handler_catch (w : World) (error : exn) : Response.t :=
  json_response w 500
    [ ("error", VStr (if message w error =? "" then "Generation failed"
                      else message w error));
      ("details", if opt_is (NODE_ENV w) "development"
                  then VStr (Error_stack w error) else VUndefined) ].

(** [exports.handler]: the response and the trace of the run.  The catch
    block throws nothing, so the run always ends with a response. *)
Definition handler (w : World) (event : Event.t) : Response.t * trace :=
  (* Handle CORS preflight *)
  if Event.httpMethod event =? "OPTIONS" then
    (Response.Build_t 200 headers "", [])
  else if negb (Event.httpMethod event =? "POST") then
    (json_response w 405 [ ("error", VStr "Method not allowed") ], [])
  else
    match handler_try w event [] with
    | (inr response, t) => (response, t)
    | (inl error, t) =>
        (handler_catch w error,
         (t ++ [Console_error "Generation error:" error])%list)
    end.

End GenerateCreative.

(** ** The video status checker *)
Module VideoStatus.

Definition headers : list (string * string) :=
  [ ("Access-Control-Allow-Origin", "*");
    ("Access-Control-Allow-Headers", "Content-Type, Authorization");
    ("Access-Control-Allow-Methods", "GET, OPTIONS");
    ("Content-Type", "application/json") ].

Definition json_response (w : World) (status : Z) (payload : list (string * value))
  : Response.t :=
  Response.Build_t status headers (JSON_stringify w (VObj payload)).

(** [event.queryStringParameters?.task_id]. *)
Fixpoint assoc (k : string) (params : list (string * string)) : option string :=
  match params with
  | [] => None
  | (k', v) :: rest => if k =? k' then Some v else assoc k rest
  end.

Definition query_task_id (event : Event.t) : option string :=
  match Event.queryStringParameters event with
  | Some params => assoc "task_id" params
  | None => None
  end.

(** Map Runway status to our simplified status: the locals [status] and
    [videoUrl] after lines 66 to 74. *)
Definition map_status (data : value) : exn + (string * value) :=
  match get data "status" with
  | inl e => inl e
  | inr raw =>
      if strict_eq_str raw "SUCCEEDED" then
        match get data "output" with
        | inl e => inl e
        | inr output =>
            match optional_get_0 output with
            | inl e => inl e
            | inr videoUrl => inr ("completed", videoUrl)
            end
        end
      else if strict_eq_str raw "FAILED" then inr ("failed", VNull)
      else inr ("processing", VNull)
  end.

(** The body of the [try] block. *)
Definition handler_try (w : World) (taskId : string) : M Response.t :=
  let apiKey := RUNWAY_API_KEY w in
  if negb (opt_truthy apiKey) then throw (Error "RUNWAY_API_KEY not configured")
  else
    response <- await_fetch w
      {| url := "https://api.dev.runwayml.com/v1/tasks/" ++ taskId;
         method := "GET";
         req_headers :=
           [ ("Authorization", "Bearer " ++ opt_text apiKey);
             ("X-Runway-Version", "2024-11-06") ];
         req_body := None |} ;;
    data <- response_json w response ;;
    error <- lift (get data "error") ;;
    if truthy error then
      e <- lift (new_Error w error) ;;
      throw e
    else
      mapped <- lift (map_status data) ;;
      progress <- lift (get data "progress") ;;
      raw_status <- lift (get data "status") ;;
      ret (json_response w 200
             [ ("task_id", VStr taskId);
               ("status", VStr (fst mapped));
               ("video_url", snd mapped);
               ("progress", progress);
               ("raw_status", raw_status) ]).

(** [exports.handler]. *)
Definition handler (w : World) (event : Event.t) : Response.t * trace :=
  if Event.httpMethod event =? "OPTIONS" then
    (Response.Build_t 200 headers "", [])
  else if negb (Event.httpMethod event =? "GET") then
    (json_response w 405 [ ("error", VStr "Method not allowed") ], [])
  else
    let taskId := query_task_id event in
    if negb (opt_truthy taskId) then
      (json_response w 400 [ ("error", VStr "Missing task_id parameter") ], [])
    else
      match handler_try w (opt_text taskId) [] with
      | (inr response, t) => (response, t)
      | (inl error, t) =>
          (json_response w 500 [ ("error", VStr (message w error)) ],
           (t ++ [Console_error "Status check error:" error])%list)
      end.

End VideoStatus.

(** ** A concrete world

    The built-ins as Node runs them, written out so that the handlers can
    be evaluated on request texts: [JSON.parse] and [JSON.stringify] over
    the values above, with numbers read as the nearest double and printed
    with the shortest digits that read back. *)
Module Node.
Local Open Scope Z_scope.

(** *** Numbers

    Decimal text to the nearest double and back, in exact integer
    arithmetic. *)

(** Quotient of positive integers, rounded to nearest, ties to even. *)
Definition div_nearest_even (a b : Z) : Z :=
  let q := a / b in
  let r := a mod b in
  if (b <? 2 * r) || ((b =? 2 * r) && Z.odd q) then q + 1 else q.

(** The double nearest to [m * 10^e], for a positive [m]: the quotient of
    the exact value by the power of two that leaves 53 bits (fewer in the
    subnormal range), rounded to nearest even.  The first two tests stop
    decimal exponents so large or small that the result is known without
    computing the power of ten. *)
Definition nearest_double (m e : Z) : float :=
  if 400 <? e + Z.log2 m * 3 / 10 then infinity
  else if e + (Z.log2 m + 1) * 4 / 10 + 1 <? -400 then zero
  else
    let N := if 0 <=? e then m * 10 ^ e else m in
    let D := if 0 <=? e then 1 else 10 ^ (- e) in
    let l := Z.log2 N - Z.log2 D in
    let ge_pow2 (k : Z) := if 0 <=? k then D * 2 ^ k <=? N else D <=? N * 2 ^ (- k) in
    let L := if ge_pow2 l then l else l - 1 in
    let k := Z.max (L - 52) (-1074) in
    let q := if 0 <=? k then div_nearest_even N (D * 2 ^ k)
             else div_nearest_even (N * 2 ^ (- k)) D in
    if q =? 0 then zero
    else if (971 <? k) || ((k =? 971) && (2 ^ 53 <=? q)) then infinity
    else SF2Prim (S754_finite false (Z.to_pos q) k).

(** The decimal digits of a natural number. *)
Definition decimal (z : Z) : string := NilZero.string_of_uint (N.to_uint (Z.to_N z)).

Fixpoint zeros (n : nat) : string :=
  match n with
  | O => ""
  | S n => "0" ++ zeros n
  end.

(** The [n] with [10^(n-1) <= N/D < 10^n], searched from an estimate. *)
Fixpoint magnitude (fuel : nat) (N D n : Z) : Z :=
  match fuel with
  | O => n
  | S fuel =>
      let lt_pow (k : Z) := if 0 <=? k then N <? D * 10 ^ k else N * 10 ^ (- k) <? D in
      if negb (lt_pow n) then magnitude fuel N D (n + 1)
      else if lt_pow (n - 1) then magnitude fuel N D (n - 1)
      else n
  end.

(** A decimal of [k] digits that rounding carried to [10^k] is a one with
    a magnitude one more. *)
Definition carry (s n k : Z) : Z * Z :=
  if s =? 10 ^ k then (10 ^ (k - 1), n + 1) else (s, n).

(** The [k] digits of [N/D], of magnitude [n], cut off after the last. *)
Definition digits_below (N D n k : Z) : Z :=
  if 0 <=? n - k then N / (D * 10 ^ (n - k)) else N * 10 ^ (k - n) / D.

(** The same rounded to nearest, ties to even. *)
Definition digits_nearest (N D n k : Z) : Z :=
  if 0 <=? n - k then div_nearest_even N (D * 10 ^ (n - k))
  else div_nearest_even (N * 10 ^ (k - n)) D.

(** The decimal of [k] digits nearest to [N/D], of magnitude [n]: the
    digits [s] and the magnitude, one more when rounding carried. *)
Definition round_digits (N D n k : Z) : Z * Z :=
  carry (digits_nearest N D n k) n k.

(** The decimal of [k] digits on the other side of [N/D]. *)
Definition other_digits (N D n k : Z) : Z * Z :=
  let below := digits_below N D n k in
  carry (if digits_nearest N D n k =? below then below + 1 else below) n k.

(** The fewest digits that read back as [f]; seventeen always do.  Of the
    decimals of that many digits that read back the nearest to [f] is
    taken, the even one of two as near: it is the nearest decimal of that
    length when that one reads back, and its neighbour across [f]
    otherwise. *)
Fixpoint shortest (fuel : nat) (f : float) (N D n k : Z) : Z * Z * Z :=
  let '(s, n') := round_digits N D n k in
  match fuel with
  | O => (s, n', k)
  | S fuel =>
      if PrimFloat.eqb (nearest_double s (n' - k)) f then (s, n', k)
      else
        let '(s2, n2) := other_digits N D n k in
        if PrimFloat.eqb (nearest_double s2 (n2 - k)) f then (s2, n2, k)
        else shortest fuel f N D n (k + 1)
  end.

Fixpoint strip_zeros (fuel : nat) (s k : Z) : Z * Z :=
  match fuel with
  | O => (s, k)
  | S fuel =>
      if (1 <? k) && (s mod 10 =? 0) then strip_zeros fuel (s / 10) (k - 1)
      else (s, k)
  end.

(** Number::toString on the [k] digits [s] of a number of magnitude [n]:
    plain digits up to 21 integer digits, a leading "0." down to six
    zeros after the point, the exponent form beyond. *)
Definition format (s n k : Z) : string :=
  let ds := decimal s in
  if (k <=? n) && (n <=? 21) then ds ++ zeros (Z.to_nat (n - k))
  else if (0 <? n) && (n <=? 21) then
    substring 0 (Z.to_nat n) ds ++ "." ++ substring (Z.to_nat n) (Z.to_nat (k - n)) ds
  else if (-6 <? n) && (n <=? 0) then "0." ++ zeros (Z.to_nat (- n)) ++ ds
  else
    let e := n - 1 in
    let es := (if 0 <=? e then "+" else "-") ++ decimal (Z.abs e) in
    if k =? 1 then ds ++ "e" ++ es
    else substring 0 1 ds ++ "." ++ substring 1 (Z.to_nat (k - 1)) ds ++ "e" ++ es.

Definition Number_toString (f : float) : string :=
  match Prim2SF f with
  | S754_nan => "NaN"
  | S754_zero _ => "0"
  | S754_infinity sign => if sign then "-Infinity" else "Infinity"
  | S754_finite sign m e =>
      let N := if 0 <=? e then Z.pos m * 2 ^ e else Z.pos m in
      let D := if 0 <=? e then 1 else 2 ^ (- e) in
      let n := magnitude 8 N D ((Z.log2 N - Z.log2 D) * 30103 / 100000) in
      let '(s, n', k) := shortest 17 (abs f) N D n 1 in
      let '(s, k) := strip_zeros 17 s k in
      (if sign then "-" else "") ++ format s n' k
  end.

(** *** JSON.stringify *)

Definition hex_digit (n : N) : ascii :=
  ascii_of_N (if (n <? 10)%N then 48 + n else 87 + n).

(** QuoteJSONString. *)
Fixpoint quote_chars (s : string) : string :=
  match s with
  | EmptyString => dquote
  | String c rest =>
      let n := N_of_ascii c in
      (if (n =? 34)%N then "\" ++ dquote
       else if (n =? 92)%N then "\\"
       else if (n =? 8)%N then "\b"
       else if (n =? 12)%N then "\f"
       else if (n =? 10)%N then "\n"
       else if (n =? 13)%N then "\r"
       else if (n =? 9)%N then "\t"
       else if (n <? 32)%N then
         "\u00" ++ String (hex_digit (n / 16)) (String (hex_digit (n mod 16)) "")
       else String c "") ++ quote_chars rest
  end.

Definition quote (s : string) : string := dquote ++ quote_chars s.

Fixpoint join (sep : string) (l : list string) : string :=
  match l with
  | [] => ""
  | [x] => x
  | x :: rest => x ++ sep ++ join sep rest
  end.

Definition finite (f : float) : bool :=
  match Prim2SF f with
  | S754_nan | S754_infinity _ => false
  | _ => true
  end.

(** SerializeJSONProperty; [None] is [undefined]: a property with that
    value is left out of an object, and printed null in an array. *)
Fixpoint serialize (v : value) : option string :=
  match v with
  | VUndefined => None
  | VNull => Some "null"
  | VBool true => Some "true"
  | VBool false => Some "false"
  | VNum n => Some (if finite n then Number_toString n else "null")
  | VStr s => Some (quote s)
  | VArr elems =>
      Some ("[" ++ join ","
              ((fix each (l : list value) : list string :=
                  match l with
                  | [] => []
                  | x :: rest =>
                      match serialize x with
                      | Some s => s
                      | None => "null"
                      end :: each rest
                  end) elems) ++ "]")
  | VObj props =>
      Some ("{" ++ join ","
              ((fix each (l : list (string * value)) : list string :=
                  match l with
                  | [] => []
                  | (k, x) :: rest =>
                      match serialize x with
                      | Some s => (quote k ++ ":" ++ s) :: each rest
                      | None => each rest
                      end
                  end) props) ++ "}")
  end.

(** The handlers only serialise object literals, which always give a
    text. *)
Definition JSON_stringify (v : value) : string :=
  match serialize v with
  | Some s => s
  | None => "undefined"
  end.

(** *** JSON.parse *)

Definition is_ws (c : ascii) : bool :=
  let n := N_of_ascii c in
  ((n =? 32) || (n =? 9) || (n =? 10) || (n =? 13))%N.

Fixpoint skip_ws (s : string) : string :=
  match s with
  | String c rest => if is_ws c then skip_ws rest else s
  | EmptyString => s
  end.

Definition digit_of (c : ascii) : option Z :=
  let n := N_of_ascii c in
  if ((48 <=? n) && (n <=? 57))%N then Some (Z.of_N n - 48) else None.

Definition hex_of (c : ascii) : option N :=
  let n := N_of_ascii c in
  if ((48 <=? n) && (n <=? 57))%N then Some (n - 48)%N
  else if ((97 <=? n) && (n <=? 102))%N then Some (n - 87)%N
  else if ((65 <=? n) && (n <=? 70))%N then Some (n - 55)%N
  else None.

(** The characters of a string literal after its opening quote, up to the
    closing one.  An escape of a code unit above 255 has no place in the
    strings of this development and is not read. *)
Fixpoint parse_chars (s : string) : option (string * string) :=
  match s with
  | EmptyString => None
  | String c rest =>
      let n := N_of_ascii c in
      if (n =? 34)%N then Some ("", rest)
      else if (n <? 32)%N then None
      else if (n =? 92)%N then
        match rest with
        | String e rest' =>
            let simple (x : N) :=
              match parse_chars rest' with
              | Some (str, tail) => Some (String (ascii_of_N x) str, tail)
              | None => None
              end in
            let m := N_of_ascii e in
            if (m =? 34)%N then simple 34%N
            else if (m =? 92)%N then simple 92%N
            else if (m =? 47)%N then simple 47%N
            else if (m =? 98)%N then simple 8%N
            else if (m =? 102)%N then simple 12%N
            else if (m =? 110)%N then simple 10%N
            else if (m =? 114)%N then simple 13%N
            else if (m =? 116)%N then simple 9%N
            else if (m =? 117)%N then
              match rest' with
              | String h1 (String h2 (String h3 (String h4 rest''))) =>
                  match hex_of h1, hex_of h2, hex_of h3, hex_of h4 with
                  | Some a, Some b, Some c', Some d =>
                      let code := (((a * 16 + b) * 16 + c') * 16 + d)%N in
                      if (code <? 256)%N then
                        match parse_chars rest'' with
                        | Some (str, tail) => Some (String (ascii_of_N code) str, tail)
                        | None => None
                        end
                      else None
                  | _, _, _, _ => None
                  end
              | _ => None
              end
            else None
        | EmptyString => None
        end
      else
        match parse_chars rest with
        | Some (str, tail) => Some (String c str, tail)
        | None => None
        end
  end.

(** A run of digits: their value, how many they are, and what follows. *)
Fixpoint parse_digits (s : string) (acc : Z) (count : Z) : Z * Z * string :=
  match s with
  | String c rest =>
      match digit_of c with
      | Some d => parse_digits rest (acc * 10 + d) (count + 1)
      | None => (acc, count, s)
      end
  | EmptyString => (acc, count, s)
  end.

(** A number literal: an optional minus, an integer part without leading
    zero, an optional fraction, an optional exponent. *)
Definition parse_number (s : string) : option (float * string) :=
  let '(neg, s) := match s with
                   | String "-" rest => (true, rest)
                   | _ => (false, s)
                   end in
  let '(int, n_int, s1) := parse_digits s 0 0 in
  let leading_zero := match s with String "0" _ => true | _ => false end in
  if (n_int =? 0) || (leading_zero && (1 <? n_int)) then None
  else
    let frac :=
      match s1 with
      | String "." rest =>
          let '(m, n_frac, s2) := parse_digits rest int 0 in
          if n_frac =? 0 then None else Some (m, n_frac, s2)
      | _ => Some (int, 0, s1)
      end in
    match frac with
    | None => None
    | Some (m, n_frac, s2) =>
        let expo :=
          match s2 with
          | String c rest =>
              if (N_of_ascii c =? 101)%N || (N_of_ascii c =? 69)%N then
                let '(eneg, rest) := match rest with
                                     | String "-" r => (true, r)
                                     | String "+" r => (false, r)
                                     | _ => (false, rest)
                                     end in
                let '(e, n_e, s3) := parse_digits rest 0 0 in
                if n_e =? 0 then None else Some ((if eneg then - e else e), s3)
              else Some (0, s2)
          | EmptyString => Some (0, s2)
          end in
        match expo with
        | None => None
        | Some (e, s3) =>
            let f := if m =? 0 then zero else nearest_double m (e - n_frac) in
            Some ((if neg then - f else f)%float, s3)
        end
    end.

(** A property name that is an array index.  Such properties enumerate
    first, in ascending order, whatever the order they were written in. *)
Definition array_index (k : string) : option Z :=
  match k with
  | EmptyString => None
  | String c rest =>
      let '(n, count, tail) := parse_digits k 0 0 in
      if (tail =? "")%string && ((k =? "0")%string || negb (N_of_ascii c =? 48)%N)
         && (n <? 4294967295)
      then Some n else None
  end.

Fixpoint insert_index (i : Z) (k : string) (v : value) (props : list (string * value))
  : list (string * value) :=
  match props with
  | [] => [(k, v)]
  | (k', v') :: rest =>
      match array_index k' with
      | Some j => if i <? j then (k, v) :: props else (k', v') :: insert_index i k v rest
      | None => (k, v) :: props
      end
  end.

(** CreateDataProperty on the object being parsed: a repeated name
    keeps its place and takes the last value. *)
Definition define_prop (k : string) (v : value) (props : list (string * value))
  : list (string * value) :=
  if has_own k props then set_prop k v props
  else match array_index k with
       | Some i => insert_index i k v props
       | None => (props ++ [(k, v)])%list
       end.

(** A value, the members of an object after its brace, the elements of
    an array after its bracket.  Every call consumes input, so fuel
    proportional to the length of the text is enough. *)
Fixpoint parse_value (fuel : nat) (s : string) : option (value * string) :=
  match fuel with
  | O => None
  | S fuel =>
      match skip_ws s with
      | EmptyString => None
      | String c rest as s' =>
          let n := N_of_ascii c in
          if (n =? 123)%N then
            match skip_ws rest with
            | String "}" tail => Some (VObj [], tail)
            | inner => parse_members fuel inner []
            end
          else if (n =? 91)%N then
            match skip_ws rest with
            | String "]" tail => Some (VArr [], tail)
            | inner => parse_elements fuel inner []
            end
          else if (n =? 34)%N then
            match parse_chars rest with
            | Some (str, tail) => Some (VStr str, tail)
            | None => None
            end
          else if String.prefix "true" s' then Some (VBool true, substring 4 (length s') s')
          else if String.prefix "false" s' then Some (VBool false, substring 5 (length s') s')
          else if String.prefix "null" s' then Some (VNull, substring 4 (length s') s')
          else
            match parse_number s' with
            | Some (f, tail) => Some (VNum f, tail)
            | None => None
            end
      end
  end
with parse_members (fuel : nat) (s : string) (acc : list (string * value))
  : option (value * string) :=
  match fuel with
  | O => None
  | S fuel =>
      match skip_ws s with
      | String c rest =>
          if (N_of_ascii c =? 34)%N then
            match parse_chars rest with
            | Some (k, tail) =>
                match skip_ws tail with
                | String ":" tail' =>
                    match parse_value fuel tail' with
                    | Some (v, tail'') =>
                        let acc := define_prop k v acc in
                        match skip_ws tail'' with
                        | String "," more => parse_members fuel more acc
                        | String "}" after => Some (VObj acc, after)
                        | _ => None
                        end
                    | None => None
                    end
                | _ => None
                end
            | None => None
            end
          else None
      | EmptyString => None
      end
  end
with parse_elements (fuel : nat) (s : string) (acc : list value)
  : option (value * string) :=
  match fuel with
  | O => None
  | S fuel =>
      match parse_value fuel s with
      | Some (v, tail) =>
          match skip_ws tail with
          | String "," more => parse_elements fuel more (acc ++ [v])%list
          | String "]" after => Some (VArr (acc ++ [v])%list, after)
          | _ => None
          end
      | None => None
      end
  end.

Definition JSON_parse (text : string) : option value :=
  match parse_value (2 * length text + 2) text with
  | Some (v, tail) => if (skip_ws tail =? "")%string then Some v else None
  | None => None
  end.

(** *** Error texts

    The wording of an engine's error messages changes from one version to
    the next, and the stack of an error has frames below its first line.
    The texts below stand for them: the handlers only copy them into a
    response body or write them to the console. *)

Definition SyntaxError_message (text : string) : string :=
  dquote ++ text ++ dquote ++ " is not valid JSON".

Definition TypeError_message (why : type_error) : string :=
  match why with
  | ReadOfNullish k => "Cannot read properties of null or undefined (reading '" ++ k ++ "')"
  | NotAFunction name => name ++ " is not a function"
  | NotPrimitive => "Cannot convert object to primitive value"
  end.

Definition Error_stack (e : exn) : string :=
  match e with
  | Error m => "Error: " ++ m
  | SyntaxError text => "SyntaxError: " ++ SyntaxError_message text
  | TypeError why => "TypeError: " ++ TypeError_message why
  | FetchError reason => "FetchError: " ++ reason
  end.

(** The configuration of a deployment: process.env. *)
Record config : Type := {
  openai_key : option string;
  runway_key : option string;
  supabase_url : option string;
  supabase_key : option string;
  node_env : option string
}.

(** Node with a configuration, a clock reading and a network. *)
Definition world (c : config) (now : string) (network : request -> fetch_outcome)
  : World :=
  Build_World
    (openai_key c) (runway_key c) (supabase_url c) (supabase_key c) (node_env c)
    JSON_parse JSON_stringify Number_toString
    SyntaxError_message TypeError_message Error_stack
    now network.

End Node.

(** ** A deployment to run the handlers on

    Node with every credential configured, vendors that answer, and a data
    store that is down.  [network_up] is the same network with the data
    store back. *)
Module Example.

(** [s] between double quotes. *)
Definition q (s : string) : string := dquote ++ s ++ dquote.

Definition config : Node.config :=
  {| Node.openai_key := Some "sk-test";
     Node.runway_key := Some "rw-test";
     Node.supabase_url := Some "https://db.example";
     Node.supabase_key := Some "service-role";
     Node.node_env := None |}.

(** The vendor answers the request [r] with this body. *)
Definition answers (r : request) (body : string) : option fetch_outcome :=
  Some (Resolves {| response_url := url r; response_text := body |}).

Definition vendors (r : request) : option fetch_outcome :=
  if url r =? "https://api.openai.com/v1/images/generations" then
    answers r ("{" ++ q "data" ++ ":[{" ++ q "url" ++ ":" ++ q "https://img.example/1.png"
               ++ "," ++ q "revised_prompt" ++ ":" ++ q "a cat, sitting" ++ "}]}")
  else if url r =? "https://api.dev.runwayml.com/v1/text_to_video" then
    answers r ("{" ++ q "id" ++ ":" ++ q "task-1" ++ "}")
  else if url r =? "https://api.dev.runwayml.com/v1/tasks/abc" then
    answers r ("{" ++ q "status" ++ ":" ++ q "FAILED" ++ "}")
  else if url r =? "https://api.dev.runwayml.com/v1/tasks/done" then
    answers r ("{" ++ q "status" ++ ":" ++ q "SUCCEEDED" ++ "," ++ q "output" ++ ":["
               ++ q "https://cdn.example/v.mp4" ++ "]," ++ q "progress" ++ ":1}")
  else if url r =? "https://api.dev.runwayml.com/v1/tasks/bare" then
    answers r ("{" ++ q "status" ++ ":" ++ q "SUCCEEDED" ++ "}")
  else if url r =? "https://api.dev.runwayml.com/v1/tasks/run" then
    answers r ("{" ++ q "status" ++ ":" ++ q "RUNNING" ++ "," ++ q "progress" ++ ":0.25}")
  else None.

Definition network (r : request) : fetch_outcome :=
  match vendors r with
  | Some outcome => outcome
  | None => Rejects "connect ECONNREFUSED"
  end.

Definition network_up (r : request) : fetch_outcome :=
  match vendors r with
  | Some outcome => outcome
  | None => Resolves {| response_url := url r; response_text := "" |}
  end.

Definition now : string := "2025-01-01T00:00:00.000Z".

Definition world : World := Node.world config now network.

Definition world_up : World := Node.world config now network_up.

Definition post (text : string) : Event.t :=
  {| Event.httpMethod := "POST";
     Event.path := "/generate-creative";
     Event.queryStringParameters := None;
     Event.body := Some text |}.

Definition status_of (task_id : string) : Event.t :=
  {| Event.httpMethod := "GET";
     Event.path := "/video-status";
     Event.queryStringParameters := Some [("task_id", task_id)];
     Event.body := None |}.

Definition preflight : Event.t :=
  {| Event.httpMethod := "OPTIONS";
     Event.path := "/anything";
     Event.queryStringParameters := Some [("task_id", "abc")];
     Event.body := Some "{not json" |}.

(** What the vendor's answer for the task "done" parses to. *)
Definition done_props : list (string * value) :=
  [ ("status", VStr "SUCCEEDED");
    ("output", VArr [VStr "https://cdn.example/v.mp4"]);
    ("progress", VNum 1) ].

(** The request of the specification's example. *)
Definition wide_hd_image : string :=
  "{" ++ q "type" ++ ":" ++ q "image" ++ "," ++ q "prompt" ++ ":" ++ q "a cat" ++ ","
  ++ q "options" ++ ":{" ++ q "quality" ++ ":" ++ q "hd" ++ ","
  ++ q "size" ++ ":" ++ q "1792x1024" ++ "}}".

Definition wide_hd_options : value :=
  VObj [ ("quality", VStr "hd"); ("size", VStr "1792x1024") ].

(** The locals after the switch on that request. *)
Definition wide_hd_generation : GenerateCreative.generation :=
  {| GenerateCreative.result :=
       VObj [ ("image_url", VStr "https://img.example/1.png");
              ("revised_prompt", VStr "a cat, sitting");
              ("model", VStr "dall-e-3");
              ("size", VStr "1792x1024");
              ("quality", VStr "hd") ];
     GenerateCreative.cost := VNum 0.12;
     GenerateCreative.costKey := "dall-e-3-wide-hd" |}.

(** Another request for a wide HD image: other prompt, other model. *)
Definition wide_hd_options' : value :=
  VObj [ ("model", VStr "dall-e-2"); ("size", VStr "1792x1024"); ("quality", VStr "hd") ].

Definition wide_hd_generation' : GenerateCreative.generation :=
  {| GenerateCreative.result :=
       VObj [ ("image_url", VStr "https://img.example/1.png");
              ("revised_prompt", VStr "a cat, sitting");
              ("model", VStr "dall-e-2");
              ("size", VStr "1792x1024");
              ("quality", VStr "hd") ];
     GenerateCreative.cost := VNum 0.12;
     GenerateCreative.costKey := "dall-e-3-wide-hd" |}.

(** What the image vendor is sent for the first of the two. *)
Definition wide_hd_trace : trace :=
  [ Fetch
      {| url := "https://api.openai.com/v1/images/generations";
         method := "POST";
         req_headers :=
           [ ("Authorization", "Bearer sk-test");
             ("Content-Type", "application/json") ];
         req_body := Some (Node.JSON_stringify (VObj
           [ ("model", VStr "dall-e-3");
             ("prompt", VStr "a cat");
             ("n", VNum 1);
             ("size", VStr "1792x1024");
             ("quality", VStr "hd");
             ("style", VStr "vivid");
             ("response_format", VStr "url") ])) |} ].

(** The same request from a customer, named or with an empty name. *)
Definition from_customer (customer_id : string) : string :=
  "{" ++ q "type" ++ ":" ++ q "image" ++ "," ++ q "prompt" ++ ":" ++ q "a cat" ++ ","
  ++ q "customer_id" ++ ":" ++ q customer_id ++ ","
  ++ q "options" ++ ":{" ++ q "quality" ++ ":" ++ q "hd" ++ ","
  ++ q "size" ++ ":" ++ q "1792x1024" ++ "}}".

(** A deployment whose data store has a URL and no service key. *)
Definition world_without_key : World :=
  Node.world
    {| Node.openai_key := Some "sk-test";
       Node.runway_key := Some "rw-test";
       Node.supabase_url := Some "https://db.example";
       Node.supabase_key := None;
       Node.node_env := None |}
    now network.

(** Requests for a type the generator does not know. *)
Definition audio_without_prompt : string := "{" ++ q "type" ++ ":" ++ q "audio" ++ "}".

Definition audio : string :=
  "{" ++ q "type" ++ ":" ++ q "audio" ++ "," ++ q "prompt" ++ ":" ++ q "a tune" ++ "}".

Definition type_with_toString : string :=
  "{" ++ q "type" ++ ":{" ++ q "toString" ++ ":1}," ++ q "prompt" ++ ":" ++ q "x" ++ "}".

Definition video : string :=
  "{" ++ q "type" ++ ":" ++ q "video" ++ "," ++ q "prompt" ++ ":" ++ q "a cat" ++ "}".

End Example.

(** ** Vocabulary of the statements *)

(** The request the status checker sends for a task. *)
Definition task_request (w : World) (taskId : string) : request :=
  {| url := "https://api.dev.runwayml.com/v1/tasks/" ++ taskId;
     method := "GET";
     req_headers :=
       [ ("Authorization", "Bearer " ++ opt_text (RUNWAY_API_KEY w));
         ("X-Runway-Version", "2024-11-06") ];
     req_body := None |}.

(** The request the usage logger sends is addressed here. *)
Definition usage_log_url (w : World) : string :=
  opt_text (SUPABASE_URL w) ++ "/rest/v1/creative_usage".

(** The cost key as the specification words it: a 2x2 decision, quality
    "hd" or not, crossed with a wide-format size or not. *)
Definition spec_cost_key (hd wide : bool) : string :=
  match hd, wide with
  | true, true => "dall-e-3-wide-hd"
  | true, false => "dall-e-3-hd"
  | false, true => "dall-e-3-wide"
  | false, false => "dall-e-3-standard"
  end.

(** A size the cost key expression can search for "1792": a text and a
    list have an [includes]; an absent or [null] size is not searched at
    all. *)
Definition searchable_size (size : value) : Prop :=
  match size with
  | VUndefined | VNull | VStr _ | VArr _ => True
  | _ => False
  end.

(** The size contains "1792": a text in which "1792" occurs, or a list
    with the text "1792" among its elements. *)
Definition wide_size (size : value) : Prop :=
  match size with
  | VStr s => exists before after : string, s = before ++ "1792" ++ after
  | VArr elems => In (VStr "1792") elems
  | _ => False
  end.

(** Two worlds that differ at most in the usage log: the data store's
    configuration, the clock that stamps the usage event, and what the
    network answers to any request that is not addressed to a vendor. *)
Definition vendor_url (u : string) : Prop :=
  u = "https://api.openai.com/v1/images/generations"
  \/ u = "https://api.dev.runwayml.com/v1/text_to_video".

Record same_but_usage_log (w w' : World) : Prop := {
  same_openai_key : OPENAI_API_KEY w = OPENAI_API_KEY w';
  same_runway_key : RUNWAY_API_KEY w = RUNWAY_API_KEY w';
  same_node_env : NODE_ENV w = NODE_ENV w';
  same_parse : JSON_parse w = JSON_parse w';
  same_stringify : JSON_stringify w = JSON_stringify w';
  same_number_text : Number_toString w = Number_toString w';
  same_syntax_text : SyntaxError_message w = SyntaxError_message w';
  same_type_text : TypeError_message w = TypeError_message w';
  same_stack : Error_stack w = Error_stack w';
  same_vendors : forall r : request, vendor_url (url r) -> fetch w r = fetch w' r
}.

(** A POST whose body parses to a value that destructures into these
    fields, [options] being [{}] when the body has none. *)
Record parsed_request (w : World) (event : Event.t)
    (type prompt customer_id options : value) : Prop := {
  request_is_post : Event.httpMethod event = "POST";
  request_fields :
    exists body : value,
      GenerateCreative.parse_body w (Event.body event) [] = (inr body, [])
      /\ get body "type" = inr type
      /\ get body "prompt" = inr prompt
      /\ get body "customer_id" = inr customer_id
      /\ get_default body "options" (VObj []) = inr options
}.

(** The body of a successful response: the envelope with the generation
    result spread into it. *)
Definition success_response (w : World) (type : value) (g : GenerateCreative.generation)
  : Response.t :=
  GenerateCreative.json_response w 200
    (spread [ ("success", VBool true); ("type", type);
              ("cost", GenerateCreative.cost g) ]
            (GenerateCreative.result g)).

(** The last character of a text. *)
Fixpoint last_char (s : string) : option ascii :=
  match s with
  | EmptyString => None
  | String c EmptyString => Some c
  | String _ rest => last_char rest
  end.

(** ** Further vocabulary *)

(** What [v.k] gives on anything but [null] and [undefined]: the own
    property of an object, [undefined] otherwise. *)
Definition prop (v : value) (k : string) : value :=
  match v with
  | VObj props => lookup k props
  | _ => VUndefined
  end.

(** The request the image generator sends for a prompt and options. *)
Definition image_request (w : World) (prompt options : value) : request :=
  {| url := "https://api.openai.com/v1/images/generations";
     method := "POST";
     req_headers :=
       [ ("Authorization", "Bearer " ++ opt_text (OPENAI_API_KEY w));
         ("Content-Type", "application/json") ];
     req_body := Some (JSON_stringify w (VObj
       [ ("model", or_default (prop options "model") (VStr "dall-e-3"));
         ("prompt", prompt);
         ("n", VNum 1);
         ("size", or_default (prop options "size") (VStr "1024x1024"));
         ("quality", or_default (prop options "quality") (VStr "standard"));
         ("style", or_default (prop options "style") (VStr "vivid"));
         ("response_format", VStr "url") ])) |}.

(** The request the video generator sends. *)
Definition video_request (w : World) (prompt options : value) : request :=
  {| url := "https://api.dev.runwayml.com/v1/text_to_video";
     method := "POST";
     req_headers :=
       [ ("Authorization", "Bearer " ++ opt_text (RUNWAY_API_KEY w));
         ("Content-Type", "application/json");
         ("X-Runway-Version", "2024-11-06") ];
     req_body := Some (JSON_stringify w (VObj
       [ ("model", or_default (prop options "model") (VStr "gen3a_turbo"));
         ("prompt_text", prompt);
         ("duration", or_default (prop options "duration") (VNum 5));
         ("watermark", VBool false);
         ("ratio", VStr "16:9") ])) |}.

(** The request the usage logger sends for a usage event. *)
Definition usage_request (w : World) (customerId type cost : value) (costKey : string)
  : request :=
  {| url := usage_log_url w;
     method := "POST";
     req_headers :=
       [ ("apikey", opt_text (SUPABASE_SERVICE_ROLE_KEY w));
         ("Authorization", "Bearer " ++ opt_text (SUPABASE_SERVICE_ROLE_KEY w));
         ("Content-Type", "application/json");
         ("Prefer", "return=minimal") ];
     req_body := Some (JSON_stringify w (VObj
       [ ("customer_id", customerId);
         ("type", type);
         ("cost", cost);
         ("cost_key", VStr costKey);
         ("created_at", VStr (Date_toISOString w)) ])) |}.

(** What a call of the usage logger leaves in the trace: a warning when
    the data store lacks its URL or its key; otherwise the request, and
    the failure written to the console when the request is rejected. *)
Definition usage_log_effects (w : World) (customerId type cost : value)
    (costKey : string) : trace :=
  if opt_truthy (SUPABASE_URL w) && opt_truthy (SUPABASE_SERVICE_ROLE_KEY w) then
    Fetch (usage_request w customerId type cost costKey)
    :: match fetch w (usage_request w customerId type cost costKey) with
       | Rejects reason => [Console_error "Failed to log usage:" (FetchError reason)]
       | Resolves _ => []
       end
  else [Console_warn "Supabase not configured, skipping usage log"].

(** The requests of a trace, in the order they were sent. *)
Fixpoint requests (t : trace) : list request :=
  match t with
  | [] => []
  | Fetch r :: rest => r :: requests rest
  | _ :: rest => requests rest
  end.

(** What was written to the console with [console.error]. *)
Fixpoint console_errors (t : trace) : list (string * exn) :=
  match t with
  | [] => []
  | Console_error label e :: rest => (label, e) :: console_errors rest
  | _ :: rest => console_errors rest
  end.

(** The error text of the generator's catch block. *)
Definition generation_error_text (w : World) (e : exn) : string :=
  if message w e =? "" then "Generation failed" else message w e.

(** ** A deployment whose vendors fail

    The credentials are configured; the image vendor reports an error
    object, the video vendor an error text, and the task endpoint answers
    with an error, with a page that is not JSON, with [null], with a task
    that has no status, or not at all. *)
Module Failures.

Definition vendors (r : request) : option fetch_outcome :=
  if url r =? "https://api.openai.com/v1/images/generations" then
    Example.answers r ("{" ++ Example.q "error" ++ ":{" ++ Example.q "message" ++ ":"
                       ++ Example.q "Billing hard limit has been reached" ++ "}}")
  else if url r =? "https://api.dev.runwayml.com/v1/text_to_video" then
    Example.answers r ("{" ++ Example.q "error" ++ ":" ++ Example.q "Invalid prompt" ++ "}")
  else if url r =? "https://api.dev.runwayml.com/v1/tasks/missing" then
    Example.answers r ("{" ++ Example.q "error" ++ ":" ++ Example.q "Task not found" ++ "}")
  else if url r =? "https://api.dev.runwayml.com/v1/tasks/page" then
    Example.answers r "<html>Bad gateway</html>"
  else if url r =? "https://api.dev.runwayml.com/v1/tasks/null" then
    Example.answers r "null"
  else if url r =? "https://api.dev.runwayml.com/v1/tasks/odd" then
    Example.answers r ("{" ++ Example.q "progress" ++ ":0.5}")
  else None.

Definition network (r : request) : fetch_outcome :=
  match vendors r with
  | Some outcome => outcome
  | None => Rejects "socket hang up"
  end.

Definition world : World := Node.world Example.config Example.now network.

(** The example deployment with no credential at all. *)
Definition unconfigured : World :=
  Node.world
    {| Node.openai_key := None;
       Node.runway_key := Some "";
       Node.supabase_url := None;
       Node.supabase_key := None;
       Node.node_env := Some "development" |}
    Example.now Example.network.

(** A plain image request, and the same with the options it names. *)
Definition image (options : string) : string :=
  "{" ++ Example.q "type" ++ ":" ++ Example.q "image" ++ "," ++ Example.q "prompt" ++ ":"
  ++ Example.q "a cat" ++ "," ++ Example.q "customer_id" ++ ":" ++ Example.q "c-42" ++ ","
  ++ Example.q "options" ++ ":" ++ options ++ "}".

Definition video (options : string) : string :=
  "{" ++ Example.q "type" ++ ":" ++ Example.q "video" ++ "," ++ Example.q "prompt" ++ ":"
  ++ Example.q "a cat" ++ "," ++ Example.q "customer_id" ++ ":" ++ Example.q "c-42" ++ ","
  ++ Example.q "options" ++ ":" ++ options ++ "}".

Definition request (method : string) : Event.t :=
  {| Event.httpMethod := method;
     Event.path := "/generate-creative";
     Event.queryStringParameters := Some [("task_id", "done")];
     Event.body := Some Example.wide_hd_image |}.

End Failures.

(** ** A deployment whose vendors leave members out

    The image vendor answers with an image that has no revised prompt, the
    video vendor with a task that has no id. *)
Module Sparse.

Definition vendors (r : request) : option fetch_outcome :=
  if url r =? "https://api.openai.com/v1/images/generations" then
    Example.answers r ("{" ++ Example.q "data" ++ ":[{" ++ Example.q "url" ++ ":"
                       ++ Example.q "https://img.example/1.png" ++ "}]}")
  else if url r =? "https://api.dev.runwayml.com/v1/text_to_video" then
    Example.answers r "{}"
  else None.

Definition network (r : request) : fetch_outcome :=
  match vendors r with
  | Some outcome => outcome
  | None => Rejects "socket hang up"
  end.

Definition world : World := Node.world Example.config Example.now network.

End Sparse.

(** * Properties *)

(** Running monadic code on hypotheses about its parts. *)
Ltac run :=
  unfold bind, lift, ret, throw, try_catch; simpl.

Ltac run_in H :=
  unfold bind, lift, ret, throw, try_catch in H; simpl in H.

(** A request leaves one effect, whatever the network answers; reading the
    answer leaves none. *)
Lemma await_fetch_run :
  forall (w : World) (r : request) (t : trace),
    await_fetch w r t
    = (match fetch w r with
       | Rejects reason => inl (FetchError reason)
       | Resolves response => inr response
       end, (t ++ [Fetch r])%list).
Proof.
  intros. unfold await_fetch, emit. run. destruct (fetch w r); reflexivity.
Qed.

Lemma response_json_run :
  forall (w : World) (r : response) (t : trace),
    response_json w r t
    = (match JSON_parse w (response_text r) with
       | Some v => inr v
       | None =>
           inl (FetchError ("invalid json response body at " ++ response_url r
                            ++ " reason: " ++ SyntaxError_message w (response_text r)))
       end, t).
Proof.
  intros. unfold response_json. destruct (JSON_parse w (response_text r)); reflexivity.
Qed.

(** ** CORS preflight *)

(** C9.  A request with method OPTIONS is answered by either handler with
    status 200 and an empty body, whatever its path, query parameters and
    payload and whatever the configuration, and nothing is sent or logged. *)
Theorem options_preflight :
  forall (w : World) (event : Event.t),
    Event.httpMethod event = "OPTIONS" ->
    (Response.statusCode (fst (GenerateCreative.handler w event)) = 200%Z
     /\ Response.body (fst (GenerateCreative.handler w event)) = ""
     /\ snd (GenerateCreative.handler w event) = [])
    /\ (Response.statusCode (fst (VideoStatus.handler w event)) = 200%Z
        /\ Response.body (fst (VideoStatus.handler w event)) = ""
        /\ snd (VideoStatus.handler w event) = []).
Proof.
  intros w event Hmethod.
  unfold GenerateCreative.handler, VideoStatus.handler.
  rewrite Hmethod. simpl. repeat split.
Qed.

Lemma options_preflight_witness :
  (Response.statusCode (fst (GenerateCreative.handler Example.world Example.preflight)) = 200%Z
   /\ Response.body (fst (GenerateCreative.handler Example.world Example.preflight)) = ""
   /\ snd (GenerateCreative.handler Example.world Example.preflight) = [])
  /\ (Response.statusCode (fst (VideoStatus.handler Example.world Example.preflight)) = 200%Z
      /\ Response.body (fst (VideoStatus.handler Example.world Example.preflight)) = ""
      /\ snd (VideoStatus.handler Example.world Example.preflight) = []).
Proof.
  apply (options_preflight Example.world Example.preflight). reflexivity.
Defined.

(** ** Malformed request bodies *)

(** A body that is not JSON makes [JSON.parse] throw inside the [try]
    block: the catch block answers 500, not 400. *)
Lemma malformed_body_answered_500 :
  Node.JSON_parse "{not json" = None
  /\ Response.statusCode
       (fst (GenerateCreative.handler Example.world (Example.post "{not json"))) = 500%Z
  /\ Response.statusCode
       (fst (GenerateCreative.handler Example.world (Example.post "{not json"))) <> 400%Z.
Proof.
  repeat split; try reflexivity. vm_compute. discriminate.
Qed.

(** C2, as the code has it.  A POST whose body does not parse ends in the
    catch block: status 500, with the parser's message as the error text,
    after the exception is written to the console. *)
Theorem malformed_body :
  forall (w : World) (event : Event.t) (text : string),
    Event.httpMethod event = "POST" ->
    Event.body event = Some text ->
    JSON_parse w text = None ->
    GenerateCreative.handler w event
    = (GenerateCreative.handler_catch w (SyntaxError text),
       [Console_error "Generation error:" (SyntaxError text)])
    /\ Response.statusCode (fst (GenerateCreative.handler w event)) = 500%Z.
Proof.
  intros w event text Hmethod Hbody Hparse.
  assert (H : GenerateCreative.handler w event
              = (GenerateCreative.handler_catch w (SyntaxError text),
                 [Console_error "Generation error:" (SyntaxError text)])).
  { unfold GenerateCreative.handler. rewrite Hmethod. simpl.
    unfold GenerateCreative.handler_try, GenerateCreative.parse_body.
    rewrite Hbody, Hparse. reflexivity. }
  split; [exact H | rewrite H; reflexivity].
Qed.

Lemma malformed_body_witness :
  GenerateCreative.handler Example.world (Example.post "{not json")
  = (GenerateCreative.handler_catch Example.world (SyntaxError "{not json"),
     [Console_error "Generation error:" (SyntaxError "{not json")])
  /\ Response.statusCode
       (fst (GenerateCreative.handler Example.world (Example.post "{not json"))) = 500%Z.
Proof.
  apply (malformed_body Example.world (Example.post "{not json") "{not json");
    reflexivity.
Defined.

(** ** Status projection *)

(** A vendor answer with status SUCCEEDED and no output list: the handler
    leaves [video_url] undefined, not null, and the serialised body has no
    [video_url] member at all. *)
Lemma succeeded_without_output_is_undefined :
  VideoStatus.map_status (VObj [("status", VStr "SUCCEEDED")])
  = inr ("completed", VUndefined)
  /\ Response.body (fst (VideoStatus.handler Example.world (Example.status_of "bare")))
     = "{" ++ Example.q "task_id" ++ ":" ++ Example.q "bare" ++ ","
       ++ Example.q "status" ++ ":" ++ Example.q "completed" ++ ","
       ++ Example.q "raw_status" ++ ":" ++ Example.q "SUCCEEDED" ++ "}"
  /\ Response.body (fst (VideoStatus.handler Example.world (Example.status_of "bare")))
     <> Node.JSON_stringify (VObj
          [ ("task_id", VStr "bare");
            ("status", VStr "completed");
            ("video_url", VNull);
            ("progress", VUndefined);
            ("raw_status", VStr "SUCCEEDED") ]).
Proof.
  repeat split; try reflexivity. vm_compute. discriminate.
Qed.

(** C1, as the code has it.  For a GET with a non-empty task_id, a
    configured vendor credential and a vendor answer that is an object with
    a status string and no truthy error field, the response is 200 with
    [raw_status] the vendor's string and:
    - status "completed" when the vendor status is exactly "SUCCEEDED",
      with [video_url] the element at index 0 of the output list, and
      [undefined] (left out of the body) when there is no output list;
    - status "failed" and a null [video_url] when it is exactly "FAILED";
    - status "processing" and a null [video_url] for any other string. *)
Theorem status_projection :
  forall (w : World) (event : Event.t) (taskId raw : string) (answer : response)
         (props : list (string * value)),
    Event.httpMethod event = "GET" ->
    VideoStatus.query_task_id event = Some taskId ->
    taskId <> "" ->
    opt_truthy (RUNWAY_API_KEY w) = true ->
    fetch w (task_request w taskId) = Resolves answer ->
    JSON_parse w (response_text answer) = Some (VObj props) ->
    truthy (lookup "error" props) = false ->
    lookup "status" props = VStr raw ->
    exists (status : string) (video_url : value),
      VideoStatus.handler w event
      = (VideoStatus.json_response w 200
           [ ("task_id", VStr taskId);
             ("status", VStr status);
             ("video_url", video_url);
             ("progress", lookup "progress" props);
             ("raw_status", VStr raw) ],
         [Fetch (task_request w taskId)])
      /\ (raw = "SUCCEEDED" ->
          status = "completed"
          /\ (forall outputs, lookup "output" props = VArr outputs ->
                              video_url = nth 0 outputs VUndefined)
          /\ (lookup "output" props = VUndefined -> video_url = VUndefined))
      /\ (raw = "FAILED" -> status = "failed" /\ video_url = VNull)
      /\ (raw <> "SUCCEEDED" -> raw <> "FAILED" ->
          status = "processing" /\ video_url = VNull).
Proof.
  intros w event taskId raw answer props
         Hmethod Hquery Hid Hkey Hfetch Hparse Herror Hstatus.
  assert (Hrun : forall mapped,
             VideoStatus.map_status (VObj props) = inr mapped ->
             VideoStatus.handler w event
             = (VideoStatus.json_response w 200
                  [ ("task_id", VStr taskId);
                    ("status", VStr (fst mapped));
                    ("video_url", snd mapped);
                    ("progress", lookup "progress" props);
                    ("raw_status", VStr raw) ],
                [Fetch (task_request w taskId)])).
  { intros mapped Hmapped.
    unfold VideoStatus.handler. rewrite Hmethod, Hquery. simpl.
    apply String.eqb_neq in Hid. rewrite Hid. simpl.
    unfold VideoStatus.handler_try. rewrite Hkey. run.
    unfold task_request in Hfetch. simpl in Hfetch.
    rewrite await_fetch_run, Hfetch, response_json_run, Hparse. simpl.
    rewrite Herror. simpl. rewrite Hmapped. simpl. rewrite Hstatus. reflexivity. }
  unfold VideoStatus.map_status in Hrun. simpl in Hrun. rewrite Hstatus in Hrun.
  simpl in Hrun.
  destruct (raw =? "SUCCEEDED") eqn:Hs.
  - apply String.eqb_eq in Hs.
    destruct (optional_get_0 (lookup "output" props)) as [e | first] eqn:Hfirst.
    + exfalso. unfold optional_get_0, get_0 in Hfirst.
      destruct (lookup "output" props) as [ | | b | n | [ | c s] | l | p ];
        simpl in Hfirst; discriminate.
    + exists "completed", first. split; [apply (Hrun (_, _)); reflexivity | ].
      split; [ | split].
      * intros _. split; [reflexivity | split].
        -- intros outputs Hout. rewrite Hout in Hfirst. simpl in Hfirst.
           injection Hfirst as <-. reflexivity.
        -- intros Hout. rewrite Hout in Hfirst. simpl in Hfirst.
           injection Hfirst as <-. reflexivity.
      * intros Hf. subst raw. discriminate.
      * intros Hne _. contradiction.
  - apply String.eqb_neq in Hs.
    destruct (raw =? "FAILED") eqn:Hf.
    + apply String.eqb_eq in Hf.
      exists "failed", VNull. split; [apply (Hrun (_, _)); reflexivity | ].
      split; [intros; contradiction | split].
      * intros _. split; reflexivity.
      * intros _ Hne. contradiction.
    + apply String.eqb_neq in Hf.
      exists "processing", VNull. split; [apply (Hrun (_, _)); reflexivity | ].
      split; [intros; contradiction | split].
      * intros; contradiction.
      * intros _ _. split; reflexivity.
Qed.

Lemma status_projection_witness :
  exists (status : string) (video_url : value),
    VideoStatus.handler Example.world (Example.status_of "done")
    = (VideoStatus.json_response Example.world 200
         [ ("task_id", VStr "done");
           ("status", VStr status);
           ("video_url", video_url);
           ("progress", lookup "progress" Example.done_props);
           ("raw_status", VStr "SUCCEEDED") ],
       [Fetch (task_request Example.world "done")])
    /\ ("SUCCEEDED" = "SUCCEEDED" ->
        status = "completed"
        /\ (forall outputs, lookup "output" Example.done_props = VArr outputs ->
                            video_url = nth 0 outputs VUndefined)
        /\ (lookup "output" Example.done_props = VUndefined -> video_url = VUndefined))
    /\ ("SUCCEEDED" = "FAILED" -> status = "failed" /\ video_url = VNull)
    /\ ("SUCCEEDED" <> "SUCCEEDED" -> "SUCCEEDED" <> "FAILED" ->
        status = "processing" /\ video_url = VNull).
Proof.
  apply (status_projection Example.world (Example.status_of "done") "done" "SUCCEEDED"
           {| response_url := "https://api.dev.runwayml.com/v1/tasks/done";
              response_text :=
                "{" ++ Example.q "status" ++ ":" ++ Example.q "SUCCEEDED" ++ ","
                ++ Example.q "output" ++ ":[" ++ Example.q "https://cdn.example/v.mp4"
                ++ "]," ++ Example.q "progress" ++ ":1}" |}
           Example.done_props);
    try reflexivity.
  discriminate.
Defined.

(** The projection on the example deployment: a finished task, the
    specification's failed task, a running one, and a status in another
    letter case, which is none of the two exact strings. *)
Example status_bodies :
  Response.body (fst (VideoStatus.handler Example.world (Example.status_of "done")))
  = "{" ++ Example.q "task_id" ++ ":" ++ Example.q "done" ++ ","
    ++ Example.q "status" ++ ":" ++ Example.q "completed" ++ ","
    ++ Example.q "video_url" ++ ":" ++ Example.q "https://cdn.example/v.mp4" ++ ","
    ++ Example.q "progress" ++ ":1,"
    ++ Example.q "raw_status" ++ ":" ++ Example.q "SUCCEEDED" ++ "}"
  /\ Response.body (fst (VideoStatus.handler Example.world (Example.status_of "abc")))
     = "{" ++ Example.q "task_id" ++ ":" ++ Example.q "abc" ++ ","
       ++ Example.q "status" ++ ":" ++ Example.q "failed" ++ ","
       ++ Example.q "video_url" ++ ":null,"
       ++ Example.q "raw_status" ++ ":" ++ Example.q "FAILED" ++ "}"
  /\ Response.body (fst (VideoStatus.handler Example.world (Example.status_of "run")))
     = "{" ++ Example.q "task_id" ++ ":" ++ Example.q "run" ++ ","
       ++ Example.q "status" ++ ":" ++ Example.q "processing" ++ ","
       ++ Example.q "video_url" ++ ":null,"
       ++ Example.q "progress" ++ ":0.25,"
       ++ Example.q "raw_status" ++ ":" ++ Example.q "RUNNING" ++ "}"
  /\ VideoStatus.map_status (VObj [("status", VStr "succeeded")]) = inr ("processing", VNull).
Proof.
  repeat split; reflexivity.
Qed.

(** ** How a run of the generator unfolds *)

(** Case analysis on the next thing a run depends on. *)
Ltac step H :=
  match type of H with
  | context [match ?x with _ => _ end] =>
      destruct x eqn:?; simpl in H; try discriminate H
  end.

Lemma strict_eq_str_true :
  forall (v : value) (lit : string), strict_eq_str v lit = true -> v = VStr lit.
Proof.
  intros v lit H. destruct v; simpl in H; try discriminate.
  apply String.eqb_eq in H. now subst.
Qed.

(** Reading a property of a value that is neither [null] nor [undefined]. *)
Lemma get_present :
  forall (v : value) (k : string), nullish v = false -> get v k = inr (prop v k).
Proof.
  intros v k H. destruct v; simpl in *; try discriminate; reflexivity.
Qed.

Lemma get_default_present :
  forall (v : value) (k : string) (d : value),
    nullish v = false -> get_default v k d = inr (or_default (prop v k) d).
Proof.
  intros v k d H. unfold get_default. rewrite get_present by exact H. reflexivity.
Qed.

Lemma defaulted_options_present :
  forall options : value,
    options <> VNull -> nullish (or_default options (VObj [])) = false.
Proof.
  intros options H. destruct options; simpl; try reflexivity. contradiction.
Qed.

(** Options out of the destructuring are never [undefined]; unless they
    are [null] they can be read, and defaulting them again changes
    nothing. *)
Lemma destructured_options_present :
  forall body options : value,
    get_default body "options" (VObj []) = inr options ->
    options <> VNull ->
    nullish options = false /\ or_default options (VObj []) = options.
Proof.
  intros body options Hoptions Hnotnull.
  unfold get_default in Hoptions.
  destruct (get body "options") as [e | o]; [discriminate | ].
  injection Hoptions as <-.
  destruct o; simpl in *; try (split; reflexivity). contradiction.
Qed.

(** The usage logger never throws. *)
Lemma logUsage_returns :
  forall (w : World) (customerId type cost : value) (costKey : string) (t : trace),
  exists t' : trace,
    GenerateCreative.logUsage w customerId type cost costKey t = (inr tt, t').
Proof.
  intros. unfold GenerateCreative.logUsage. run.
  destruct (negb (opt_truthy (SUPABASE_URL w))
            || negb (opt_truthy (SUPABASE_SERVICE_ROLE_KEY w))); simpl.
  - eexists; reflexivity.
  - rewrite await_fetch_run. destruct (fetch w _); simpl; eexists; reflexivity.
Qed.

(** A generated image is an object of exactly five properties, and the
    only effect of generating it is the request to the image vendor. *)
Lemma generateImage_shape :
  forall (w : World) (prompt options r : value) (t t' : trace),
    GenerateCreative.generateImage w prompt options t = (inr r, t') ->
    exists (image_url revised_prompt model size quality : value) (req : request),
      r = VObj [ ("image_url", image_url);
                 ("revised_prompt", revised_prompt);
                 ("model", model);
                 ("size", size);
                 ("quality", quality) ]
      /\ url req = "https://api.openai.com/v1/images/generations"
      /\ t' = (t ++ [Fetch req])%list.
Proof.
  intros w prompt options r t t' H.
  unfold GenerateCreative.generateImage in H. run_in H.
  rewrite ?await_fetch_run, ?response_json_run in H.
  repeat (step H; rewrite ?await_fetch_run, ?response_json_run in H).
  injection H as <- <-. do 6 eexists. split; [reflexivity | ].
  split; [ | reflexivity]. reflexivity.
Qed.

(** A generated video is an object of six properties: the five of the
    task handle and a note. *)
Lemma generateVideo_shape :
  forall (w : World) (prompt options r : value) (t t' : trace),
    GenerateCreative.generateVideo w prompt options t = (inr r, t') ->
    exists (task_id model duration : value) (poll_url : string) (req : request),
      r = VObj [ ("task_id", task_id);
                 ("status", VStr "processing");
                 ("poll_url", VStr poll_url);
                 ("model", model);
                 ("duration", duration);
                 ("note", VStr "Video is generating. Poll the task_id endpoint for completion.") ]
      /\ url req = "https://api.dev.runwayml.com/v1/text_to_video"
      /\ t' = (t ++ [Fetch req])%list.
Proof.
  intros w prompt options r t t' H.
  unfold GenerateCreative.generateVideo in H. run_in H.
  rewrite ?await_fetch_run, ?response_json_run in H.
  repeat (step H; rewrite ?await_fetch_run, ?response_json_run in H).
  injection H as <- <-. do 5 eexists. split; [reflexivity | ].
  split; [ | reflexivity]. reflexivity.
Qed.

Lemma get_inr :
  forall (v x : value) (k : string), get v k = inr x -> x = prop v k.
Proof.
  intros v x k H. destruct v; simpl in H; try discriminate;
    now injection H as <-.
Qed.

(** An image generation that returns: the vendor answered the request, the
    answer parsed, and the result is made of the first element of the
    answer's [data] and of the options as they were sent. *)
Lemma generateImage_returns :
  forall (w : World) (prompt options r : value) (t t' : trace),
    nullish options = false ->
    GenerateCreative.generateImage w prompt options t = (inr r, t') ->
    exists (answer : response) (data item : value),
      fetch w (image_request w prompt options) = Resolves answer
      /\ JSON_parse w (response_text answer) = Some data
      /\ get_0 (prop data "data") = inr item
      /\ r = VObj
               [ ("image_url", prop item "url");
                 ("revised_prompt", prop item "revised_prompt");
                 ("model", or_default (prop options "model") (VStr "dall-e-3"));
                 ("size", or_default (prop options "size") (VStr "1024x1024"));
                 ("quality", or_default (prop options "quality") (VStr "standard")) ]
      /\ t' = (t ++ [Fetch (image_request w prompt options)])%list.
Proof.
  intros w prompt options r t t' Hpresent H.
  assert (Hdefault : or_default options (VObj []) = options)
    by (destruct options; try reflexivity; discriminate).
  unfold GenerateCreative.generateImage in H. rewrite Hdefault in H.
  destruct (opt_truthy (OPENAI_API_KEY w)); [ | discriminate].
  simpl in H. run_in H.
  rewrite !get_default_present in H by exact Hpresent. simpl in H.
  rewrite await_fetch_run in H.
  destruct (fetch w (image_request w prompt options)) as [reason | answer] eqn:Hfetch;
    pose proof Hfetch as Hsent; unfold image_request in Hsent; simpl in Hsent;
    rewrite Hsent in H; simpl in H; [discriminate | ].
  rewrite response_json_run in H.
  destruct (JSON_parse w (response_text answer)) as [data | ] eqn:Hparse;
    simpl in H; [ | discriminate].
  destruct (get data "error") as [e | error]; simpl in H; [discriminate | ].
  destruct (truthy error); simpl in H.
  { destruct (get error "message") as [e | m]; simpl in H; [discriminate | ].
    destruct (new_Error w m); discriminate. }
  destruct (get data "data") as [e | items] eqn:Hitems; simpl in H; [discriminate | ].
  destruct (get_0 items) as [e | item] eqn:Hitem; simpl in H; [discriminate | ].
  destruct (get item "url") as [e | image_url] eqn:Hurl; simpl in H; [discriminate | ].
  destruct (get item "revised_prompt") as [e | revised_prompt] eqn:Hrevised;
    simpl in H; [discriminate | ].
  injection H as <- <-.
  apply get_inr in Hitems, Hurl, Hrevised. subst.
  exists answer, data, item. auto.
Qed.

(** A video generation that returns: the vendor answered the request, the
    answer parsed, and the result is made of the answer's [id] and of the
    options as they were sent. *)
Lemma generateVideo_returns :
  forall (w : World) (prompt options r : value) (t t' : trace),
    nullish options = false ->
    GenerateCreative.generateVideo w prompt options t = (inr r, t') ->
    exists (answer : response) (data : value) (id_text : string),
      fetch w (video_request w prompt options) = Resolves answer
      /\ JSON_parse w (response_text answer) = Some data
      /\ ToString w (prop data "id") = inr id_text
      /\ r = VObj
               [ ("task_id", prop data "id");
                 ("status", VStr "processing");
                 ("poll_url", VStr ("https://api.dev.runwayml.com/v1/tasks/" ++ id_text));
                 ("model", or_default (prop options "model") (VStr "gen3a_turbo"));
                 ("duration", or_default (prop options "duration") (VNum 5));
                 ("note", VStr "Video is generating. Poll the task_id endpoint for completion.") ]
      /\ t' = (t ++ [Fetch (video_request w prompt options)])%list.
Proof.
  intros w prompt options r t t' Hpresent H.
  assert (Hdefault : or_default options (VObj []) = options)
    by (destruct options; try reflexivity; discriminate).
  unfold GenerateCreative.generateVideo in H. rewrite Hdefault in H.
  destruct (opt_truthy (RUNWAY_API_KEY w)); [ | discriminate].
  simpl in H. run_in H.
  rewrite !get_default_present in H by exact Hpresent. simpl in H.
  rewrite await_fetch_run in H.
  destruct (fetch w (video_request w prompt options)) as [reason | answer] eqn:Hfetch;
    pose proof Hfetch as Hsent; unfold video_request in Hsent; simpl in Hsent;
    rewrite Hsent in H; simpl in H; [discriminate | ].
  rewrite response_json_run in H.
  destruct (JSON_parse w (response_text answer)) as [data | ] eqn:Hparse;
    simpl in H; [ | discriminate].
  destruct (get data "error") as [e | error]; simpl in H; [discriminate | ].
  destruct (truthy error); simpl in H.
  { destruct (new_Error w error); discriminate. }
  destruct (get data "id") as [e | id] eqn:Hid; simpl in H; [discriminate | ].
  destruct (ToString w id) as [e | id_text] eqn:Htext; simpl in H; [discriminate | ].
  injection H as <- <-.
  apply get_inr in Hid. subst.
  exists answer, data, id_text. auto.
Qed.

(** A generator that returns was given options that are not [null]. *)
Lemma generateImage_options :
  forall (w : World) (prompt r : value) (t t' : trace),
    GenerateCreative.generateImage w prompt VNull t <> (inr r, t').
Proof.
  intros w prompt r t t' H. unfold GenerateCreative.generateImage in H.
  destruct (opt_truthy (OPENAI_API_KEY w)); discriminate.
Qed.

Lemma generateVideo_options :
  forall (w : World) (prompt r : value) (t t' : trace),
    GenerateCreative.generateVideo w prompt VNull t <> (inr r, t').
Proof.
  intros w prompt r t t' H. unfold GenerateCreative.generateVideo in H.
  destruct (opt_truthy (RUNWAY_API_KEY w)); discriminate.
Qed.

(** What a completed switch did. *)
Lemma switch_type_some :
  forall (w : World) (type prompt options : value) (t t' : trace)
         (g : GenerateCreative.generation),
    GenerateCreative.switch_type w type prompt options t = (inr (Some g), t') ->
    (type = VStr "image"
     /\ GenerateCreative.generateImage w prompt options t
         = (inr (GenerateCreative.result g), t')
     /\ GenerateCreative.image_costKey options = inr (GenerateCreative.costKey g)
     /\ GenerateCreative.cost g
         = GenerateCreative.COSTS_at (GenerateCreative.costKey g))
    \/ (type = VStr "video"
        /\ GenerateCreative.generateVideo w prompt options t
            = (inr (GenerateCreative.result g), t')
        /\ GenerateCreative.costKey g = "runway-video"
        /\ GenerateCreative.cost g = GenerateCreative.COSTS_at "runway-video").
Proof.
  intros w type prompt options t t' g H.
  unfold GenerateCreative.switch_type in H.
  destruct (strict_eq_str type "image") eqn:Himage.
  - left. apply strict_eq_str_true in Himage. run_in H.
    destruct (GenerateCreative.generateImage w prompt options t) as [[e | r] t1];
      [discriminate | ].
    destruct (GenerateCreative.image_costKey options) as [e | k]; [discriminate | ].
    injection H as <- <-. auto.
  - destruct (strict_eq_str type "video") eqn:Hvideo; [ | discriminate].
    right. apply strict_eq_str_true in Hvideo. run_in H.
    destruct (GenerateCreative.generateVideo w prompt options t) as [[e | r] t1];
      [discriminate | ].
    injection H as <- <-. auto.
Qed.

(** The cost key of an image is the entry of the 2x2 table. *)
Lemma image_costKey_inr :
  forall (options : value) (k : string),
    GenerateCreative.image_costKey options = inr k ->
    exists quality size wide : value,
      get options "quality" = inr quality
      /\ get options "size" = inr size
      /\ optional_includes size "1792" = inr wide
      /\ k = spec_cost_key (strict_eq_str quality "hd") (truthy wide).
Proof.
  intros options k H.
  unfold GenerateCreative.image_costKey, GenerateCreative.wide_format in H.
  destruct (get options "quality") as [e | quality]; [discriminate | ].
  destruct (get options "size") as [e | size];
    [destruct (strict_eq_str quality "hd"); discriminate | ].
  destruct (optional_includes size "1792") as [e | wide] eqn:Hwide;
    [destruct (strict_eq_str quality "hd"); discriminate | ].
  exists quality, size, wide.
  split; [reflexivity | ]. split; [reflexivity | ]. split; [exact Hwide | ].
  destruct (strict_eq_str quality "hd"), (truthy wide);
    injection H as <-; reflexivity.
Qed.

Lemma parse_body_run :
  forall (w : World) (body : option string) (t : trace),
    GenerateCreative.parse_body w body t
    = (match JSON_parse w (match body with Some s => s | None => "null" end) with
       | Some v => inr v
       | None => inl (SyntaxError (match body with Some s => s | None => "null" end))
       end, t).
Proof.
  intros. unfold GenerateCreative.parse_body.
  destruct (JSON_parse w _); reflexivity.
Qed.

(** A request that passes validation and whose generation completes is
    answered with the success envelope; the usage logger runs in between
    when the request names a customer and the data store has a URL. *)
Lemma handler_success :
  forall (w : World) (event : Event.t) (type prompt customer_id options : value)
         (g : GenerateCreative.generation) (t1 : trace),
    parsed_request w event type prompt customer_id options ->
    truthy type = true ->
    truthy prompt = true ->
    GenerateCreative.switch_type w type prompt options [] = (inr (Some g), t1) ->
    GenerateCreative.handler w event
    = (success_response w type g,
       if truthy customer_id && opt_truthy (SUPABASE_URL w)
       then snd (GenerateCreative.logUsage w customer_id type
                   (GenerateCreative.cost g) (GenerateCreative.costKey g) t1)
       else t1).
Proof.
  intros w event type prompt customer_id options g t1
         [Hmethod (body & Hparse & Htype & Hprompt & Hcustomer & Hoptions)]
         Htruthy Hprompt_truthy Hswitch.
  unfold GenerateCreative.handler. rewrite Hmethod. simpl.
  unfold GenerateCreative.handler_try. run.
  rewrite Hparse, Htype, Hprompt, Hcustomer, Hoptions, Htruthy, Hprompt_truthy. simpl.
  rewrite Hswitch.
  destruct (truthy customer_id && opt_truthy (SUPABASE_URL w)).
  - destruct (logUsage_returns w customer_id type (GenerateCreative.cost g)
                (GenerateCreative.costKey g) t1) as [t' Hlog].
    rewrite Hlog. reflexivity.
  - reflexivity.
Qed.

(** Conversely, a POST answered 200 passed validation and its generation
    completed. *)
Lemma handler_200 :
  forall (w : World) (event : Event.t),
    Event.httpMethod event = "POST" ->
    Response.statusCode (fst (GenerateCreative.handler w event)) = 200%Z ->
    exists (type prompt customer_id options : value)
           (g : GenerateCreative.generation) (t1 : trace),
      parsed_request w event type prompt customer_id options
      /\ truthy type = true
      /\ truthy prompt = true
      /\ GenerateCreative.switch_type w type prompt options [] = (inr (Some g), t1)
      /\ fst (GenerateCreative.handler w event) = success_response w type g.
Proof.
  intros w event Hmethod Hstatus.
  unfold GenerateCreative.handler in Hstatus. rewrite Hmethod in Hstatus.
  simpl in Hstatus.
  destruct (GenerateCreative.handler_try w event []) as [[e | r] t] eqn:Htry;
    simpl in Hstatus; [discriminate | ].
  unfold GenerateCreative.handler_try in Htry. run_in Htry.
  destruct (GenerateCreative.parse_body w (Event.body event) [])
    as [[e | body] t0] eqn:Hparse; [discriminate | ].
  assert (t0 = []) by (rewrite parse_body_run in Hparse; now injection Hparse).
  subst t0.
  destruct (get body "type") as [e | type] eqn:Htype; [discriminate | ].
  destruct (get body "prompt") as [e | prompt] eqn:Hprompt; [discriminate | ].
  destruct (get body "customer_id") as [e | customer_id] eqn:Hcustomer;
    [discriminate | ].
  destruct (get_default body "options" (VObj [])) as [e | options] eqn:Hoptions;
    [discriminate | ].
  destruct (truthy type) eqn:Htruthy; simpl in Htry;
    [ | injection Htry as <- <-; discriminate].
  destruct (truthy prompt) eqn:Hprompt_truthy; simpl in Htry;
    [ | injection Htry as <- <-; discriminate].
  destruct (GenerateCreative.switch_type w type prompt options [])
    as [[e | [g | ]] t1] eqn:Hswitch; [discriminate | | ].
  - exists type, prompt, customer_id, options, g, t1.
    assert (Hreq : parsed_request w event type prompt customer_id options).
    { split; [exact Hmethod | exists body; auto]. }
    repeat (split; [assumption | ]).
    rewrite (handler_success w event type prompt customer_id options g t1);
      auto.
  - destruct (ToString w type); [discriminate | ].
    injection Htry as <- <-. discriminate.
Qed.

(** ** Cost *)

(** "1792" occurs in a text exactly when [contains] finds it. *)
Lemma prefix_spec :
  forall needle haystack : string,
    String.prefix needle haystack = true <-> exists after, haystack = needle ++ after.
Proof.
  induction needle as [ | c needle IH]; intros haystack.
  - split; [intros _; exists haystack; reflexivity | ].
    intros _. destruct haystack; reflexivity.
  - destruct haystack as [ | c' haystack]; simpl.
    + split; [discriminate | intros [after H]; discriminate].
    + destruct (ascii_dec c c') as [<- | Hc].
      * rewrite IH. split; intros [after H]; exists after.
        -- now rewrite H.
        -- now injection H.
      * split; [discriminate | ]. intros [after H]. injection H as H _.
        now subst.
Qed.

Lemma contains_spec :
  forall haystack needle : string,
    contains haystack needle = true
    <-> exists before after, haystack = before ++ needle ++ after.
Proof.
  intros haystack needle. split.
  - induction haystack as [ | c haystack IH]; intros H; cbn [contains] in H;
      apply orb_true_iff in H; destruct H as [H | H]; try discriminate H.
    + apply prefix_spec in H. destruct H as [after H]. now exists "", after.
    + apply prefix_spec in H. destruct H as [after H]. now exists "", after.
    + destruct (IH H) as (before & after & ->).
      now exists (String c before), after.
  - intros (before & after & ->).
    induction before as [ | c before IH].
    + assert (H : String.prefix needle (needle ++ after) = true)
        by (apply prefix_spec; now exists after).
      change ("" ++ needle ++ after) with (needle ++ after).
      destruct (needle ++ after); cbn [contains]; rewrite H; reflexivity.
    + change (String c before ++ needle ++ after)
        with (String c (before ++ needle ++ after)).
      cbn [contains]. rewrite IH. apply orb_true_r.
Qed.

(** A list includes a text exactly when the text is one of its elements. *)
Lemma includes_spec :
  forall (elems : list value) (lit : string),
    existsb (fun x => strict_eq_str x lit) elems = true <-> In (VStr lit) elems.
Proof.
  intros elems lit. rewrite existsb_exists. split.
  - intros (x & Hin & Heq). apply strict_eq_str_true in Heq. now subst.
  - intros Hin. exists (VStr lit). split; [exact Hin | ]. simpl.
    apply String.eqb_refl.
Qed.

(** On a size that can be searched, [options.size?.includes('1792')] is
    truthy exactly when the size contains "1792". *)
Lemma wide_format_spec :
  forall options : value,
    nullish options = false ->
    searchable_size (prop options "size") ->
    exists wide : value,
      GenerateCreative.wide_format options = inr wide
      /\ (truthy wide = true <-> wide_size (prop options "size")).
Proof.
  intros options Hpresent Hsize. unfold GenerateCreative.wide_format.
  rewrite get_present by exact Hpresent.
  destruct (prop options "size") as [ | | b | n | s | elems | props];
    simpl in *; try contradiction.
  - exists VUndefined. split; [reflexivity | ]. split; [discriminate | contradiction].
  - exists VUndefined. split; [reflexivity | ]. split; [discriminate | contradiction].
  - exists (VBool (contains s "1792")). split; [reflexivity | ].
    apply contains_spec.
  - exists (VBool (existsb (fun x => strict_eq_str x "1792") elems)).
    split; [reflexivity | ]. apply includes_spec.
Qed.

(** An image is generated for a size that is a number, and then no cost
    key is chosen: the expression that chooses it throws, the switch does
    not complete, and the request is answered 500. *)
Lemma image_generated_without_cost_key :
  fst (GenerateCreative.generateImage Example.world (VStr "a cat")
         (VObj [("size", VNum 1792)]) [])
  = inr (VObj [ ("image_url", VStr "https://img.example/1.png");
                ("revised_prompt", VStr "a cat, sitting");
                ("model", VStr "dall-e-3");
                ("size", VNum 1792);
                ("quality", VStr "standard") ])
  /\ GenerateCreative.image_costKey (VObj [("size", VNum 1792)])
     = inl (TypeError (NotAFunction "includes"))
  /\ fst (GenerateCreative.switch_type Example.world (VStr "image") (VStr "a cat")
            (VObj [("size", VNum 1792)]) [])
     = inl (TypeError (NotAFunction "includes"))
  /\ Response.statusCode
       (fst (GenerateCreative.handler Example.world
               (Example.post (Failures.image ("{" ++ Example.q "size" ++ ":1792}")))))
     = 500%Z.
Proof.
  repeat split; reflexivity.
Qed.

(** C3, as the code has it.  For image options that are not [null] and a
    size that is absent, [null], a text or a list, the cost key is the
    entry of the 2x2 table for quality "hd" or not, crossed with a size
    that contains "1792" or not: a text contains it when "1792" occurs in
    it, a list when the text "1792" is one of its elements, an absent or
    [null] size does not.  The key is one of the four dall-e-3 entries of
    the price table, and a request for such an image whose generation
    returns completes the switch with that key and is answered with the
    price of that entry as its cost.  In particular the options quality
    "hd", size "1792x1024" give the key "dall-e-3-wide-hd" and the cost
    0.12. *)
Theorem image_cost_key_2x2 :
  forall (options : value) (hd wide : bool),
    nullish options = false ->
    searchable_size (prop options "size") ->
    (hd = true <-> prop options "quality" = VStr "hd") ->
    (wide = true <-> wide_size (prop options "size")) ->
    GenerateCreative.image_costKey options = inr (spec_cost_key hd wide)
    /\ In (spec_cost_key hd wide)
          [ "dall-e-3-standard"; "dall-e-3-hd"; "dall-e-3-wide"; "dall-e-3-wide-hd" ]
    /\ (exists c : float,
           GenerateCreative.price GenerateCreative.COSTS (spec_cost_key hd wide) = Some c
           /\ forall (w : World) (event : Event.t) (prompt customer_id r : value)
                     (t1 : trace),
                parsed_request w event (VStr "image") prompt customer_id options ->
                truthy prompt = true ->
                GenerateCreative.generateImage w prompt options [] = (inr r, t1) ->
                GenerateCreative.switch_type w (VStr "image") prompt options []
                = (inr (Some {| GenerateCreative.result := r;
                                GenerateCreative.cost := VNum c;
                                GenerateCreative.costKey := spec_cost_key hd wide |}),
                   t1)
                /\ fst (GenerateCreative.handler w event)
                   = GenerateCreative.json_response w 200
                       (spread [ ("success", VBool true);
                                 ("type", VStr "image");
                                 ("cost", VNum c) ] r))
    /\ GenerateCreative.image_costKey
         (VObj [ ("quality", VStr "hd"); ("size", VStr "1792x1024") ])
       = inr "dall-e-3-wide-hd"
    /\ GenerateCreative.COSTS_at "dall-e-3-wide-hd" = VNum 0.12.
Proof.
  intros options hd wide Hpresent Hsize Hhd Hwide.
  assert (Hquality : strict_eq_str (prop options "quality") "hd" = hd).
  { destruct hd.
    - destruct Hhd as [Hhd _]. rewrite (Hhd eq_refl). reflexivity.
    - destruct (strict_eq_str (prop options "quality") "hd") eqn:Heq; [ | reflexivity].
      apply strict_eq_str_true in Heq. symmetry. now apply Hhd. }
  destruct (wide_format_spec options Hpresent Hsize) as (v & Hformat & Hv).
  assert (Htruthy : truthy v = wide).
  { destruct wide.
    - apply Hv, Hwide. reflexivity.
    - destruct (truthy v); [ | reflexivity].
      symmetry. apply Hwide, Hv. reflexivity. }
  assert (Hkey : GenerateCreative.image_costKey options = inr (spec_cost_key hd wide)).
  { unfold GenerateCreative.image_costKey.
    rewrite get_present by exact Hpresent. rewrite Hquality, Hformat, Htruthy.
    destruct hd, wide; reflexivity. }
  split; [exact Hkey | ].
  split; [destruct hd, wide; simpl; auto | ].
  split; [ | split; reflexivity].
  assert (Hprice : exists c : float,
             GenerateCreative.price GenerateCreative.COSTS (spec_cost_key hd wide)
             = Some c)
    by (destruct hd, wide; eexists; reflexivity).
  destruct Hprice as [c Hprice]. exists c. split; [exact Hprice | ].
  intros w event prompt customer_id r t1 Hrequest Hprompt Hgen.
  assert (Hswitch : GenerateCreative.switch_type w (VStr "image") prompt options []
                    = (inr (Some {| GenerateCreative.result := r;
                                    GenerateCreative.cost := VNum c;
                                    GenerateCreative.costKey := spec_cost_key hd wide |}),
                       t1)).
  { unfold GenerateCreative.switch_type. simpl. run.
    rewrite Hgen, Hkey. unfold GenerateCreative.COSTS_at. rewrite Hprice.
    reflexivity. }
  split; [exact Hswitch | ].
  rewrite (handler_success w event (VStr "image") prompt customer_id options _ t1
             Hrequest eq_refl Hprompt Hswitch).
  reflexivity.
Qed.

Lemma image_cost_key_2x2_witness :
  GenerateCreative.image_costKey Example.wide_hd_options = inr "dall-e-3-wide-hd"
  /\ In "dall-e-3-wide-hd"
        [ "dall-e-3-standard"; "dall-e-3-hd"; "dall-e-3-wide"; "dall-e-3-wide-hd" ]
  /\ (exists c : float,
         GenerateCreative.price GenerateCreative.COSTS "dall-e-3-wide-hd" = Some c
         /\ forall (w : World) (event : Event.t) (prompt customer_id r : value)
                   (t1 : trace),
              parsed_request w event (VStr "image") prompt customer_id
                Example.wide_hd_options ->
              truthy prompt = true ->
              GenerateCreative.generateImage w prompt Example.wide_hd_options []
              = (inr r, t1) ->
              GenerateCreative.switch_type w (VStr "image") prompt
                Example.wide_hd_options []
              = (inr (Some {| GenerateCreative.result := r;
                              GenerateCreative.cost := VNum c;
                              GenerateCreative.costKey := "dall-e-3-wide-hd" |}),
                 t1)
              /\ fst (GenerateCreative.handler w event)
                 = GenerateCreative.json_response w 200
                     (spread [ ("success", VBool true);
                               ("type", VStr "image");
                               ("cost", VNum c) ] r))
  /\ GenerateCreative.image_costKey
       (VObj [ ("quality", VStr "hd"); ("size", VStr "1792x1024") ])
     = inr "dall-e-3-wide-hd"
  /\ GenerateCreative.COSTS_at "dall-e-3-wide-hd" = VNum 0.12.
Proof.
  apply (image_cost_key_2x2 Example.wide_hd_options true true).
  - reflexivity.
  - exact I.
  - split; reflexivity.
  - split; [intros _; exists "", "x1024"; reflexivity | reflexivity].
Defined.

(** The specification's example request, end to end: the response carries
    the cost 0.12 and the usage event the key "dall-e-3-wide-hd"; the four
    corners of the table on plain options. *)
Example wide_hd_request :
  Response.body (fst (GenerateCreative.handler Example.world
                        (Example.post Example.wide_hd_image)))
  = "{" ++ Example.q "success" ++ ":true," ++ Example.q "type" ++ ":" ++ Example.q "image"
    ++ "," ++ Example.q "cost" ++ ":0.12,"
    ++ Example.q "image_url" ++ ":" ++ Example.q "https://img.example/1.png" ++ ","
    ++ Example.q "revised_prompt" ++ ":" ++ Example.q "a cat, sitting" ++ ","
    ++ Example.q "model" ++ ":" ++ Example.q "dall-e-3" ++ ","
    ++ Example.q "size" ++ ":" ++ Example.q "1792x1024" ++ ","
    ++ Example.q "quality" ++ ":" ++ Example.q "hd" ++ "}"
  /\ GenerateCreative.image_costKey (VObj [("quality", VStr "hd")]) = inr "dall-e-3-hd"
  /\ GenerateCreative.image_costKey (VObj [("size", VStr "1024x1792")])
     = inr "dall-e-3-wide"
  /\ GenerateCreative.image_costKey (VObj []) = inr "dall-e-3-standard"
  /\ GenerateCreative.image_costKey (VObj [("quality", VStr "HD"); ("size", VNull)])
     = inr "dall-e-3-standard".
Proof.
  repeat split; reflexivity.
Qed.

(** The cost key of an image looks at the quality and the size only. *)
Lemma image_costKey_same :
  forall options1 options2 : value,
    get options1 "quality" = get options2 "quality" ->
    get options1 "size" = get options2 "size" ->
    GenerateCreative.image_costKey options1 = GenerateCreative.image_costKey options2.
Proof.
  intros options1 options2 Hquality Hsize.
  unfold GenerateCreative.image_costKey, GenerateCreative.wide_format.
  rewrite Hquality, Hsize. reflexivity.
Qed.

(** C6.  The cost is a function of the type and of the quality and size
    options alone: two runs of the switch on the same type and on options
    with the same quality and size, in whatever worlds, on whatever
    prompts and other options, compute the same cost key and the same
    cost. *)
Theorem cost_is_determined :
  forall (w1 w2 : World) (type prompt1 prompt2 options1 options2 : value)
         (t1 t1' t2 t2' : trace) (g1 g2 : GenerateCreative.generation),
    get options1 "quality" = get options2 "quality" ->
    get options1 "size" = get options2 "size" ->
    GenerateCreative.switch_type w1 type prompt1 options1 t1 = (inr (Some g1), t1') ->
    GenerateCreative.switch_type w2 type prompt2 options2 t2 = (inr (Some g2), t2') ->
    GenerateCreative.costKey g1 = GenerateCreative.costKey g2
    /\ GenerateCreative.cost g1 = GenerateCreative.cost g2.
Proof.
  intros w1 w2 type prompt1 prompt2 options1 options2 t1 t1' t2 t2' g1 g2
         Hquality Hsize H1 H2.
  apply switch_type_some in H1. apply switch_type_some in H2.
  destruct H1 as [(Htype1 & _ & Hkey1 & Hcost1) | (Htype1 & _ & Hkey1 & Hcost1)];
    destruct H2 as [(Htype2 & _ & Hkey2 & Hcost2) | (Htype2 & _ & Hkey2 & Hcost2)];
    try congruence.
  - rewrite (image_costKey_same _ _ Hquality Hsize) in Hkey1.
    assert (Hsame : GenerateCreative.costKey g1 = GenerateCreative.costKey g2)
      by congruence.
    split; [exact Hsame | congruence].
  - split; congruence.
Qed.

Lemma cost_is_determined_witness :
  GenerateCreative.costKey Example.wide_hd_generation
  = GenerateCreative.costKey Example.wide_hd_generation'
  /\ GenerateCreative.cost Example.wide_hd_generation
     = GenerateCreative.cost Example.wide_hd_generation'.
Proof.
  apply (cost_is_determined Example.world Example.world_up (VStr "image")
           (VStr "a cat") (VStr "a dog") Example.wide_hd_options Example.wide_hd_options'
           [] Example.wide_hd_trace
           [Console_warn "earlier"]
           (snd (GenerateCreative.switch_type Example.world_up (VStr "image")
                   (VStr "a dog") Example.wide_hd_options' [Console_warn "earlier"])));
    reflexivity.
Defined.

(** A request destructures in one way only. *)
Lemma parsed_request_unique :
  forall (w : World) (event : Event.t)
         (type prompt customer_id options type' prompt' customer_id' options' : value),
    parsed_request w event type prompt customer_id options ->
    parsed_request w event type' prompt' customer_id' options' ->
    type = type' /\ prompt = prompt' /\ customer_id = customer_id' /\ options = options'.
Proof.
  intros w event type prompt customer_id options type' prompt' customer_id' options'
         [_ (body & Hparse & Htype & Hprompt & Hcustomer & Hoptions)]
         [_ (body' & Hparse' & Htype' & Hprompt' & Hcustomer' & Hoptions')].
  assert (body' = body) by congruence. subst body'.
  repeat split; congruence.
Qed.

(** The same, seen from outside: two requests of the same type whose
    options have the same quality and size, both answered 200, are
    answered with the same cost. *)
Lemma responses_carry_the_same_cost :
  forall (w1 w2 : World) (event1 event2 : Event.t)
         (type prompt1 prompt2 customer1 customer2 options1 options2 : value),
    parsed_request w1 event1 type prompt1 customer1 options1 ->
    parsed_request w2 event2 type prompt2 customer2 options2 ->
    get options1 "quality" = get options2 "quality" ->
    get options1 "size" = get options2 "size" ->
    Response.statusCode (fst (GenerateCreative.handler w1 event1)) = 200%Z ->
    Response.statusCode (fst (GenerateCreative.handler w2 event2)) = 200%Z ->
    exists g1 g2 : GenerateCreative.generation,
      fst (GenerateCreative.handler w1 event1) = success_response w1 type g1
      /\ fst (GenerateCreative.handler w2 event2) = success_response w2 type g2
      /\ GenerateCreative.costKey g1 = GenerateCreative.costKey g2
      /\ GenerateCreative.cost g1 = GenerateCreative.cost g2.
Proof.
  intros w1 w2 event1 event2 type prompt1 prompt2 customer1 customer2 options1 options2
         Hrequest1 Hrequest2 Hquality Hsize Hstatus1 Hstatus2.
  destruct (handler_200 w1 event1 (request_is_post _ _ _ _ _ _ Hrequest1) Hstatus1)
    as (ty1 & p1 & c1 & o1 & g1 & t1 & Hparsed1 & _ & _ & Hswitch1 & Hresponse1).
  destruct (handler_200 w2 event2 (request_is_post _ _ _ _ _ _ Hrequest2) Hstatus2)
    as (ty2 & p2 & c2 & o2 & g2 & t2 & Hparsed2 & _ & _ & Hswitch2 & Hresponse2).
  destruct (parsed_request_unique _ _ _ _ _ _ _ _ _ _ Hrequest1 Hparsed1)
    as (<- & <- & <- & <-).
  destruct (parsed_request_unique _ _ _ _ _ _ _ _ _ _ Hrequest2 Hparsed2)
    as (<- & <- & <- & <-).
  exists g1, g2. split; [exact Hresponse1 | split; [exact Hresponse2 | ]].
  assert (Hsame : GenerateCreative.costKey g1 = GenerateCreative.costKey g2
                  /\ GenerateCreative.cost g1 = GenerateCreative.cost g2).
  { apply switch_type_some in Hswitch1. apply switch_type_some in Hswitch2.
    destruct Hswitch1 as [(Htype1 & _ & Hkey1 & Hcost1) | (Htype1 & _ & Hkey1 & Hcost1)];
      destruct Hswitch2 as [(Htype2 & _ & Hkey2 & Hcost2) | (Htype2 & _ & Hkey2 & Hcost2)];
      try congruence.
    - rewrite (image_costKey_same _ _ Hquality Hsize) in Hkey1.
      assert (Hkey : GenerateCreative.costKey g1 = GenerateCreative.costKey g2)
        by congruence.
      split; [exact Hkey | congruence].
    - split; congruence. }
  exact Hsame.
Qed.

(** C7.  Whenever the switch completes, for an image or for a video, the
    cost key is one of the six keys of the cost table and the cost is the
    number the table holds for it, never [undefined], whatever the options
    are. *)
Theorem cost_key_in_table :
  forall (w : World) (type prompt options : value) (t t' : trace)
         (g : GenerateCreative.generation),
    GenerateCreative.switch_type w type prompt options t = (inr (Some g), t') ->
    List.length GenerateCreative.COSTS = 6
    /\ In (GenerateCreative.costKey g) (map fst GenerateCreative.COSTS)
    /\ (exists c : float,
           GenerateCreative.price GenerateCreative.COSTS (GenerateCreative.costKey g)
           = Some c
           /\ GenerateCreative.cost g = VNum c)
    /\ GenerateCreative.cost g <> VUndefined.
Proof.
  intros w type prompt options t t' g Hswitch.
  apply switch_type_some in Hswitch.
  assert (Hkeys : In (GenerateCreative.costKey g)
                    [ "dall-e-3-standard"; "dall-e-3-hd"; "dall-e-3-wide";
                      "dall-e-3-wide-hd"; "runway-video" ]
                  /\ GenerateCreative.cost g
                     = GenerateCreative.COSTS_at (GenerateCreative.costKey g)).
  { destruct Hswitch as [(_ & _ & Hkey & Hcost) | (_ & _ & Hkey & Hcost)].
    - apply image_costKey_inr in Hkey.
      destruct Hkey as (quality & size & wide & _ & _ & _ & Hkey).
      split; [ | exact Hcost]. rewrite Hkey.
      destruct (strict_eq_str quality "hd"), (truthy wide); simpl; auto.
    - split; [rewrite Hkey; simpl; auto 6 | now rewrite Hkey]. }
  destruct Hkeys as [Hin Hcost].
  assert (Hprice : exists c : float,
             GenerateCreative.price GenerateCreative.COSTS (GenerateCreative.costKey g)
             = Some c
             /\ GenerateCreative.cost g = VNum c).
  { rewrite Hcost. unfold GenerateCreative.COSTS_at.
    simpl in Hin.
    destruct Hin as [<- | [<- | [<- | [<- | [<- | []]]]]];
      eexists; split; reflexivity. }
  split; [reflexivity | ]. split; [ | split; [exact Hprice | ]].
  - simpl in *. tauto.
  - destruct Hprice as (c & _ & ->). discriminate.
Qed.

Lemma cost_key_in_table_witness :
  List.length GenerateCreative.COSTS = 6
  /\ In (GenerateCreative.costKey Example.wide_hd_generation)
        (map fst GenerateCreative.COSTS)
  /\ (exists c : float,
         GenerateCreative.price GenerateCreative.COSTS
           (GenerateCreative.costKey Example.wide_hd_generation) = Some c
         /\ GenerateCreative.cost Example.wide_hd_generation = VNum c)
  /\ GenerateCreative.cost Example.wide_hd_generation <> VUndefined.
Proof.
  apply (cost_key_in_table Example.world (VStr "image") (VStr "a cat")
           Example.wide_hd_options [] Example.wide_hd_trace Example.wide_hd_generation).
  reflexivity.
Defined.

(** ** The success envelope *)

(** The result of a video generation has a sixth property, [note], and it
    reaches the response body: the body is not the envelope over the five
    properties task_id, status, poll_url, model and duration. *)
Lemma video_result_carries_a_note :
  Response.statusCode
    (fst (GenerateCreative.handler Example.world (Example.post Example.video))) = 200%Z
  /\ Response.body
       (fst (GenerateCreative.handler Example.world (Example.post Example.video)))
     = "{" ++ Example.q "success" ++ ":true," ++ Example.q "type" ++ ":" ++ Example.q "video"
       ++ "," ++ Example.q "cost" ++ ":0.5,"
       ++ Example.q "task_id" ++ ":" ++ Example.q "task-1" ++ ","
       ++ Example.q "status" ++ ":" ++ Example.q "processing" ++ ","
       ++ Example.q "poll_url" ++ ":"
       ++ Example.q "https://api.dev.runwayml.com/v1/tasks/task-1" ++ ","
       ++ Example.q "model" ++ ":" ++ Example.q "gen3a_turbo" ++ ","
       ++ Example.q "duration" ++ ":5,"
       ++ Example.q "note" ++ ":"
       ++ Example.q "Video is generating. Poll the task_id endpoint for completion."
       ++ "}"
  /\ Response.body
       (fst (GenerateCreative.handler Example.world (Example.post Example.video)))
     <> Node.JSON_stringify (VObj
          [ ("success", VBool true);
            ("type", VStr "video");
            ("cost", VNum 0.5);
            ("task_id", VStr "task-1");
            ("status", VStr "processing");
            ("poll_url", VStr "https://api.dev.runwayml.com/v1/tasks/task-1");
            ("model", VStr "gen3a_turbo");
            ("duration", VNum 5) ]).
Proof.
  repeat split; try reflexivity. vm_compute. discriminate.
Qed.

(** C8, as the code has it.  Every 200 answer to a POST is the serialised
    object [{success: true, type, cost, ...result}] for the fields the
    request's body destructures into: [type] is the request's type, "image"
    or "video"; [cost] is the price that the table has for the cost key;
    [result] is what the generation returned.  For an image the result has
    exactly the properties image_url, revised_prompt, model, size and
    quality: the [url] and the [revised_prompt] of the first element of
    [data] in the vendor's answer to the request for this prompt and these
    options, and the model, size and quality that were sent.  For a video
    it has exactly the properties task_id, status, poll_url, model,
    duration and note: the [id] of the vendor's answer, "processing", the
    task endpoint for that id, the model and duration that were sent, and
    the note.  A property the vendor's answer lacks (url, revised_prompt,
    id) is a property of this object with the value [undefined];
    [JSON.stringify] leaves such a property out of the text, as the
    example after the theorem shows on Node. *)
Theorem success_envelope :
  forall (w : World) (event : Event.t),
    Event.httpMethod event = "POST" ->
    Response.statusCode (fst (GenerateCreative.handler w event)) = 200%Z ->
    exists (type prompt customer_id options : value),
      parsed_request w event type prompt customer_id options
      /\ ((type = VStr "image"
           /\ exists (answer : response) (data item : value) (costKey : string) (c : float),
                fetch w (image_request w prompt options) = Resolves answer
                /\ JSON_parse w (response_text answer) = Some data
                /\ get_0 (prop data "data") = inr item
                /\ fst (GenerateCreative.generateImage w prompt options [])
                   = inr (VObj
                       [ ("image_url", prop item "url");
                         ("revised_prompt", prop item "revised_prompt");
                         ("model", or_default (prop options "model") (VStr "dall-e-3"));
                         ("size", or_default (prop options "size") (VStr "1024x1024"));
                         ("quality", or_default (prop options "quality") (VStr "standard")) ])
                /\ GenerateCreative.image_costKey options = inr costKey
                /\ GenerateCreative.price GenerateCreative.COSTS costKey = Some c
                /\ fst (GenerateCreative.handler w event)
                   = GenerateCreative.json_response w 200
                       [ ("success", VBool true);
                         ("type", VStr "image");
                         ("cost", VNum c);
                         ("image_url", prop item "url");
                         ("revised_prompt", prop item "revised_prompt");
                         ("model", or_default (prop options "model") (VStr "dall-e-3"));
                         ("size", or_default (prop options "size") (VStr "1024x1024"));
                         ("quality", or_default (prop options "quality") (VStr "standard")) ])
          \/ (type = VStr "video"
              /\ exists (answer : response) (data : value) (id_text : string),
                   fetch w (video_request w prompt options) = Resolves answer
                   /\ JSON_parse w (response_text answer) = Some data
                   /\ ToString w (prop data "id") = inr id_text
                   /\ fst (GenerateCreative.generateVideo w prompt options [])
                      = inr (VObj
                          [ ("task_id", prop data "id");
                            ("status", VStr "processing");
                            ("poll_url",
                             VStr ("https://api.dev.runwayml.com/v1/tasks/" ++ id_text));
                            ("model", or_default (prop options "model") (VStr "gen3a_turbo"));
                            ("duration", or_default (prop options "duration") (VNum 5));
                            ("note", VStr "Video is generating. Poll the task_id endpoint for completion.") ])
                   /\ GenerateCreative.price GenerateCreative.COSTS "runway-video" = Some 0.5%float
                   /\ fst (GenerateCreative.handler w event)
                      = GenerateCreative.json_response w 200
                          [ ("success", VBool true);
                            ("type", VStr "video");
                            ("cost", VNum 0.5);
                            ("task_id", prop data "id");
                            ("status", VStr "processing");
                            ("poll_url",
                             VStr ("https://api.dev.runwayml.com/v1/tasks/" ++ id_text));
                            ("model", or_default (prop options "model") (VStr "gen3a_turbo"));
                            ("duration", or_default (prop options "duration") (VNum 5));
                            ("note", VStr "Video is generating. Poll the task_id endpoint for completion.") ])).
Proof.
  intros w event Hmethod Hstatus.
  destruct (handler_200 w event Hmethod Hstatus)
    as (type & prompt & customer_id & options & g & t1
        & Hrequest & _ & _ & Hswitch & Hresponse).
  exists type, prompt, customer_id, options. split; [exact Hrequest | ].
  destruct Hrequest as [_ (body & _ & _ & _ & _ & Hoptions)].
  rewrite Hresponse. unfold success_response.
  apply switch_type_some in Hswitch.
  destruct Hswitch as [(Htype & Hgen & Hkey & Hcost) | (Htype & Hgen & Hkey & Hcost)].
  - left. split; [exact Htype | ].
    assert (Hnotnull : options <> VNull)
      by (intros ->; exact (generateImage_options w prompt _ _ _ Hgen)).
    destruct (destructured_options_present body options Hoptions Hnotnull)
      as [Hpresent _].
    destruct (generateImage_returns w prompt options _ _ _ Hpresent Hgen)
      as (answer & data & item & Hfetch & Hparse & Hitem & Hresult & _).
    assert (Hprice : exists c : float,
               GenerateCreative.price GenerateCreative.COSTS (GenerateCreative.costKey g)
               = Some c).
    { destruct (image_costKey_inr options _ Hkey)
        as (quality & size & wide & _ & _ & _ & ->).
      destruct (strict_eq_str quality "hd"), (truthy wide); eexists; reflexivity. }
    destruct Hprice as [c Hprice].
    exists answer, data, item, (GenerateCreative.costKey g), c.
    rewrite Hgen, Hcost, Hresult, Htype. unfold GenerateCreative.COSTS_at.
    rewrite Hprice. repeat (split; [assumption || reflexivity | ]). reflexivity.
  - right. split; [exact Htype | ].
    assert (Hnotnull : options <> VNull)
      by (intros ->; exact (generateVideo_options w prompt _ _ _ Hgen)).
    destruct (destructured_options_present body options Hoptions Hnotnull)
      as [Hpresent _].
    destruct (generateVideo_returns w prompt options _ _ _ Hpresent Hgen)
      as (answer & data & id_text & Hfetch & Hparse & Htext & Hresult & _).
    exists answer, data, id_text.
    rewrite Hgen, Hcost, Hresult, Htype.
    repeat (split; [assumption || reflexivity | ]). reflexivity.
Qed.

Lemma success_envelope_witness :
  exists (type prompt customer_id options : value),
    parsed_request Example.world (Example.post Example.video) type prompt customer_id options
    /\ ((type = VStr "image"
         /\ exists (answer : response) (data item : value) (costKey : string) (c : float),
              fetch Example.world (image_request Example.world prompt options) = Resolves answer
              /\ JSON_parse Example.world (response_text answer) = Some data
              /\ get_0 (prop data "data") = inr item
              /\ fst (GenerateCreative.generateImage Example.world prompt options [])
                 = inr (VObj
                     [ ("image_url", prop item "url");
                       ("revised_prompt", prop item "revised_prompt");
                       ("model", or_default (prop options "model") (VStr "dall-e-3"));
                       ("size", or_default (prop options "size") (VStr "1024x1024"));
                       ("quality", or_default (prop options "quality") (VStr "standard")) ])
              /\ GenerateCreative.image_costKey options = inr costKey
              /\ GenerateCreative.price GenerateCreative.COSTS costKey = Some c
              /\ fst (GenerateCreative.handler Example.world (Example.post Example.video))
                 = GenerateCreative.json_response Example.world 200
                     [ ("success", VBool true);
                       ("type", VStr "image");
                       ("cost", VNum c);
                       ("image_url", prop item "url");
                       ("revised_prompt", prop item "revised_prompt");
                       ("model", or_default (prop options "model") (VStr "dall-e-3"));
                       ("size", or_default (prop options "size") (VStr "1024x1024"));
                       ("quality", or_default (prop options "quality") (VStr "standard")) ])
        \/ (type = VStr "video"
            /\ exists (answer : response) (data : value) (id_text : string),
                 fetch Example.world (video_request Example.world prompt options) = Resolves answer
                 /\ JSON_parse Example.world (response_text answer) = Some data
                 /\ ToString Example.world (prop data "id") = inr id_text
                 /\ fst (GenerateCreative.generateVideo Example.world prompt options [])
                    = inr (VObj
                        [ ("task_id", prop data "id");
                          ("status", VStr "processing");
                          ("poll_url",
                           VStr ("https://api.dev.runwayml.com/v1/tasks/" ++ id_text));
                          ("model", or_default (prop options "model") (VStr "gen3a_turbo"));
                          ("duration", or_default (prop options "duration") (VNum 5));
                          ("note", VStr "Video is generating. Poll the task_id endpoint for completion.") ])
                 /\ GenerateCreative.price GenerateCreative.COSTS "runway-video" = Some 0.5%float
                 /\ fst (GenerateCreative.handler Example.world (Example.post Example.video))
                    = GenerateCreative.json_response Example.world 200
                        [ ("success", VBool true);
                          ("type", VStr "video");
                          ("cost", VNum 0.5);
                          ("task_id", prop data "id");
                          ("status", VStr "processing");
                          ("poll_url",
                           VStr ("https://api.dev.runwayml.com/v1/tasks/" ++ id_text));
                          ("model", or_default (prop options "model") (VStr "gen3a_turbo"));
                          ("duration", or_default (prop options "duration") (VNum 5));
                          ("note", VStr "Video is generating. Poll the task_id endpoint for completion.") ])).
Proof.
  apply (success_envelope Example.world (Example.post Example.video)); reflexivity.
Defined.

(** What becomes of a property the vendor's answer lacks, on Node: the
    result has it with the value [undefined], and [JSON.stringify] leaves
    it out of the body.  An image without a revised prompt and a video
    task without an id. *)
Example members_the_vendor_left_out :
  fst (GenerateCreative.generateImage Sparse.world (VStr "a cat") (VObj []) [])
  = inr (VObj [ ("image_url", VStr "https://img.example/1.png");
                ("revised_prompt", VUndefined);
                ("model", VStr "dall-e-3");
                ("size", VStr "1024x1024");
                ("quality", VStr "standard") ])
  /\ Response.body
       (fst (GenerateCreative.handler Sparse.world (Example.post (Failures.image "{}"))))
     = "{" ++ Example.q "success" ++ ":true," ++ Example.q "type" ++ ":" ++ Example.q "image"
       ++ "," ++ Example.q "cost" ++ ":0.04,"
       ++ Example.q "image_url" ++ ":" ++ Example.q "https://img.example/1.png" ++ ","
       ++ Example.q "model" ++ ":" ++ Example.q "dall-e-3" ++ ","
       ++ Example.q "size" ++ ":" ++ Example.q "1024x1024" ++ ","
       ++ Example.q "quality" ++ ":" ++ Example.q "standard" ++ "}"
  /\ fst (GenerateCreative.generateVideo Sparse.world (VStr "a cat") (VObj []) [])
     = inr (VObj [ ("task_id", VUndefined);
                   ("status", VStr "processing");
                   ("poll_url", VStr "https://api.dev.runwayml.com/v1/tasks/undefined");
                   ("model", VStr "gen3a_turbo");
                   ("duration", VNum 5);
                   ("note", VStr "Video is generating. Poll the task_id endpoint for completion.") ])
  /\ Response.body
       (fst (GenerateCreative.handler Sparse.world (Example.post Example.video)))
     = "{" ++ Example.q "success" ++ ":true," ++ Example.q "type" ++ ":" ++ Example.q "video"
       ++ "," ++ Example.q "cost" ++ ":0.5,"
       ++ Example.q "status" ++ ":" ++ Example.q "processing" ++ ","
       ++ Example.q "poll_url" ++ ":"
       ++ Example.q "https://api.dev.runwayml.com/v1/tasks/undefined" ++ ","
       ++ Example.q "model" ++ ":" ++ Example.q "gen3a_turbo" ++ ","
       ++ Example.q "duration" ++ ":5,"
       ++ Example.q "note" ++ ":"
       ++ Example.q "Video is generating. Poll the task_id endpoint for completion."
       ++ "}".
Proof.
  repeat split; reflexivity.
Qed.

(** ** The usage log *)

Lemma last_char_app :
  forall s r : string, r <> "" -> last_char (s ++ r) = last_char r.
Proof.
  induction s as [ | c s IH]; intros r Hr; [reflexivity | ].
  simpl. rewrite IH by exact Hr.
  destruct (s ++ r) eqn:Happ; [ | reflexivity].
  destruct s; simpl in Happ; [contradiction | discriminate].
Qed.

(** No vendor is addressed at the usage log's URL, whatever the data
    store's base URL is. *)
Lemma usage_log_url_not_vendor :
  forall w : World, ~ vendor_url (usage_log_url w).
Proof.
  intros w Hvendor.
  assert (Hlast : last_char (usage_log_url w) = Some "e"%char).
  { unfold usage_log_url. rewrite last_char_app by discriminate. reflexivity. }
  destruct Hvendor as [Heq | Heq]; rewrite Heq in Hlast; discriminate.
Qed.

(** The only effect of a completed switch is one request to a vendor. *)
Lemma switch_type_trace :
  forall (w : World) (type prompt options : value) (t t' : trace)
         (g : GenerateCreative.generation),
    GenerateCreative.switch_type w type prompt options t = (inr (Some g), t') ->
    exists req : request, vendor_url (url req) /\ t' = (t ++ [Fetch req])%list.
Proof.
  intros w type prompt options t t' g Hswitch.
  apply switch_type_some in Hswitch.
  destruct Hswitch as [(_ & Hgen & _) | (_ & Hgen & _)].
  - apply generateImage_shape in Hgen.
    destruct Hgen as (? & ? & ? & ? & ? & req & _ & Hurl & Htrace).
    exists req. split; [left; exact Hurl | exact Htrace].
  - apply generateVideo_shape in Hgen.
    destruct Hgen as (? & ? & ? & ? & req & _ & Hurl & Htrace).
    exists req. split; [right; exact Hurl | exact Htrace].
Qed.

(** C10.  A request whose customer_id is empty, or any other falsy value,
    is treated as one without a customer: when it passes validation and
    its generation completes, the handler leaves no effect beyond the
    generation's own (no request goes to the usage log's URL and nothing
    is written to the console), whatever the data store's configuration,
    and the response is the 200 success envelope, the very response of the
    same request with any other customer_id. *)
Theorem falsy_customer_id_is_not_logged :
  forall (w : World) (event : Event.t) (type prompt customer_id options : value)
         (g : GenerateCreative.generation) (t1 : trace),
    parsed_request w event type prompt customer_id options ->
    truthy type = true ->
    truthy prompt = true ->
    GenerateCreative.switch_type w type prompt options [] = (inr (Some g), t1) ->
    truthy customer_id = false ->
    GenerateCreative.handler w event = (success_response w type g, t1)
    /\ Response.statusCode (fst (GenerateCreative.handler w event)) = 200%Z
    /\ (forall r : request,
          In (Fetch r) (snd (GenerateCreative.handler w event)) ->
          url r <> usage_log_url w)
    /\ (forall text : string,
          ~ In (Console_warn text) (snd (GenerateCreative.handler w event)))
    /\ (forall (label : string) (e : exn),
          ~ In (Console_error label e) (snd (GenerateCreative.handler w event)))
    /\ (forall (event' : Event.t) (customer_id' : value),
          parsed_request w event' type prompt customer_id' options ->
          fst (GenerateCreative.handler w event')
          = fst (GenerateCreative.handler w event)).
Proof.
  intros w event type prompt customer_id options g t1
         Hrequest Htype Hprompt Hswitch Hcustomer.
  assert (Hrun : GenerateCreative.handler w event = (success_response w type g, t1)).
  { rewrite (handler_success w event type prompt customer_id options g t1) by assumption.
    rewrite Hcustomer. reflexivity. }
  destruct (switch_type_trace _ _ _ _ _ _ _ Hswitch) as (req & Hvendor & Htrace).
  simpl in Htrace. subst t1.
  split; [exact Hrun | ]. rewrite Hrun. simpl.
  split; [reflexivity | ].
  split; [ | split; [ | split]].
  - intros r [Hr | []] Hurl. injection Hr as <-. rewrite Hurl in Hvendor.
    exact (usage_log_url_not_vendor w Hvendor).
  - intros text [Hin | []]. discriminate.
  - intros label e [Hin | []]. discriminate.
  - intros event' customer_id' Hrequest'.
    rewrite (handler_success w event' type prompt customer_id' options g [Fetch req])
      by assumption.
    reflexivity.
Qed.

Lemma falsy_customer_id_is_not_logged_witness :
  GenerateCreative.handler Example.world (Example.post (Example.from_customer ""))
  = (success_response Example.world (VStr "image") Example.wide_hd_generation,
     Example.wide_hd_trace)
  /\ Response.statusCode
       (fst (GenerateCreative.handler Example.world
               (Example.post (Example.from_customer "")))) = 200%Z
  /\ (forall r : request,
        In (Fetch r) (snd (GenerateCreative.handler Example.world
                             (Example.post (Example.from_customer "")))) ->
        url r <> usage_log_url Example.world)
  /\ (forall text : string,
        ~ In (Console_warn text)
            (snd (GenerateCreative.handler Example.world
                    (Example.post (Example.from_customer "")))))
  /\ (forall (label : string) (e : exn),
        ~ In (Console_error label e)
            (snd (GenerateCreative.handler Example.world
                    (Example.post (Example.from_customer "")))))
  /\ (forall (event' : Event.t) (customer_id' : value),
        parsed_request Example.world event' (VStr "image") (VStr "a cat") customer_id'
          Example.wide_hd_options ->
        fst (GenerateCreative.handler Example.world event')
        = fst (GenerateCreative.handler Example.world
                 (Example.post (Example.from_customer "")))).
Proof.
  apply (falsy_customer_id_is_not_logged Example.world
           (Example.post (Example.from_customer ""))
           (VStr "image") (VStr "a cat") (VStr "") Example.wide_hd_options
           Example.wide_hd_generation Example.wide_hd_trace);
    try reflexivity.
  split; [reflexivity | ].
  exists (VObj [ ("type", VStr "image"); ("prompt", VStr "a cat");
                 ("customer_id", VStr ""); ("options", Example.wide_hd_options) ]).
  repeat split; reflexivity.
Defined.

(** With a customer_id that is not falsy and a data store URL configured,
    the logger does run: with a service key too, a usage event with the
    customer, the cost and the cost key is sent to the usage log's URL,
    and the response is the same envelope. *)
Lemma named_customer_is_logged :
  forall (w : World) (event : Event.t) (type prompt customer_id options : value)
         (g : GenerateCreative.generation) (t1 : trace),
    parsed_request w event type prompt customer_id options ->
    truthy type = true ->
    truthy prompt = true ->
    GenerateCreative.switch_type w type prompt options [] = (inr (Some g), t1) ->
    truthy customer_id = true ->
    opt_truthy (SUPABASE_URL w) = true ->
    opt_truthy (SUPABASE_SERVICE_ROLE_KEY w) = true ->
    fst (GenerateCreative.handler w event) = success_response w type g
    /\ exists r : request,
         In (Fetch r) (snd (GenerateCreative.handler w event))
         /\ url r = usage_log_url w
         /\ req_body r
            = Some (JSON_stringify w (VObj
                [ ("customer_id", customer_id);
                  ("type", type);
                  ("cost", GenerateCreative.cost g);
                  ("cost_key", VStr (GenerateCreative.costKey g));
                  ("created_at", VStr (Date_toISOString w)) ])).
Proof.
  intros w event type prompt customer_id options g t1
         Hrequest Htype Hprompt Hswitch Hcustomer Hurl Hkey.
  rewrite (handler_success w event type prompt customer_id options g t1) by assumption.
  rewrite Hcustomer, Hurl. simpl. split; [reflexivity | ].
  unfold GenerateCreative.logUsage. run. rewrite Hurl, Hkey. simpl.
  rewrite await_fetch_run.
  destruct (fetch w _); simpl; eexists.
  - split.
    + apply in_or_app. left. apply in_or_app. right. left. reflexivity.
    + split; reflexivity.
  - split.
    + apply in_or_app. right. left. reflexivity.
    + split; reflexivity.
Qed.

Example named_customer_usage_event :
  exists r : request,
    In (Fetch r) (snd (GenerateCreative.handler Example.world
                         (Example.post (Example.from_customer "c-42"))))
    /\ url r = "https://db.example/rest/v1/creative_usage"
    /\ req_body r
       = Some ("{" ++ Example.q "customer_id" ++ ":" ++ Example.q "c-42" ++ ","
               ++ Example.q "type" ++ ":" ++ Example.q "image" ++ ","
               ++ Example.q "cost" ++ ":0.12,"
               ++ Example.q "cost_key" ++ ":" ++ Example.q "dall-e-3-wide-hd" ++ ","
               ++ Example.q "created_at" ++ ":" ++ Example.q Example.now ++ "}").
Proof.
  eexists. split; [right; left; reflexivity | split; reflexivity].
Qed.

(** Stepping two runs that differ only in the world, side by side. *)
Ltac agree Hvendors :=
  repeat (simpl;
          rewrite ?await_fetch_run, ?response_json_run; simpl;
          rewrite ?Hvendors by (unfold vendor_url; simpl; auto);
          try reflexivity;
          match goal with
          | |- context [match ?x with _ => _ end] =>
              lazymatch x with
              | context [match _ with _ => _ end] => fail
              | _ => destruct x eqn:?
              end
          end).

(** The generation does not look at the usage log's side of the world. *)
Lemma switch_type_agree :
  forall (w w' : World),
    same_but_usage_log w w' ->
    forall (type prompt options : value) (t : trace),
      GenerateCreative.switch_type w type prompt options t
      = GenerateCreative.switch_type w' type prompt options t.
Proof.
  intros w w' [] type prompt options t.
  destruct w, w'; simpl in *; subst.
  unfold GenerateCreative.switch_type, GenerateCreative.generateImage,
    GenerateCreative.generateVideo, new_Error, ToString.
  run. agree same_vendors0.
Qed.

Lemma handler_catch_agree :
  forall (w w' : World),
    same_but_usage_log w w' ->
    forall e : exn,
      GenerateCreative.handler_catch w e = GenerateCreative.handler_catch w' e.
Proof.
  intros w w' [] e.
  unfold GenerateCreative.handler_catch, GenerateCreative.json_response, message.
  destruct w, w'; simpl in *; subst. reflexivity.
Qed.

Lemma handler_try_agree :
  forall (w w' : World),
    same_but_usage_log w w' ->
    forall event : Event.t,
      fst (GenerateCreative.handler_try w event [])
      = fst (GenerateCreative.handler_try w' event []).
Proof.
  intros w w' Hsame event.
  unfold GenerateCreative.handler_try. run.
  rewrite !parse_body_run, <- (same_parse _ _ Hsame).
  destruct (JSON_parse w _) as [body | ]; simpl; [ | reflexivity].
  destruct (get body "type") as [e | type]; simpl; [reflexivity | ].
  destruct (get body "prompt") as [e | prompt]; simpl; [reflexivity | ].
  destruct (get body "customer_id") as [e | customer_id]; simpl; [reflexivity | ].
  destruct (get_default body "options" (VObj [])) as [e | options]; simpl;
    [reflexivity | ].
  unfold GenerateCreative.json_response, ToString.
  rewrite <- (same_stringify _ _ Hsame), <- (same_number_text _ _ Hsame).
  destruct (negb (truthy type) || negb (truthy prompt)); simpl; [reflexivity | ].
  rewrite <- (switch_type_agree w w' Hsame).
  destruct (GenerateCreative.switch_type w type prompt options [])
    as [[e | [g | ]] t1]; simpl; [reflexivity | | ].
  - destruct (truthy customer_id && opt_truthy (SUPABASE_URL w)),
             (truthy customer_id && opt_truthy (SUPABASE_URL w'));
      repeat match goal with
             | |- context [GenerateCreative.logUsage ?a ?b ?c ?d ?e ?f] =>
                 let t' := fresh "t" in
                 let H := fresh "H" in
                 destruct (logUsage_returns a b c d e f) as [t' H]; rewrite H
             end;
      reflexivity.
  - destruct (to_string (Number_toString w) type); reflexivity.
Qed.

(** C4.  The usage logger never raises: whatever it is called with and
    whatever becomes of the write (sent, refused by the network, skipped
    for want of configuration), it returns normally.  So the response of
    the generator, status and body, is the same in any two worlds that
    differ only on the usage log's side: the data store's URL and key, the
    clock, and what the network does with requests that are not addressed
    to a vendor. *)
Theorem usage_log_never_raises :
  (forall (w : World) (customerId type cost : value) (costKey : string) (t : trace),
      exists t' : trace,
        GenerateCreative.logUsage w customerId type cost costKey t = (inr tt, t'))
  /\ (forall (w w' : World) (event : Event.t),
        same_but_usage_log w w' ->
        fst (GenerateCreative.handler w event)
        = fst (GenerateCreative.handler w' event)).
Proof.
  split; [exact logUsage_returns | ].
  intros w w' event Hsame.
  unfold GenerateCreative.handler.
  destruct (Event.httpMethod event =? "OPTIONS"); [reflexivity | ].
  destruct (negb (Event.httpMethod event =? "POST")).
  - unfold GenerateCreative.json_response.
    rewrite (same_stringify _ _ Hsame). reflexivity.
  - pose proof (handler_try_agree w w' Hsame event) as Htry.
    destruct (GenerateCreative.handler_try w event []) as [[e | r] t];
      destruct (GenerateCreative.handler_try w' event []) as [[e' | r'] t'];
      simpl in Htry; try discriminate; injection Htry as <-; simpl.
    + apply handler_catch_agree. exact Hsame.
    + reflexivity.
Qed.

Lemma example_worlds_agree : same_but_usage_log Example.world Example.world_up.
Proof.
  split; try reflexivity.
  intros r Hvendor. simpl. unfold Example.network, Example.network_up, Example.vendors.
  destruct Hvendor as [-> | ->]; reflexivity.
Qed.

Lemma usage_log_never_raises_witness :
  fst (GenerateCreative.handler Example.world
         (Example.post (Example.from_customer "c-42")))
  = fst (GenerateCreative.handler Example.world_up
           (Example.post (Example.from_customer "c-42"))).
Proof.
  apply (proj2 usage_log_never_raises Example.world Example.world_up
           (Example.post (Example.from_customer "c-42"))).
  exact example_worlds_agree.
Defined.

(** A data store outage and a missing service key, seen from outside: the
    failure goes to the console and the answer is the one of the specification's
    example. *)
Example data_store_outage :
  snd (GenerateCreative.handler Example.world
         (Example.post (Example.from_customer "c-42")))
  = (Example.wide_hd_trace
     ++ [ Fetch {| url := "https://db.example/rest/v1/creative_usage";
                   method := "POST";
                   req_headers :=
                     [ ("apikey", "service-role");
                       ("Authorization", "Bearer service-role");
                       ("Content-Type", "application/json");
                       ("Prefer", "return=minimal") ];
                   req_body := Some (Node.JSON_stringify (VObj
                     [ ("customer_id", VStr "c-42");
                       ("type", VStr "image");
                       ("cost", VNum 0.12);
                       ("cost_key", VStr "dall-e-3-wide-hd");
                       ("created_at", VStr Example.now) ])) |};
          Console_error "Failed to log usage:" (FetchError "connect ECONNREFUSED") ])%list
  /\ snd (GenerateCreative.handler Example.world_without_key
            (Example.post (Example.from_customer "c-42")))
     = (Example.wide_hd_trace
        ++ [ Console_warn "Supabase not configured, skipping usage log" ])%list
  /\ fst (GenerateCreative.handler Example.world
            (Example.post (Example.from_customer "c-42")))
     = fst (GenerateCreative.handler Example.world
              (Example.post Example.wide_hd_image))
  /\ fst (GenerateCreative.handler Example.world_without_key
            (Example.post (Example.from_customer "c-42")))
     = fst (GenerateCreative.handler Example.world
              (Example.post Example.wide_hd_image)).
Proof.
  repeat split; reflexivity.
Qed.

(** ** Unknown types *)

(** A type that is neither "image" nor "video" is not always named in the
    answer, and the answer is not always 400: without a prompt the request
    is refused for its missing fields before the type is looked at, and a
    type that cannot be converted to a string ends in the catch block. *)
Lemma unknown_type_not_always_named :
  (Response.statusCode
     (fst (GenerateCreative.handler Example.world
             (Example.post Example.audio_without_prompt))) = 400%Z
   /\ Response.body
        (fst (GenerateCreative.handler Example.world
                (Example.post Example.audio_without_prompt)))
      = "{" ++ Example.q "error" ++ ":"
        ++ Example.q "Missing required fields: type, prompt" ++ "}"
   /\ contains
        (Response.body
           (fst (GenerateCreative.handler Example.world
                   (Example.post Example.audio_without_prompt))))
        "audio" = false)
  /\ Response.statusCode
       (fst (GenerateCreative.handler Example.world
               (Example.post Example.type_with_toString))) = 500%Z.
Proof.
  repeat split; reflexivity.
Qed.

(** C5, as the code has it.  Take a POST whose body parses and destructures
    and whose type is neither exactly "image" nor exactly "video".
    - If the type or the prompt is missing or falsy, the answer is 400 and
      its error is "Missing required fields: type, prompt".
    - Otherwise, if the type converts to a string (as every string,
      number, boolean does), the answer is 400 and its error names that
      string: "Unknown type: <type>. Use "image" or "video"".
    In both cases nothing is sent and nothing is logged. *)
Theorem unknown_type :
  forall (w : World) (event : Event.t) (type prompt customer_id options : value),
    parsed_request w event type prompt customer_id options ->
    strict_eq_str type "image" = false ->
    strict_eq_str type "video" = false ->
    (truthy type = false \/ truthy prompt = false ->
     GenerateCreative.handler w event
     = (GenerateCreative.json_response w 400
          [ ("error", VStr "Missing required fields: type, prompt") ], []))
    /\ (truthy type = true ->
        truthy prompt = true ->
        forall type_text : string,
          ToString w type = inr type_text ->
          GenerateCreative.handler w event
          = (GenerateCreative.json_response w 400
               [ ("error", VStr ("Unknown type: " ++ type_text ++ ". Use "
                                 ++ dquote ++ "image" ++ dquote ++ " or "
                                 ++ dquote ++ "video" ++ dquote)) ], []))
    /\ (forall type_text : string,
          ToString w type = inr type_text ->
          Response.statusCode (fst (GenerateCreative.handler w event)) = 400%Z).
Proof.
  intros w event type prompt customer_id options
         [Hmethod (body & Hparse & Htype & Hprompt & Hcustomer & Hoptions)]
         Himage Hvideo.
  assert (Hmissing : truthy type = false \/ truthy prompt = false ->
                     GenerateCreative.handler w event
                     = (GenerateCreative.json_response w 400
                          [ ("error", VStr "Missing required fields: type, prompt") ],
                        [])).
  { intros Hfalsy.
    unfold GenerateCreative.handler. rewrite Hmethod. simpl.
    unfold GenerateCreative.handler_try. run.
    rewrite Hparse, Htype, Hprompt, Hcustomer, Hoptions. simpl.
    destruct Hfalsy as [-> | ->]; simpl; [ | rewrite orb_true_r]; reflexivity. }
  assert (Hunknown : truthy type = true ->
                     truthy prompt = true ->
                     forall type_text : string,
                       ToString w type = inr type_text ->
                       GenerateCreative.handler w event
                       = (GenerateCreative.json_response w 400
                            [ ("error", VStr ("Unknown type: " ++ type_text ++ ". Use "
                                              ++ dquote ++ "image" ++ dquote ++ " or "
                                              ++ dquote ++ "video" ++ dquote)) ], [])).
  { intros Htruthy Hprompt_truthy type_text Htext.
    unfold GenerateCreative.handler. rewrite Hmethod. simpl.
    unfold GenerateCreative.handler_try. run.
    rewrite Hparse, Htype, Hprompt, Hcustomer, Hoptions, Htruthy, Hprompt_truthy. simpl.
    unfold GenerateCreative.switch_type. rewrite Himage, Hvideo. run.
    rewrite Htext. reflexivity. }
  split; [exact Hmissing | split; [exact Hunknown | ]].
  intros type_text Htext.
  destruct (truthy type) eqn:Htruthy; [destruct (truthy prompt) eqn:Hprompt_truthy | ].
  - rewrite (Hunknown eq_refl eq_refl type_text Htext). reflexivity.
  - rewrite Hmissing by (right; reflexivity). reflexivity.
  - rewrite Hmissing by (left; reflexivity). reflexivity.
Qed.

Lemma unknown_type_witness :
  (truthy (VStr "audio") = false \/ truthy (VStr "a tune") = false ->
   GenerateCreative.handler Example.world (Example.post Example.audio)
   = (GenerateCreative.json_response Example.world 400
        [ ("error", VStr "Missing required fields: type, prompt") ], []))
  /\ (truthy (VStr "audio") = true ->
      truthy (VStr "a tune") = true ->
      forall type_text : string,
        ToString Example.world (VStr "audio") = inr type_text ->
        GenerateCreative.handler Example.world (Example.post Example.audio)
        = (GenerateCreative.json_response Example.world 400
             [ ("error", VStr ("Unknown type: " ++ type_text ++ ". Use "
                               ++ dquote ++ "image" ++ dquote ++ " or "
                               ++ dquote ++ "video" ++ dquote)) ], []))
  /\ (forall type_text : string,
        ToString Example.world (VStr "audio") = inr type_text ->
        Response.statusCode
          (fst (GenerateCreative.handler Example.world (Example.post Example.audio)))
        = 400%Z).
Proof.
  apply (unknown_type Example.world (Example.post Example.audio)
           (VStr "audio") (VStr "a tune") VUndefined (VObj []));
    try reflexivity.
  split; [reflexivity | ].
  exists (VObj [ ("type", VStr "audio"); ("prompt", VStr "a tune") ]).
  repeat split; reflexivity.
Defined.

(** Unknown types on the example deployment: a string, a number, an array
    and a type in another letter case are named in a 400 answer. *)
Example unknown_type_bodies :
  Response.body (fst (GenerateCreative.handler Example.world (Example.post Example.audio)))
  = "{" ++ Example.q "error" ++ ":" ++ dquote ++ "Unknown type: audio. Use \"
    ++ dquote ++ "image\" ++ dquote ++ " or \" ++ dquote ++ "video\" ++ dquote
    ++ dquote ++ "}"
  /\ ToString Example.world (VNum 2.5) = inr "2.5"
  /\ ToString Example.world (VArr [VStr "image"; VNull; VNum 3]) = inr "image,,3"
  /\ GenerateCreative.switch_type Example.world (VStr "Image") (VStr "a cat") (VObj []) []
     = (inr None, []).
Proof.
  repeat split; reflexivity.
Qed.

(** * Further properties of the handlers *)

(** ** What the generators send *)

(** Case analysis on the next thing the run in the goal depends on. *)
Ltac step_goal :=
  match goal with
  | |- context [match ?x with _ => _ end] =>
      lazymatch x with
      | context [match _ with _ => _ end] => fail
      | _ => destruct x eqn:?
      end
  end.

(** X1.  The image generator, with its credential configured and options that
    are not [null], sends exactly one request, whatever comes of it: a
    POST to the image endpoint carrying the credential as a bearer token
    and the body [{model, prompt, n: 1, size, quality, style,
    response_format: 'url'}], where model, size, quality and style are the
    options of those names, or "dall-e-3", "1024x1024", "standard" and
    "vivid" for the ones that are absent.  When it returns, its result
    echoes the model, size and quality it sent. *)
Theorem generateImage_sends :
  forall (w : World) (prompt options : value) (t : trace),
    opt_truthy (OPENAI_API_KEY w) = true ->
    options <> VNull ->
    snd (GenerateCreative.generateImage w prompt options t)
    = (t ++ [Fetch (image_request w prompt (or_default options (VObj [])))])%list
    /\ forall r : value,
         fst (GenerateCreative.generateImage w prompt options t) = inr r ->
         exists image_url revised_prompt : value,
           r = VObj
                 [ ("image_url", image_url);
                   ("revised_prompt", revised_prompt);
                   ("model", or_default (prop (or_default options (VObj [])) "model")
                               (VStr "dall-e-3"));
                   ("size", or_default (prop (or_default options (VObj [])) "size")
                              (VStr "1024x1024"));
                   ("quality", or_default (prop (or_default options (VObj [])) "quality")
                                 (VStr "standard")) ].
Proof.
  intros w prompt options t Hkey Hoptions.
  pose proof (defaulted_options_present options Hoptions) as Hpresent.
  unfold GenerateCreative.generateImage. rewrite Hkey. run.
  rewrite !get_default_present by exact Hpresent. simpl.
  rewrite await_fetch_run. fold (image_request w prompt (or_default options (VObj []))).
  split.
  - repeat (simpl; rewrite ?response_json_run; try reflexivity; step_goal).
  - intros r.
    repeat (simpl; rewrite ?response_json_run; try discriminate; step_goal);
      simpl; try discriminate.
    intros H. injection H as <-. eauto.
Qed.

Lemma generateImage_sends_witness :
  snd (GenerateCreative.generateImage Example.world (VStr "a cat")
         (VObj [("size", VStr "1792x1024"); ("style", VNull)]) [])
  = ([] ++ [Fetch (image_request Example.world (VStr "a cat")
                     (or_default (VObj [("size", VStr "1792x1024"); ("style", VNull)])
                        (VObj [])))])%list
  /\ forall r : value,
       fst (GenerateCreative.generateImage Example.world (VStr "a cat")
              (VObj [("size", VStr "1792x1024"); ("style", VNull)]) []) = inr r ->
       exists image_url revised_prompt : value,
         r = VObj
               [ ("image_url", image_url);
                 ("revised_prompt", revised_prompt);
                 ("model",
                  or_default
                    (prop (or_default (VObj [("size", VStr "1792x1024"); ("style", VNull)])
                             (VObj [])) "model")
                    (VStr "dall-e-3"));
                 ("size",
                  or_default
                    (prop (or_default (VObj [("size", VStr "1792x1024"); ("style", VNull)])
                             (VObj [])) "size")
                    (VStr "1024x1024"));
                 ("quality",
                  or_default
                    (prop (or_default (VObj [("size", VStr "1792x1024"); ("style", VNull)])
                             (VObj [])) "quality")
                    (VStr "standard")) ].
Proof.
  apply (generateImage_sends Example.world (VStr "a cat")
           (VObj [("size", VStr "1792x1024"); ("style", VNull)]) []).
  - reflexivity.
  - discriminate.
Defined.

(** The body the image vendor receives for those options: the absent
    model and quality are defaulted, the null style is sent as it is. *)
Example image_request_body :
  req_body (image_request Example.world (VStr "a cat")
              (VObj [("size", VStr "1792x1024"); ("style", VNull)]))
  = Some ("{" ++ Example.q "model" ++ ":" ++ Example.q "dall-e-3" ++ ","
          ++ Example.q "prompt" ++ ":" ++ Example.q "a cat" ++ ","
          ++ Example.q "n" ++ ":1,"
          ++ Example.q "size" ++ ":" ++ Example.q "1792x1024" ++ ","
          ++ Example.q "quality" ++ ":" ++ Example.q "standard" ++ ","
          ++ Example.q "style" ++ ":null,"
          ++ Example.q "response_format" ++ ":" ++ Example.q "url" ++ "}").
Proof.
  reflexivity.
Qed.

(** X2.  The video generator, with its credential configured and options that
    are not [null], sends exactly one request, whatever comes of it: a
    POST to the text-to-video endpoint with the credential as a bearer
    token, the API version header and the body [{model, prompt_text,
    duration, watermark: false, ratio: '16:9'}], where duration and model
    are the options of those names, or 5 and "gen3a_turbo" when absent. *)
Theorem generateVideo_sends :
  forall (w : World) (prompt options : value) (t : trace),
    opt_truthy (RUNWAY_API_KEY w) = true ->
    options <> VNull ->
    snd (GenerateCreative.generateVideo w prompt options t)
    = (t ++ [Fetch (video_request w prompt (or_default options (VObj [])))])%list.
Proof.
  intros w prompt options t Hkey Hoptions.
  pose proof (defaulted_options_present options Hoptions) as Hpresent.
  unfold GenerateCreative.generateVideo. rewrite Hkey. run.
  rewrite !get_default_present by exact Hpresent. simpl.
  rewrite await_fetch_run. fold (video_request w prompt (or_default options (VObj []))).
  repeat (simpl; rewrite ?response_json_run; try reflexivity; step_goal).
Qed.

Lemma generateVideo_sends_witness :
  snd (GenerateCreative.generateVideo Example.world (VStr "a cat")
         (VObj [("duration", VNum 10)]) [])
  = ([] ++ [Fetch (video_request Example.world (VStr "a cat")
                     (or_default (VObj [("duration", VNum 10)]) (VObj [])))])%list.
Proof.
  apply (generateVideo_sends Example.world (VStr "a cat")
           (VObj [("duration", VNum 10)]) []).
  - reflexivity.
  - discriminate.
Defined.

Example video_request_body :
  req_body (video_request Example.world (VStr "a cat") (VObj [("duration", VNum 10)]))
  = Some ("{" ++ Example.q "model" ++ ":" ++ Example.q "gen3a_turbo" ++ ","
          ++ Example.q "prompt_text" ++ ":" ++ Example.q "a cat" ++ ","
          ++ Example.q "duration" ++ ":10,"
          ++ Example.q "watermark" ++ ":false,"
          ++ Example.q "ratio" ++ ":" ++ Example.q "16:9" ++ "}").
Proof.
  reflexivity.
Qed.

(** ** The status checker: requests and failures *)

Lemma requests_app :
  forall t1 t2 : trace, requests (t1 ++ t2)%list = (requests t1 ++ requests t2)%list.
Proof.
  induction t1 as [ | [r | label e | text] t1 IH]; intros t2; simpl;
    rewrite ?IH; reflexivity.
Qed.

Lemma console_errors_app :
  forall t1 t2 : trace,
    console_errors (t1 ++ t2)%list = (console_errors t1 ++ console_errors t2)%list.
Proof.
  induction t1 as [ | [r | label e | text] t1 IH]; intros t2; simpl;
    rewrite ?IH; reflexivity.
Qed.

(** X3.  The status checker sends a request in one situation only: the method
    is GET, the query has a non-empty task_id and the vendor credential is
    configured.  It then sends exactly one, a GET without body to the
    vendor's task endpoint for that task_id, with the credential as a
    bearer token and the API version header; in every other situation it
    sends nothing. *)
Theorem status_checker_requests :
  forall (w : World) (event : Event.t),
    requests (snd (VideoStatus.handler w event))
    = if (Event.httpMethod event =? "GET")
         && opt_truthy (VideoStatus.query_task_id event)
         && opt_truthy (RUNWAY_API_KEY w)
      then [task_request w (opt_text (VideoStatus.query_task_id event))]
      else [].
Proof.
  intros w event. unfold VideoStatus.handler.
  destruct (Event.httpMethod event =? "OPTIONS") eqn:Hoptions.
  - apply String.eqb_eq in Hoptions. rewrite Hoptions. reflexivity.
  - destruct (Event.httpMethod event =? "GET"); simpl; [ | reflexivity].
    destruct (opt_truthy (VideoStatus.query_task_id event)); simpl; [ | reflexivity].
    unfold VideoStatus.handler_try.
    destruct (opt_truthy (RUNWAY_API_KEY w)); simpl; [ | reflexivity].
    run. rewrite await_fetch_run.
    fold (task_request w (opt_text (VideoStatus.query_task_id event))).
    repeat (simpl; rewrite ?response_json_run, ?requests_app; try reflexivity;
            step_goal).
Qed.

(** The status checker on the two example deployments: one request for a
    task, none for a preflight, for a POST or without a task_id. *)
Example status_checker_requests_sent :
  requests (snd (VideoStatus.handler Example.world (Example.status_of "done")))
  = [task_request Example.world "done"]
  /\ requests (snd (VideoStatus.handler Failures.world (Example.status_of "missing")))
     = [task_request Failures.world "missing"]
  /\ requests (snd (VideoStatus.handler Example.world Example.preflight)) = []
  /\ requests (snd (VideoStatus.handler Example.world (Failures.request "POST"))) = []
  /\ requests (snd (VideoStatus.handler Example.world (Example.status_of ""))) = []
  /\ requests (snd (VideoStatus.handler Failures.unconfigured (Example.status_of "done")))
     = [].
Proof.
  repeat split; reflexivity.
Qed.

(** The try block of the status checker writes nothing to the console, and
    what it returns is a 200 answer with the CORS headers. *)
Lemma status_try_outcome :
  forall (w : World) (taskId : string),
    console_errors (snd (VideoStatus.handler_try w taskId [])) = []
    /\ forall r : Response.t,
         fst (VideoStatus.handler_try w taskId []) = inr r ->
         Response.statusCode r = 200%Z /\ Response.headers r = VideoStatus.headers.
Proof.
  intros w taskId. unfold VideoStatus.handler_try.
  destruct (opt_truthy (RUNWAY_API_KEY w)); simpl;
    [ | split; [reflexivity | discriminate]].
  run. rewrite await_fetch_run.
  split.
  - repeat (simpl; rewrite ?response_json_run; try reflexivity; step_goal).
  - intros r.
    repeat (simpl; rewrite ?response_json_run; try discriminate; step_goal);
      simpl; try discriminate.
    intros H. injection H as <-. split; reflexivity.
Qed.

(** Closing the cases of a classification of answers. *)
Ltac settle :=
  repeat split; intros; try discriminate; try reflexivity; simpl; auto;
  try (match goal with H : _ /\ _ |- _ => destruct H end; congruence);
  try congruence.

(** X4.  The answers of the status checker.  Every answer carries the CORS
    headers of the handler and one of the statuses 200, 400, 405, 500.
    The status is 405 exactly when the method is neither OPTIONS nor GET,
    and 400 exactly when the method is GET and the query has no non-empty
    task_id.  A 500 answer is always the catch block's: the exception was
    written to the console, once, and its message is the error text of
    the body; no other answer writes to the console. *)
Theorem status_checker_answers :
  forall (w : World) (event : Event.t),
    Response.headers (fst (VideoStatus.handler w event)) = VideoStatus.headers
    /\ In (Response.statusCode (fst (VideoStatus.handler w event)))
          [200%Z; 400%Z; 405%Z; 500%Z]
    /\ (Response.statusCode (fst (VideoStatus.handler w event)) = 405%Z
        <-> Event.httpMethod event <> "OPTIONS" /\ Event.httpMethod event <> "GET")
    /\ (Response.statusCode (fst (VideoStatus.handler w event)) = 400%Z
        <-> Event.httpMethod event = "GET"
            /\ opt_truthy (VideoStatus.query_task_id event) = false)
    /\ (Response.statusCode (fst (VideoStatus.handler w event)) = 500%Z ->
        exists e : exn,
          console_errors (snd (VideoStatus.handler w event))
          = [("Status check error:", e)]
          /\ Response.body (fst (VideoStatus.handler w event))
             = JSON_stringify w (VObj [("error", VStr (message w e))]))
    /\ (Response.statusCode (fst (VideoStatus.handler w event)) <> 500%Z ->
        console_errors (snd (VideoStatus.handler w event)) = []).
Proof.
  intros w event. unfold VideoStatus.handler.
  destruct (Event.httpMethod event =? "OPTIONS") eqn:Hoptions.
  { apply String.eqb_eq in Hoptions. simpl. settle. }
  apply String.eqb_neq in Hoptions.
  destruct (Event.httpMethod event =? "GET") eqn:Hget; simpl.
  2:{ apply String.eqb_neq in Hget. settle. }
  apply String.eqb_eq in Hget.
  destruct (opt_truthy (VideoStatus.query_task_id event)) eqn:Htask; simpl.
  2:{ settle. }
  destruct (status_try_outcome w (opt_text (VideoStatus.query_task_id event)))
    as [Hconsole Hanswer].
  destruct (VideoStatus.handler_try w (opt_text (VideoStatus.query_task_id event)) [])
    as [[e | r] t]; simpl in *.
  - assert (Hlogged : console_errors (t ++ [Console_error "Status check error:" e])%list
                      = [("Status check error:", e)])
      by (rewrite console_errors_app, Hconsole; reflexivity).
    repeat split; intros; try discriminate; try reflexivity; simpl; auto;
      try (exists e; split; [exact Hlogged | reflexivity]);
      try (match goal with H : _ /\ _ |- _ => destruct H end; congruence);
      congruence.
  - destruct (Hanswer r eq_refl) as [Hstatus Hheaders]. rewrite Hstatus, Hheaders.
    settle.
Qed.

(** Failures of the status checker on the example deployments: a missing
    credential, a task the vendor does not know, an answer that is not
    JSON, an answer that is [null], and no answer at all. *)
Example status_checker_failures :
  Response.body (fst (VideoStatus.handler Failures.unconfigured (Example.status_of "done")))
  = "{" ++ Example.q "error" ++ ":" ++ Example.q "RUNWAY_API_KEY not configured" ++ "}"
  /\ Response.body (fst (VideoStatus.handler Failures.world (Example.status_of "missing")))
     = "{" ++ Example.q "error" ++ ":" ++ Example.q "Task not found" ++ "}"
  /\ Response.statusCode
       (fst (VideoStatus.handler Failures.world (Example.status_of "page"))) = 500%Z
  /\ Response.statusCode
       (fst (VideoStatus.handler Failures.world (Example.status_of "null"))) = 500%Z
  /\ VideoStatus.handler Failures.world (Example.status_of "down")
     = (VideoStatus.json_response Failures.world 500
          [("error", VStr "socket hang up")],
        [ Fetch (task_request Failures.world "down");
          Console_error "Status check error:" (FetchError "socket hang up") ]).
Proof.
  repeat split; reflexivity.
Qed.

(** X5.  Without the vendor credential (unset or empty), a GET for a task is
    answered 500 with the error text "RUNWAY_API_KEY not configured", and
    the vendor is not contacted. *)
Theorem status_checker_missing_credential :
  forall (w : World) (event : Event.t) (taskId : string),
    Event.httpMethod event = "GET" ->
    VideoStatus.query_task_id event = Some taskId ->
    taskId <> "" ->
    opt_truthy (RUNWAY_API_KEY w) = false ->
    VideoStatus.handler w event
    = (VideoStatus.json_response w 500
         [("error", VStr "RUNWAY_API_KEY not configured")],
       [Console_error "Status check error:" (Error "RUNWAY_API_KEY not configured")]).
Proof.
  intros w event taskId Hmethod Hquery Hid Hkey.
  unfold VideoStatus.handler. rewrite Hmethod, Hquery. simpl.
  apply String.eqb_neq in Hid. rewrite Hid. simpl.
  unfold VideoStatus.handler_try. rewrite Hkey. reflexivity.
Qed.

Lemma status_checker_missing_credential_witness :
  VideoStatus.handler Failures.unconfigured (Example.status_of "done")
  = (VideoStatus.json_response Failures.unconfigured 500
       [("error", VStr "RUNWAY_API_KEY not configured")],
     [Console_error "Status check error:" (Error "RUNWAY_API_KEY not configured")]).
Proof.
  apply (status_checker_missing_credential Failures.unconfigured
           (Example.status_of "done") "done"); try reflexivity.
  discriminate.
Defined.

(** X6.  With the credential configured, a GET for a task is answered 500
    whenever the vendor cannot be read: when the request is rejected, the
    error text is the rejection's reason; when the vendor's answer has a
    truthy error field, the error text is that field converted to a
    string; when the answer is not JSON or is [null], the answer is 500
    as well.  In each case the one request was sent and the exception
    written to the console. *)
Theorem status_checker_upstream_errors :
  forall (w : World) (event : Event.t) (taskId : string),
    Event.httpMethod event = "GET" ->
    VideoStatus.query_task_id event = Some taskId ->
    taskId <> "" ->
    opt_truthy (RUNWAY_API_KEY w) = true ->
    (forall reason : string,
        fetch w (task_request w taskId) = Rejects reason ->
        VideoStatus.handler w event
        = (VideoStatus.json_response w 500 [("error", VStr reason)],
           [ Fetch (task_request w taskId);
             Console_error "Status check error:" (FetchError reason) ]))
    /\ (forall (answer : response) (props : list (string * value)) (error_text : string),
          fetch w (task_request w taskId) = Resolves answer ->
          JSON_parse w (response_text answer) = Some (VObj props) ->
          truthy (lookup "error" props) = true ->
          ToString w (lookup "error" props) = inr error_text ->
          VideoStatus.handler w event
          = (VideoStatus.json_response w 500 [("error", VStr error_text)],
             [ Fetch (task_request w taskId);
               Console_error "Status check error:" (Error error_text) ]))
    /\ (forall answer : response,
          fetch w (task_request w taskId) = Resolves answer ->
          JSON_parse w (response_text answer) = None
          \/ JSON_parse w (response_text answer) = Some VNull ->
          Response.statusCode (fst (VideoStatus.handler w event)) = 500%Z
          /\ requests (snd (VideoStatus.handler w event)) = [task_request w taskId]).
Proof.
  intros w event taskId Hmethod Hquery Hid Hkey.
  apply String.eqb_neq in Hid.
  assert (Hrun : VideoStatus.handler w event
                 = match VideoStatus.handler_try w taskId [] with
                   | (inr response, t) => (response, t)
                   | (inl error, t) =>
                       (VideoStatus.json_response w 500
                          [("error", VStr (message w error))],
                        (t ++ [Console_error "Status check error:" error])%list)
                   end).
  { unfold VideoStatus.handler. rewrite Hmethod, Hquery. simpl. rewrite Hid.
    reflexivity. }
  rewrite Hrun. unfold VideoStatus.handler_try. rewrite Hkey. run.
  rewrite await_fetch_run. unfold task_request. simpl.
  split; [ | split].
  - intros reason ->. reflexivity.
  - intros answer props error_text -> Hparse Herror Htext. simpl.
    rewrite response_json_run, Hparse. simpl. rewrite Herror. simpl.
    unfold new_Error.
    destruct (lookup "error" props) eqn:Hfield; try discriminate Herror;
      rewrite Htext; reflexivity.
  - intros answer -> [Hparse | Hparse]; simpl;
      rewrite response_json_run, Hparse; simpl; split; reflexivity.
Qed.

Lemma status_checker_upstream_errors_witness :
  (forall reason : string,
      fetch Failures.world (task_request Failures.world "missing") = Rejects reason ->
      VideoStatus.handler Failures.world (Example.status_of "missing")
      = (VideoStatus.json_response Failures.world 500 [("error", VStr reason)],
         [ Fetch (task_request Failures.world "missing");
           Console_error "Status check error:" (FetchError reason) ]))
  /\ (forall (answer : response) (props : list (string * value)) (error_text : string),
        fetch Failures.world (task_request Failures.world "missing") = Resolves answer ->
        JSON_parse Failures.world (response_text answer) = Some (VObj props) ->
        truthy (lookup "error" props) = true ->
        ToString Failures.world (lookup "error" props) = inr error_text ->
        VideoStatus.handler Failures.world (Example.status_of "missing")
        = (VideoStatus.json_response Failures.world 500 [("error", VStr error_text)],
           [ Fetch (task_request Failures.world "missing");
             Console_error "Status check error:" (Error error_text) ]))
  /\ (forall answer : response,
        fetch Failures.world (task_request Failures.world "missing") = Resolves answer ->
        JSON_parse Failures.world (response_text answer) = None
        \/ JSON_parse Failures.world (response_text answer) = Some VNull ->
        Response.statusCode
          (fst (VideoStatus.handler Failures.world (Example.status_of "missing")))
        = 500%Z
        /\ requests (snd (VideoStatus.handler Failures.world (Example.status_of "missing")))
           = [task_request Failures.world "missing"]).
Proof.
  apply (status_checker_upstream_errors Failures.world (Example.status_of "missing")
           "missing"); try reflexivity.
  discriminate.
Defined.

(** X7.  When the vendor's answer is any JSON value but [null], has no truthy
    error field, and its status is absent or anything else than the exact
    strings "SUCCEEDED" and "FAILED" (a number, [null], another string),
    the task is reported as "processing" with a null [video_url]; the
    vendor's progress and status are passed on as they are. *)
Theorem status_defaults_to_processing :
  forall (w : World) (event : Event.t) (taskId : string) (answer : response)
         (data : value),
    Event.httpMethod event = "GET" ->
    VideoStatus.query_task_id event = Some taskId ->
    taskId <> "" ->
    opt_truthy (RUNWAY_API_KEY w) = true ->
    fetch w (task_request w taskId) = Resolves answer ->
    JSON_parse w (response_text answer) = Some data ->
    nullish data = false ->
    truthy (prop data "error") = false ->
    strict_eq_str (prop data "status") "SUCCEEDED" = false ->
    strict_eq_str (prop data "status") "FAILED" = false ->
    VideoStatus.handler w event
    = (VideoStatus.json_response w 200
         [ ("task_id", VStr taskId);
           ("status", VStr "processing");
           ("video_url", VNull);
           ("progress", prop data "progress");
           ("raw_status", prop data "status") ],
       [Fetch (task_request w taskId)]).
Proof.
  intros w event taskId answer data
         Hmethod Hquery Hid Hkey Hfetch Hparse Hdata Herror Hsucceeded Hfailed.
  unfold VideoStatus.handler. rewrite Hmethod, Hquery. simpl.
  apply String.eqb_neq in Hid. rewrite Hid. simpl.
  unfold VideoStatus.handler_try. rewrite Hkey. run.
  unfold task_request in Hfetch. simpl in Hfetch.
  rewrite await_fetch_run, Hfetch, response_json_run, Hparse. simpl.
  unfold VideoStatus.map_status.
  rewrite !get_present by exact Hdata. rewrite Herror. simpl.
  rewrite Hsucceeded, Hfailed. reflexivity.
Qed.

Lemma status_defaults_to_processing_witness :
  VideoStatus.handler Failures.world (Example.status_of "odd")
  = (VideoStatus.json_response Failures.world 200
       [ ("task_id", VStr "odd");
         ("status", VStr "processing");
         ("video_url", VNull);
         ("progress", prop (VObj [("progress", VNum 0.5)]) "progress");
         ("raw_status", prop (VObj [("progress", VNum 0.5)]) "status") ],
     [Fetch (task_request Failures.world "odd")]).
Proof.
  apply (status_defaults_to_processing Failures.world (Example.status_of "odd") "odd"
           {| response_url := "https://api.dev.runwayml.com/v1/tasks/odd";
              response_text := "{" ++ Example.q "progress" ++ ":0.5}" |}
           (VObj [("progress", VNum 0.5)]));
    try reflexivity.
  discriminate.
Defined.

(** ** From a generated video to its status *)

(** X8.  A video generation that the vendor accepts with a task id that is a
    string returns that id as [task_id], and as [poll_url] the very URL
    the status checker requests for that task id. *)
Theorem video_task_can_be_polled :
  forall (w : World) (prompt options : value) (t : trace) (answer : response)
         (props : list (string * value)) (id : string),
    opt_truthy (RUNWAY_API_KEY w) = true ->
    options <> VNull ->
    fetch w (video_request w prompt (or_default options (VObj []))) = Resolves answer ->
    JSON_parse w (response_text answer) = Some (VObj props) ->
    truthy (lookup "error" props) = false ->
    lookup "id" props = VStr id ->
    GenerateCreative.generateVideo w prompt options t
    = (inr (VObj
         [ ("task_id", VStr id);
           ("status", VStr "processing");
           ("poll_url", VStr (url (task_request w id)));
           ("model", or_default (prop (or_default options (VObj [])) "model")
                       (VStr "gen3a_turbo"));
           ("duration", or_default (prop (or_default options (VObj [])) "duration")
                          (VNum 5));
           ("note", VStr "Video is generating. Poll the task_id endpoint for completion.") ]),
       (t ++ [Fetch (video_request w prompt (or_default options (VObj [])))])%list).
Proof.
  intros w prompt options t answer props id Hkey Hoptions Hfetch Hparse Herror Hid.
  pose proof (defaulted_options_present options Hoptions) as Hpresent.
  unfold GenerateCreative.generateVideo. rewrite Hkey. run.
  rewrite !get_default_present by exact Hpresent. simpl.
  unfold video_request in Hfetch. simpl in Hfetch.
  rewrite await_fetch_run, Hfetch, response_json_run, Hparse. simpl.
  rewrite Herror. simpl. rewrite Hid. reflexivity.
Qed.

Lemma video_task_can_be_polled_witness :
  GenerateCreative.generateVideo Example.world (VStr "a cat") (VObj []) []
  = (inr (VObj
       [ ("task_id", VStr "task-1");
         ("status", VStr "processing");
         ("poll_url", VStr (url (task_request Example.world "task-1")));
         ("model", or_default (prop (or_default (VObj []) (VObj [])) "model")
                     (VStr "gen3a_turbo"));
         ("duration", or_default (prop (or_default (VObj []) (VObj [])) "duration")
                        (VNum 5));
         ("note", VStr "Video is generating. Poll the task_id endpoint for completion.") ]),
     ([] ++ [Fetch (video_request Example.world (VStr "a cat")
                      (or_default (VObj []) (VObj [])))])%list).
Proof.
  apply (video_task_can_be_polled Example.world (VStr "a cat") (VObj []) []
           {| response_url := "https://api.dev.runwayml.com/v1/text_to_video";
              response_text := "{" ++ Example.q "id" ++ ":" ++ Example.q "task-1" ++ "}" |}
           [("id", VStr "task-1")] "task-1");
    try reflexivity.
  discriminate.
Defined.

(** ** The generator: effects of a run *)

Lemma logUsage_run :
  forall (w : World) (customerId type cost : value) (costKey : string) (t : trace),
    GenerateCreative.logUsage w customerId type cost costKey t
    = (inr tt, (t ++ usage_log_effects w customerId type cost costKey)%list).
Proof.
  intros. unfold GenerateCreative.logUsage, usage_log_effects. run.
  destruct (opt_truthy (SUPABASE_URL w)); simpl; [ | reflexivity].
  destruct (opt_truthy (SUPABASE_SERVICE_ROLE_KEY w)); simpl; [ | reflexivity].
  rewrite await_fetch_run. unfold usage_request, usage_log_url. simpl.
  destruct (fetch w _); unfold emit; simpl; rewrite <- ?app_assoc; reflexivity.
Qed.

Lemma generateImage_effects :
  forall (w : World) (prompt options : value) (t : trace),
    exists sent : trace,
      snd (GenerateCreative.generateImage w prompt options t) = (t ++ sent)%list
      /\ (sent = [] \/ exists r : request, vendor_url (url r) /\ sent = [Fetch r]).
Proof.
  intros w prompt options t. unfold GenerateCreative.generateImage.
  destruct (opt_truthy (OPENAI_API_KEY w)); simpl;
    [ | exists []; rewrite app_nil_r; auto].
  run.
  repeat (simpl; rewrite ?await_fetch_run, ?response_json_run; step_goal).
  all: simpl;
    first [ exists []; rewrite app_nil_r; split; [reflexivity | left; reflexivity]
          | eexists; split;
            [ reflexivity
            | right; eexists; split; [ | reflexivity]; left; reflexivity ] ].
Qed.

Lemma generateVideo_effects :
  forall (w : World) (prompt options : value) (t : trace),
    exists sent : trace,
      snd (GenerateCreative.generateVideo w prompt options t) = (t ++ sent)%list
      /\ (sent = [] \/ exists r : request, vendor_url (url r) /\ sent = [Fetch r]).
Proof.
  intros w prompt options t. unfold GenerateCreative.generateVideo.
  destruct (opt_truthy (RUNWAY_API_KEY w)); simpl;
    [ | exists []; rewrite app_nil_r; auto].
  run.
  repeat (simpl; rewrite ?await_fetch_run, ?response_json_run; step_goal).
  all: simpl;
    first [ exists []; rewrite app_nil_r; split; [reflexivity | left; reflexivity]
          | eexists; split;
            [ reflexivity
            | right; eexists; split; [ | reflexivity]; right; reflexivity ] ].
Qed.

(** Whatever comes of the switch, it sends at most one request, and that
    one to a vendor. *)
Lemma switch_type_effects :
  forall (w : World) (type prompt options : value) (t : trace),
    exists sent : trace,
      snd (GenerateCreative.switch_type w type prompt options t) = (t ++ sent)%list
      /\ (sent = [] \/ exists r : request, vendor_url (url r) /\ sent = [Fetch r]).
Proof.
  intros w type prompt options t. unfold GenerateCreative.switch_type.
  destruct (strict_eq_str type "image").
  - destruct (generateImage_effects w prompt options t) as (sent & Hsent & Hshape).
    exists sent. split; [ | exact Hshape]. run.
    destruct (GenerateCreative.generateImage w prompt options t) as [[e | r] t1];
      simpl in *; [exact Hsent | ].
    destruct (GenerateCreative.image_costKey options); exact Hsent.
  - destruct (strict_eq_str type "video").
    + destruct (generateVideo_effects w prompt options t) as (sent & Hsent & Hshape).
      exists sent. split; [ | exact Hshape]. run.
      destruct (GenerateCreative.generateVideo w prompt options t) as [[e | r] t1];
        simpl in *; exact Hsent.
    + exists []. rewrite app_nil_r. auto.
Qed.

(** A run of the generator's try block on a POST either is a success,
    validation passed and the switch completed, or it sent at most one
    request, to a vendor, and nothing at all when it returns an answer,
    which is then a 400. *)
Lemma handler_try_cases :
  forall (w : World) (event : Event.t),
    Event.httpMethod event = "POST" ->
    (exists (type prompt customer_id options : value)
            (g : GenerateCreative.generation) (t1 : trace),
        parsed_request w event type prompt customer_id options
        /\ truthy type = true
        /\ truthy prompt = true
        /\ GenerateCreative.switch_type w type prompt options [] = (inr (Some g), t1))
    \/ ((snd (GenerateCreative.handler_try w event []) = []
         \/ exists r : request,
              vendor_url (url r)
              /\ snd (GenerateCreative.handler_try w event []) = [Fetch r])
        /\ forall r : Response.t,
             fst (GenerateCreative.handler_try w event []) = inr r ->
             Response.statusCode r = 400%Z
             /\ Response.headers r = GenerateCreative.headers
             /\ snd (GenerateCreative.handler_try w event []) = []).
Proof.
  intros w event Hmethod.
  unfold GenerateCreative.handler_try. run.
  destruct (GenerateCreative.parse_body w (Event.body event) [])
    as [[e | body] t0] eqn:Hparse;
    [right; rewrite parse_body_run in Hparse; injection Hparse as _ <-;
     split; [left; reflexivity | discriminate] | ].
  assert (t0 = []) by (rewrite parse_body_run in Hparse; now injection Hparse).
  subst t0.
  destruct (get body "type") as [e | type] eqn:Htype;
    [right; split; [left; reflexivity | discriminate] | ].
  destruct (get body "prompt") as [e | prompt] eqn:Hprompt;
    [right; split; [left; reflexivity | discriminate] | ].
  destruct (get body "customer_id") as [e | customer_id] eqn:Hcustomer;
    [right; split; [left; reflexivity | discriminate] | ].
  destruct (get_default body "options" (VObj [])) as [e | options] eqn:Hoptions;
    [right; split; [left; reflexivity | discriminate] | ].
  simpl.
  destruct (truthy type) eqn:Htruthy; simpl;
    [ | right; split; [left; reflexivity | ];
        intros r H; injection H as <-; repeat split].
  destruct (truthy prompt) eqn:Hprompt_truthy; simpl;
    [ | right; split; [left; reflexivity | ];
        intros r H; injection H as <-; repeat split].
  destruct (switch_type_effects w type prompt options []) as (sent & Hsent & Hshape).
  destruct (GenerateCreative.switch_type w type prompt options [])
    as [[e | [g | ]] t1] eqn:Hswitch; simpl in Hsent; subst t1.
  - right. simpl. split; [ | discriminate].
    destruct Hshape as [-> | (r & Hvendor & ->)]; [left | right; exists r]; auto.
  - left. exists type, prompt, customer_id, options, g, sent.
    repeat split; auto. exists body. auto.
  - right.
    assert (sent = []).
    { unfold GenerateCreative.switch_type in Hswitch.
      destruct (strict_eq_str type "image").
      - run_in Hswitch.
        destruct (GenerateCreative.generateImage w prompt options []) as [[e | r] t1];
          [discriminate | ].
        destruct (GenerateCreative.image_costKey options); discriminate.
      - destruct (strict_eq_str type "video").
        + run_in Hswitch.
          destruct (GenerateCreative.generateVideo w prompt options []) as [[e | r] t1];
            discriminate.
        + now injection Hswitch. }
    subst sent. simpl.
    destruct (ToString w type); simpl.
    + split; [left; reflexivity | discriminate].
    + split; [left; reflexivity | ].
      intros r H; injection H as <-; repeat split.
Qed.

Lemma requests_usage_log_effects :
  forall (w : World) (customerId type cost : value) (costKey : string),
    requests (usage_log_effects w customerId type cost costKey)
    = if opt_truthy (SUPABASE_URL w) && opt_truthy (SUPABASE_SERVICE_ROLE_KEY w)
      then [usage_request w customerId type cost costKey]
      else [].
Proof.
  intros. unfold usage_log_effects.
  destruct (opt_truthy (SUPABASE_URL w) && opt_truthy (SUPABASE_SERVICE_ROLE_KEY w));
    [ | reflexivity].
  simpl. destruct (fetch w _); reflexivity.
Qed.

(** The whole of a successful run. *)
Lemma handler_success_run :
  forall (w : World) (event : Event.t) (type prompt customer_id options : value)
         (g : GenerateCreative.generation) (t1 : trace),
    parsed_request w event type prompt customer_id options ->
    truthy type = true ->
    truthy prompt = true ->
    GenerateCreative.switch_type w type prompt options [] = (inr (Some g), t1) ->
    GenerateCreative.handler w event
    = (success_response w type g,
       (t1 ++ if truthy customer_id && opt_truthy (SUPABASE_URL w)
              then usage_log_effects w customer_id type
                     (GenerateCreative.cost g) (GenerateCreative.costKey g)
              else [])%list).
Proof.
  intros w event type prompt customer_id options g t1 Hrequest Htype Hprompt Hswitch.
  rewrite (handler_success w event type prompt customer_id options g t1) by assumption.
  destruct (truthy customer_id && opt_truthy (SUPABASE_URL w)).
  - rewrite logUsage_run. reflexivity.
  - rewrite app_nil_r. reflexivity.
Qed.

(** X9.  The requests of the generator, for every event in every world.  It
    sends nothing, or one request to a vendor, or one request to a vendor
    followed by one usage event to the data store; the usage event is only
    sent when the answer is 200, so a generation that failed is never
    logged as usage; and an answer 400 or 405 means that nothing was sent
    nor written at all. *)
Theorem generator_requests :
  forall (w : World) (event : Event.t),
    (requests (snd (GenerateCreative.handler w event)) = []
     \/ exists v : request,
          vendor_url (url v)
          /\ (requests (snd (GenerateCreative.handler w event)) = [v]
              \/ (Response.statusCode (fst (GenerateCreative.handler w event)) = 200%Z
                  /\ exists (customer_id type cost : value) (costKey : string),
                       requests (snd (GenerateCreative.handler w event))
                       = [v; usage_request w customer_id type cost costKey])))
    /\ (Response.statusCode (fst (GenerateCreative.handler w event)) <> 200%Z ->
        forall r : request,
          In r (requests (snd (GenerateCreative.handler w event))) ->
          url r <> usage_log_url w)
    /\ (Response.statusCode (fst (GenerateCreative.handler w event)) = 400%Z
        \/ Response.statusCode (fst (GenerateCreative.handler w event)) = 405%Z ->
        snd (GenerateCreative.handler w event) = []).
Proof.
  intros w event.
  destruct (Event.httpMethod event =? "OPTIONS") eqn:Hoptions.
  { unfold GenerateCreative.handler. rewrite Hoptions. simpl.
    split; [left; reflexivity | split; [intros _ r [] | reflexivity]]. }
  destruct (Event.httpMethod event =? "POST") eqn:Hpost.
  2:{ unfold GenerateCreative.handler. rewrite Hoptions, Hpost. simpl.
      split; [left; reflexivity | split; [intros _ r [] | reflexivity]]. }
  apply String.eqb_eq in Hpost.
  destruct (handler_try_cases w event Hpost)
    as [(type & prompt & customer_id & options & g & t1
         & Hrequest & Htype & Hprompt & Hswitch)
       | [Hsent Hanswer]].
  - rewrite (handler_success_run w event type prompt customer_id options g t1)
      by assumption.
    destruct (switch_type_trace _ _ _ _ _ _ _ Hswitch) as (v & Hvendor & ->).
    simpl.
    split; [ | split; [intros H; contradiction | intros [H | H]; discriminate]].
    right. exists v. split; [exact Hvendor | ].
    destruct (truthy customer_id && opt_truthy (SUPABASE_URL w));
      [ | left; reflexivity].
    rewrite requests_usage_log_effects.
    destruct (opt_truthy (SUPABASE_URL w) && opt_truthy (SUPABASE_SERVICE_ROLE_KEY w));
      [ | left; reflexivity].
    right. split; [reflexivity | ]. eauto.
  - unfold GenerateCreative.handler. rewrite Hoptions, Hpost. simpl.
    destruct (GenerateCreative.handler_try w event []) as [[e | r] t]; simpl in *.
    + rewrite requests_app, app_nil_r.
      split; [ | split; [ | intros [H | H]; discriminate]].
      * destruct Hsent as [-> | (v & Hvendor & ->)];
          [left; reflexivity | right; exists v; auto].
      * intros _ r Hin Hurl.
        destruct Hsent as [-> | (v & Hvendor & ->)]; simpl in Hin; [contradiction | ].
        destruct Hin as [<- | []]. rewrite Hurl in Hvendor.
        exact (usage_log_url_not_vendor w Hvendor).
    + destruct (Hanswer r eq_refl) as (Hstatus & _ & ->). simpl.
      split; [left; reflexivity | split; [intros _ r' [] | reflexivity]].
Qed.

(** The requests of the generator on the example deployments: the vendor
    and the data store for a customer's image; the vendor alone when the
    vendor reports an error; nothing for a request without a prompt, for
    a GET, or without the vendor's credential. *)
Example generator_requests_sent :
  map url (requests (snd (GenerateCreative.handler Example.world
                            (Example.post (Example.from_customer "c-42")))))
  = [ "https://api.openai.com/v1/images/generations";
      "https://db.example/rest/v1/creative_usage" ]
  /\ map url (requests (snd (GenerateCreative.handler Failures.world
                               (Example.post (Example.from_customer "c-42")))))
     = [ "https://api.openai.com/v1/images/generations" ]
  /\ requests (snd (GenerateCreative.handler Example.world
                      (Example.post Example.audio_without_prompt))) = []
  /\ requests (snd (GenerateCreative.handler Example.world (Failures.request "GET"))) = []
  /\ requests (snd (GenerateCreative.handler Failures.unconfigured
                      (Example.post (Example.from_customer "c-42")))) = [].
Proof.
  repeat split; reflexivity.
Qed.

Lemma console_errors_usage_log_effects :
  forall (w : World) (customerId type cost : value) (costKey : string)
         (label : string) (e : exn),
    In (label, e) (console_errors (usage_log_effects w customerId type cost costKey)) ->
    label = "Failed to log usage:".
Proof.
  intros w customerId type cost costKey label e. unfold usage_log_effects.
  destruct (opt_truthy (SUPABASE_URL w) && opt_truthy (SUPABASE_SERVICE_ROLE_KEY w));
    simpl; [ | contradiction].
  destruct (fetch w _); simpl; [ | contradiction].
  intros [H | []]. now injection H.
Qed.

Lemma generation_error_text_not_empty :
  forall (w : World) (e : exn), generation_error_text w e <> "".
Proof.
  intros w e. unfold generation_error_text.
  destruct (message w e =? "") eqn:H; [discriminate | ].
  now apply String.eqb_neq.
Qed.

(** X10.  The answers of the generator.  Every answer carries the CORS headers
    of the handler and one of the statuses 200, 400, 405, 500; the status
    is 405 exactly when the method is neither OPTIONS nor POST.  A 500
    answer is always the catch block's: the exception was written to the
    console under "Generation error:", and the body holds its message as
    the error text, "Generation failed" standing in for an empty message,
    so that the error text is never empty, with the stack as details in
    development mode only.  No other answer writes a generation error to
    the console. *)
Theorem generator_answers :
  forall (w : World) (event : Event.t),
    Response.headers (fst (GenerateCreative.handler w event)) = GenerateCreative.headers
    /\ In (Response.statusCode (fst (GenerateCreative.handler w event)))
          [200%Z; 400%Z; 405%Z; 500%Z]
    /\ (Response.statusCode (fst (GenerateCreative.handler w event)) = 405%Z
        <-> Event.httpMethod event <> "OPTIONS" /\ Event.httpMethod event <> "POST")
    /\ (Response.statusCode (fst (GenerateCreative.handler w event)) = 500%Z ->
        exists e : exn,
          In ("Generation error:", e)
             (console_errors (snd (GenerateCreative.handler w event)))
          /\ Response.body (fst (GenerateCreative.handler w event))
             = JSON_stringify w (VObj
                 [ ("error", VStr (generation_error_text w e));
                   ("details", if opt_is (NODE_ENV w) "development"
                               then VStr (Error_stack w e) else VUndefined) ])
          /\ generation_error_text w e <> "")
    /\ (Response.statusCode (fst (GenerateCreative.handler w event)) <> 500%Z ->
        forall e : exn,
          ~ In ("Generation error:", e)
              (console_errors (snd (GenerateCreative.handler w event)))).
Proof.
  intros w event.
  destruct (Event.httpMethod event =? "OPTIONS") eqn:Hoptions.
  { unfold GenerateCreative.handler. rewrite Hoptions.
    apply String.eqb_eq in Hoptions. simpl. settle. }
  destruct (Event.httpMethod event =? "POST") eqn:Hpost.
  2:{ unfold GenerateCreative.handler. rewrite Hoptions, Hpost.
      apply String.eqb_neq in Hoptions. apply String.eqb_neq in Hpost.
      simpl. settle. }
  pose proof Hpost as Hmethod. apply String.eqb_eq in Hmethod.
  apply String.eqb_neq in Hoptions.
  destruct (handler_try_cases w event Hmethod)
    as [(type & prompt & customer_id & options & g & t1
         & Hrequest & Htype & Hprompt & Hswitch)
       | [Hsent Hanswer]].
  - rewrite (handler_success_run w event type prompt customer_id options g t1)
      by assumption.
    destruct (switch_type_trace _ _ _ _ _ _ _ Hswitch) as (v & Hvendor & ->).
    simpl.
    repeat split; intros; try discriminate; simpl; auto;
      try (match goal with H : _ /\ _ |- _ => destruct H end; congruence).
    intros Hin.
    destruct (truthy customer_id && opt_truthy (SUPABASE_URL w)); [ | contradiction].
    apply console_errors_usage_log_effects in Hin. discriminate.
  - unfold GenerateCreative.handler.
    rewrite (proj2 (String.eqb_neq _ _) Hoptions), Hpost. simpl.
    destruct (GenerateCreative.handler_try w event []) as [[e | r] t]; simpl in *.
    + repeat split; intros; try discriminate; simpl; auto;
        try (match goal with H : _ /\ _ |- _ => destruct H end; congruence);
        try congruence.
      exists e. split; [ | split; [reflexivity | apply generation_error_text_not_empty]].
      rewrite console_errors_app. apply in_or_app. right. left. reflexivity.
    + destruct (Hanswer r eq_refl) as (Hstatus & Hheaders & ->).
      rewrite Hstatus, Hheaders. simpl. settle.
Qed.

(** Answers of the generator on the example deployments: a vendor error
    with a message, a vendor error without one, and a missing credential
    in development mode, where the stack is given too. *)
Example generator_failures :
  Response.body (fst (GenerateCreative.handler Failures.world
                        (Example.post (Failures.image "{}"))))
  = "{" ++ Example.q "error" ++ ":" ++ Example.q "Billing hard limit has been reached"
    ++ "}"
  /\ Response.body (fst (GenerateCreative.handler Failures.world
                           (Example.post (Failures.video "{}"))))
     = "{" ++ Example.q "error" ++ ":" ++ Example.q "Invalid prompt" ++ "}"
  /\ Response.body (fst (GenerateCreative.handler Failures.unconfigured
                           (Example.post (Failures.image "{}"))))
     = "{" ++ Example.q "error" ++ ":" ++ Example.q "OPENAI_API_KEY not configured" ++ ","
       ++ Example.q "details" ++ ":" ++ Example.q "Error: OPENAI_API_KEY not configured"
       ++ "}".
Proof.
  repeat split; reflexivity.
Qed.

(** ** The generator: requests that are refused *)

(** X11.  A POST whose body parses to anything but an object with a truthy type
    and a truthy prompt is refused before any vendor is contacted.  When
    the body is [null], the destructuring throws and the answer is 500;
    when it is any other value (an object, but also a string, a number, a
    boolean or an array, whose type and prompt are undefined) with a
    missing, empty or otherwise falsy type or prompt, the answer is 400
    with the error "Missing required fields: type, prompt", also for the
    types "image" and "video".  Nothing is sent in either case. *)
Theorem request_without_fields :
  forall (w : World) (event : Event.t) (text : string) (body : value),
    Event.httpMethod event = "POST" ->
    Event.body event = Some text ->
    JSON_parse w text = Some body ->
    (body = VNull ->
     GenerateCreative.handler w event
     = (GenerateCreative.handler_catch w (TypeError (ReadOfNullish "type")),
        [Console_error "Generation error:" (TypeError (ReadOfNullish "type"))]))
    /\ (nullish body = false ->
        truthy (prop body "type") = false \/ truthy (prop body "prompt") = false ->
        GenerateCreative.handler w event
        = (GenerateCreative.json_response w 400
             [("error", VStr "Missing required fields: type, prompt")], [])).
Proof.
  intros w event text body Hmethod Hbody Hparse.
  unfold GenerateCreative.handler. rewrite Hmethod. simpl.
  unfold GenerateCreative.handler_try. run.
  rewrite parse_body_run, Hbody, Hparse. simpl.
  split.
  - intros ->. reflexivity.
  - intros Hpresent Hfalsy.
    rewrite !get_present, get_default_present by exact Hpresent. simpl.
    destruct Hfalsy as [-> | ->]; simpl; [ | rewrite orb_true_r]; reflexivity.
Qed.

Lemma request_without_fields_witness :
  (VArr [VStr "image"] = VNull ->
   GenerateCreative.handler Example.world
     (Example.post ("[" ++ Example.q "image" ++ "]"))
   = (GenerateCreative.handler_catch Example.world (TypeError (ReadOfNullish "type")),
      [Console_error "Generation error:" (TypeError (ReadOfNullish "type"))]))
  /\ (nullish (VArr [VStr "image"]) = false ->
      truthy (prop (VArr [VStr "image"]) "type") = false
      \/ truthy (prop (VArr [VStr "image"]) "prompt") = false ->
      GenerateCreative.handler Example.world
        (Example.post ("[" ++ Example.q "image" ++ "]"))
      = (GenerateCreative.json_response Example.world 400
           [("error", VStr "Missing required fields: type, prompt")], [])).
Proof.
  apply (request_without_fields Example.world
           (Example.post ("[" ++ Example.q "image" ++ "]"))
           ("[" ++ Example.q "image" ++ "]") (VArr [VStr "image"]));
    reflexivity.
Defined.

(** Requests without fields on the example deployment: an image request
    with an empty prompt, a body that is a number, and the body [null]. *)
Example requests_without_fields :
  GenerateCreative.handler Example.world
    (Example.post ("{" ++ Example.q "type" ++ ":" ++ Example.q "image" ++ ","
                   ++ Example.q "prompt" ++ ":" ++ Example.q "" ++ "}"))
  = (GenerateCreative.json_response Example.world 400
       [("error", VStr "Missing required fields: type, prompt")], [])
  /\ GenerateCreative.handler Example.world (Example.post "42")
     = (GenerateCreative.json_response Example.world 400
          [("error", VStr "Missing required fields: type, prompt")], [])
  /\ Response.statusCode
       (fst (GenerateCreative.handler Example.world (Example.post "null"))) = 500%Z.
Proof.
  repeat split; reflexivity.
Qed.

(** X12.  Without the credential of the vendor it needs (unset or empty), a
    valid request is answered by the catch block with the error
    "OPENAI_API_KEY not configured" for an image and "RUNWAY_API_KEY not
    configured" for a video, and no vendor is contacted. *)
Theorem missing_vendor_credential :
  forall (w : World) (event : Event.t) (type prompt customer_id options : value),
    parsed_request w event type prompt customer_id options ->
    truthy prompt = true ->
    (type = VStr "image" ->
     opt_truthy (OPENAI_API_KEY w) = false ->
     GenerateCreative.handler w event
     = (GenerateCreative.handler_catch w (Error "OPENAI_API_KEY not configured"),
        [Console_error "Generation error:" (Error "OPENAI_API_KEY not configured")]))
    /\ (type = VStr "video" ->
        opt_truthy (RUNWAY_API_KEY w) = false ->
        GenerateCreative.handler w event
        = (GenerateCreative.handler_catch w (Error "RUNWAY_API_KEY not configured"),
           [Console_error "Generation error:" (Error "RUNWAY_API_KEY not configured")])).
Proof.
  intros w event type prompt customer_id options
         [Hmethod (body & Hparse & Htype & Hprompt & Hcustomer & Hoptions)] Htruthy.
  unfold GenerateCreative.handler. rewrite Hmethod. simpl.
  unfold GenerateCreative.handler_try. run.
  rewrite Hparse, Htype, Hprompt, Hcustomer, Hoptions, Htruthy.
  split; intros -> Hkey; simpl; unfold GenerateCreative.switch_type; simpl; run.
  - unfold GenerateCreative.generateImage. rewrite Hkey. reflexivity.
  - unfold GenerateCreative.generateVideo. rewrite Hkey. reflexivity.
Qed.

Lemma missing_vendor_credential_witness :
  (VStr "image" = VStr "image" ->
   opt_truthy (OPENAI_API_KEY Failures.unconfigured) = false ->
   GenerateCreative.handler Failures.unconfigured (Example.post Example.wide_hd_image)
   = (GenerateCreative.handler_catch Failures.unconfigured
        (Error "OPENAI_API_KEY not configured"),
      [Console_error "Generation error:" (Error "OPENAI_API_KEY not configured")]))
  /\ (VStr "image" = VStr "video" ->
      opt_truthy (RUNWAY_API_KEY Failures.unconfigured) = false ->
      GenerateCreative.handler Failures.unconfigured (Example.post Example.wide_hd_image)
      = (GenerateCreative.handler_catch Failures.unconfigured
           (Error "RUNWAY_API_KEY not configured"),
         [Console_error "Generation error:" (Error "RUNWAY_API_KEY not configured")])).
Proof.
  apply (missing_vendor_credential Failures.unconfigured
           (Example.post Example.wide_hd_image)
           (VStr "image") (VStr "a cat") VUndefined Example.wide_hd_options);
    [ | reflexivity].
  split; [reflexivity | ].
  exists (VObj [ ("type", VStr "image"); ("prompt", VStr "a cat");
                 ("options", Example.wide_hd_options) ]).
  repeat split; reflexivity.
Defined.

(** X13.  Options that are [null] are not replaced by the default [{}]: with
    the credentials configured, a valid request whose options are [null]
    ends in the catch block when the generator destructures them, and no
    vendor is contacted. *)
Theorem null_options :
  forall (w : World) (event : Event.t) (type prompt customer_id : value),
    parsed_request w event type prompt customer_id VNull ->
    truthy prompt = true ->
    (type = VStr "image" ->
     opt_truthy (OPENAI_API_KEY w) = true ->
     GenerateCreative.handler w event
     = (GenerateCreative.handler_catch w (TypeError (ReadOfNullish "model")),
        [Console_error "Generation error:" (TypeError (ReadOfNullish "model"))]))
    /\ (type = VStr "video" ->
        opt_truthy (RUNWAY_API_KEY w) = true ->
        GenerateCreative.handler w event
        = (GenerateCreative.handler_catch w (TypeError (ReadOfNullish "duration")),
           [Console_error "Generation error:" (TypeError (ReadOfNullish "duration"))])).
Proof.
  intros w event type prompt customer_id
         [Hmethod (body & Hparse & Htype & Hprompt & Hcustomer & Hoptions)] Htruthy.
  unfold GenerateCreative.handler. rewrite Hmethod. simpl.
  unfold GenerateCreative.handler_try. run.
  rewrite Hparse, Htype, Hprompt, Hcustomer, Hoptions, Htruthy.
  split; intros -> Hkey; simpl; unfold GenerateCreative.switch_type; simpl; run.
  - unfold GenerateCreative.generateImage. rewrite Hkey. reflexivity.
  - unfold GenerateCreative.generateVideo. rewrite Hkey. reflexivity.
Qed.

Lemma null_options_witness :
  (VStr "video" = VStr "image" ->
   opt_truthy (OPENAI_API_KEY Example.world) = true ->
   GenerateCreative.handler Example.world (Example.post (Failures.video "null"))
   = (GenerateCreative.handler_catch Example.world (TypeError (ReadOfNullish "model")),
      [Console_error "Generation error:" (TypeError (ReadOfNullish "model"))]))
  /\ (VStr "video" = VStr "video" ->
      opt_truthy (RUNWAY_API_KEY Example.world) = true ->
      GenerateCreative.handler Example.world (Example.post (Failures.video "null"))
      = (GenerateCreative.handler_catch Example.world
           (TypeError (ReadOfNullish "duration")),
         [Console_error "Generation error:" (TypeError (ReadOfNullish "duration"))])).
Proof.
  apply (null_options Example.world (Example.post (Failures.video "null"))
           (VStr "video") (VStr "a cat") (VStr "c-42"));
    [ | reflexivity].
  split; [reflexivity | ].
  exists (VObj [ ("type", VStr "video"); ("prompt", VStr "a cat");
                 ("customer_id", VStr "c-42"); ("options", VNull) ]).
  repeat split; reflexivity.
Defined.

(** ** The generator: vendor errors *)

(** X14.  When the image vendor's answer has a truthy error field, a valid
    image request ends in the catch block with an Error whose message is
    the [message] of that field: the answer is 500 with that message as
    error text when it is a non-empty string, and with "Generation
    failed" when the error has no message.  The one request to the vendor
    was sent; no usage is logged. *)
Theorem image_vendor_error :
  forall (w : World) (event : Event.t) (prompt customer_id options : value)
         (answer : response) (props : list (string * value)),
    parsed_request w event (VStr "image") prompt customer_id options ->
    truthy prompt = true ->
    opt_truthy (OPENAI_API_KEY w) = true ->
    options <> VNull ->
    fetch w (image_request w prompt options) = Resolves answer ->
    JSON_parse w (response_text answer) = Some (VObj props) ->
    truthy (lookup "error" props) = true ->
    (forall m : string,
        prop (lookup "error" props) "message" = VStr m ->
        GenerateCreative.handler w event
        = (GenerateCreative.json_response w 500
             [ ("error", VStr (if m =? "" then "Generation failed" else m));
               ("details", if opt_is (NODE_ENV w) "development"
                           then VStr (Error_stack w (Error m)) else VUndefined) ],
           [ Fetch (image_request w prompt options);
             Console_error "Generation error:" (Error m) ]))
    /\ (prop (lookup "error" props) "message" = VUndefined ->
        GenerateCreative.handler w event
        = (GenerateCreative.json_response w 500
             [ ("error", VStr "Generation failed");
               ("details", if opt_is (NODE_ENV w) "development"
                           then VStr (Error_stack w (Error "")) else VUndefined) ],
           [ Fetch (image_request w prompt options);
             Console_error "Generation error:" (Error "") ])).
Proof.
  intros w event prompt customer_id options answer props
         [Hmethod (body & Hparse & Htype & Hprompt & Hcustomer & Hoptions)]
         Htruthy Hkey Hnotnull Hfetch Hanswer Herror.
  destruct (destructured_options_present body options Hoptions Hnotnull)
    as [Hpresent Hdefault].
  assert (Hfield : nullish (lookup "error" props) = false)
    by (destruct (lookup "error" props); try reflexivity; discriminate).
  assert (Hrun : forall m : value,
             prop (lookup "error" props) "message" = m ->
             forall e : exn,
               new_Error w m = inr e ->
               GenerateCreative.handler w event
               = (GenerateCreative.handler_catch w e,
                  [ Fetch (image_request w prompt options);
                    Console_error "Generation error:" e ])).
  { intros m Hm e He.
    unfold GenerateCreative.handler. rewrite Hmethod. simpl.
    unfold GenerateCreative.handler_try. run.
    rewrite Hparse, Htype, Hprompt, Hcustomer, Hoptions, Htruthy. simpl.
    unfold GenerateCreative.switch_type. simpl. run.
    unfold GenerateCreative.generateImage. rewrite Hkey, Hdefault. run.
    rewrite !get_default_present by exact Hpresent. simpl.
    unfold image_request in Hfetch. simpl in Hfetch.
    rewrite await_fetch_run, Hfetch, response_json_run, Hanswer. simpl.
    rewrite Herror. simpl. rewrite get_present by exact Hfield. simpl.
    rewrite Hm, He. reflexivity. }
  split.
  - intros m Hm. apply (Hrun (VStr m) Hm (Error m)). reflexivity.
  - intros Hm. apply (Hrun VUndefined Hm (Error "")). reflexivity.
Qed.

Lemma image_vendor_error_witness :
  (forall m : string,
      prop (lookup "error"
              [("error", VObj [("message", VStr "Billing hard limit has been reached")])])
        "message" = VStr m ->
      GenerateCreative.handler Failures.world (Example.post Example.wide_hd_image)
      = (GenerateCreative.json_response Failures.world 500
           [ ("error", VStr (if m =? "" then "Generation failed" else m));
             ("details", if opt_is (NODE_ENV Failures.world) "development"
                         then VStr (Error_stack Failures.world (Error m))
                         else VUndefined) ],
         [ Fetch (image_request Failures.world (VStr "a cat") Example.wide_hd_options);
           Console_error "Generation error:" (Error m) ]))
  /\ (prop (lookup "error"
              [("error", VObj [("message", VStr "Billing hard limit has been reached")])])
        "message" = VUndefined ->
      GenerateCreative.handler Failures.world (Example.post Example.wide_hd_image)
      = (GenerateCreative.json_response Failures.world 500
           [ ("error", VStr "Generation failed");
             ("details", if opt_is (NODE_ENV Failures.world) "development"
                         then VStr (Error_stack Failures.world (Error ""))
                         else VUndefined) ],
         [ Fetch (image_request Failures.world (VStr "a cat") Example.wide_hd_options);
           Console_error "Generation error:" (Error "") ])).
Proof.
  apply (image_vendor_error Failures.world (Example.post Example.wide_hd_image)
           (VStr "a cat") VUndefined Example.wide_hd_options
           {| response_url := "https://api.openai.com/v1/images/generations";
              response_text :=
                "{" ++ Example.q "error" ++ ":{" ++ Example.q "message" ++ ":"
                ++ Example.q "Billing hard limit has been reached" ++ "}}" |}
           [("error", VObj [("message", VStr "Billing hard limit has been reached")])]);
    try reflexivity.
  - split; [reflexivity | ].
    exists (VObj [ ("type", VStr "image"); ("prompt", VStr "a cat");
                   ("options", Example.wide_hd_options) ]).
    repeat split; reflexivity.
  - discriminate.
Defined.

(** X15.  When the video vendor's answer has a truthy error field that converts
    to a string, a valid video request ends in the catch block with that
    string as the message: the answer is 500 with it as error text.  The
    one request to the vendor was sent; no usage is logged. *)
Theorem video_vendor_error :
  forall (w : World) (event : Event.t) (prompt customer_id options : value)
         (answer : response) (props : list (string * value)) (error_text : string),
    parsed_request w event (VStr "video") prompt customer_id options ->
    truthy prompt = true ->
    opt_truthy (RUNWAY_API_KEY w) = true ->
    options <> VNull ->
    fetch w (video_request w prompt options) = Resolves answer ->
    JSON_parse w (response_text answer) = Some (VObj props) ->
    truthy (lookup "error" props) = true ->
    ToString w (lookup "error" props) = inr error_text ->
    GenerateCreative.handler w event
    = (GenerateCreative.json_response w 500
         [ ("error", VStr (generation_error_text w (Error error_text)));
           ("details", if opt_is (NODE_ENV w) "development"
                       then VStr (Error_stack w (Error error_text)) else VUndefined) ],
       [ Fetch (video_request w prompt options);
         Console_error "Generation error:" (Error error_text) ])
    /\ (error_text <> "" ->
        generation_error_text w (Error error_text) = error_text).
Proof.
  intros w event prompt customer_id options answer props error_text
         [Hmethod (body & Hparse & Htype & Hprompt & Hcustomer & Hoptions)]
         Htruthy Hkey Hnotnull Hfetch Hanswer Herror Htext.
  destruct (destructured_options_present body options Hoptions Hnotnull)
    as [Hpresent Hdefault].
  split.
  - unfold GenerateCreative.handler. rewrite Hmethod. simpl.
    unfold GenerateCreative.handler_try. run.
    rewrite Hparse, Htype, Hprompt, Hcustomer, Hoptions, Htruthy. simpl.
    unfold GenerateCreative.switch_type. simpl. run.
    unfold GenerateCreative.generateVideo. rewrite Hkey, Hdefault. run.
    rewrite !get_default_present by exact Hpresent. simpl.
    unfold video_request in Hfetch. simpl in Hfetch.
    rewrite await_fetch_run, Hfetch, response_json_run, Hanswer. simpl.
    rewrite Herror. simpl. unfold new_Error.
    destruct (lookup "error" props) eqn:Hfield; try discriminate Herror;
      rewrite Htext; reflexivity.
  - intros Hne. unfold generation_error_text. simpl.
    apply String.eqb_neq in Hne. rewrite Hne. reflexivity.
Qed.

Lemma video_vendor_error_witness :
  GenerateCreative.handler Failures.world (Example.post Example.video)
  = (GenerateCreative.json_response Failures.world 500
       [ ("error", VStr (generation_error_text Failures.world (Error "Invalid prompt")));
         ("details", if opt_is (NODE_ENV Failures.world) "development"
                     then VStr (Error_stack Failures.world (Error "Invalid prompt"))
                     else VUndefined) ],
     [ Fetch (video_request Failures.world (VStr "a cat") (VObj []));
       Console_error "Generation error:" (Error "Invalid prompt") ])
  /\ ("Invalid prompt" <> "" ->
      generation_error_text Failures.world (Error "Invalid prompt") = "Invalid prompt").
Proof.
  apply (video_vendor_error Failures.world (Example.post Example.video)
           (VStr "a cat") VUndefined (VObj [])
           {| response_url := "https://api.dev.runwayml.com/v1/text_to_video";
              response_text :=
                "{" ++ Example.q "error" ++ ":" ++ Example.q "Invalid prompt" ++ "}" |}
           [("error", VStr "Invalid prompt")] "Invalid prompt");
    try reflexivity.
  - split; [reflexivity | ].
    exists (VObj [ ("type", VStr "video"); ("prompt", VStr "a cat") ]).
    repeat split; reflexivity.
  - discriminate.
Defined.

(** ** The generator: cost edge cases *)

(** X16.  A size option that is a number, a boolean or an object has no
    [includes] to call: the cost key expression throws a TypeError.  This
    happens after the image was generated, so a valid image request with
    such a size whose generation succeeds is still answered 500, with the
    request to the vendor sent and no usage logged. *)
Theorem size_without_includes :
  forall (w : World) (event : Event.t) (prompt customer_id options r : value)
         (t1 : trace),
    parsed_request w event (VStr "image") prompt customer_id options ->
    truthy prompt = true ->
    (exists n, prop options "size" = VNum n)
    \/ (exists b, prop options "size" = VBool b)
    \/ (exists props, prop options "size" = VObj props) ->
    GenerateCreative.generateImage w prompt options [] = (inr r, t1) ->
    GenerateCreative.image_costKey options = inl (TypeError (NotAFunction "includes"))
    /\ GenerateCreative.handler w event
       = (GenerateCreative.handler_catch w (TypeError (NotAFunction "includes")),
          [ Fetch (image_request w prompt options);
            Console_error "Generation error:" (TypeError (NotAFunction "includes")) ])
    /\ Response.statusCode (fst (GenerateCreative.handler w event)) = 500%Z.
Proof.
  intros w event prompt customer_id options r t1
         [Hmethod (body & Hparse & Htype & Hprompt & Hcustomer & Hoptions)]
         Htruthy Hsize Hgen.
  assert (Hnotnull : options <> VNull).
  { intros ->. destruct Hsize as [[n H] | [[b H] | [props H]]]; discriminate. }
  destruct (destructured_options_present body options Hoptions Hnotnull)
    as [Hpresent Hdefault].
  assert (Hkey : GenerateCreative.image_costKey options
                 = inl (TypeError (NotAFunction "includes"))).
  { unfold GenerateCreative.image_costKey, GenerateCreative.wide_format.
    rewrite !get_present by exact Hpresent.
    destruct Hsize as [[n ->] | [[b ->] | [props ->]]]; simpl;
      destruct (strict_eq_str (prop options "quality") "hd"); reflexivity. }
  assert (Htrace : t1 = [Fetch (image_request w prompt options)]).
  { unfold GenerateCreative.generateImage in Hgen.
    destruct (opt_truthy (OPENAI_API_KEY w)); [ | discriminate].
    simpl in Hgen. run_in Hgen. rewrite Hdefault in Hgen.
    rewrite !get_default_present in Hgen by exact Hpresent. simpl in Hgen.
    rewrite await_fetch_run in Hgen.
    fold (image_request w prompt options) in Hgen.
    repeat (simpl in Hgen; rewrite ?response_json_run in Hgen; step Hgen).
    now injection Hgen as _ <-. }
  assert (Hrun : GenerateCreative.handler w event
                 = (GenerateCreative.handler_catch w (TypeError (NotAFunction "includes")),
                    [ Fetch (image_request w prompt options);
                      Console_error "Generation error:"
                        (TypeError (NotAFunction "includes")) ])).
  { unfold GenerateCreative.handler. rewrite Hmethod. simpl.
    unfold GenerateCreative.handler_try. run.
    rewrite Hparse, Htype, Hprompt, Hcustomer, Hoptions, Htruthy. simpl.
    unfold GenerateCreative.switch_type. simpl. run.
    rewrite Hgen, Hkey, Htrace. reflexivity. }
  split; [exact Hkey | split; [exact Hrun | rewrite Hrun; reflexivity]].
Qed.

Lemma size_without_includes_witness :
  GenerateCreative.image_costKey (VObj [("size", VNum 1792)])
  = inl (TypeError (NotAFunction "includes"))
  /\ GenerateCreative.handler Example.world
       (Example.post (Failures.image ("{" ++ Example.q "size" ++ ":1792}")))
     = (GenerateCreative.handler_catch Example.world (TypeError (NotAFunction "includes")),
        [ Fetch (image_request Example.world (VStr "a cat") (VObj [("size", VNum 1792)]));
          Console_error "Generation error:" (TypeError (NotAFunction "includes")) ])
  /\ Response.statusCode
       (fst (GenerateCreative.handler Example.world
               (Example.post (Failures.image ("{" ++ Example.q "size" ++ ":1792}")))))
     = 500%Z.
Proof.
  apply (size_without_includes Example.world
           (Example.post (Failures.image ("{" ++ Example.q "size" ++ ":1792}")))
           (VStr "a cat") (VStr "c-42") (VObj [("size", VNum 1792)])
           (VObj [ ("image_url", VStr "https://img.example/1.png");
                   ("revised_prompt", VStr "a cat, sitting");
                   ("model", VStr "dall-e-3");
                   ("size", VNum 1792);
                   ("quality", VStr "standard") ])
           [Fetch (image_request Example.world (VStr "a cat")
                     (VObj [("size", VNum 1792)]))]);
    try reflexivity.
  - split; [reflexivity | ].
    exists (VObj [ ("type", VStr "image"); ("prompt", VStr "a cat");
                   ("customer_id", VStr "c-42");
                   ("options", VObj [("size", VNum 1792)]) ]).
    repeat split; reflexivity.
  - left. exists 1792%float. reflexivity.
Defined.

(** A size that is a list counts as wide exactly when one of its elements
    is the string "1792": the call is then [Array.prototype.includes]. *)
Example size_as_a_list :
  GenerateCreative.image_costKey (VObj [("size", VArr [VStr "1792"; VStr "1024"])])
  = inr "dall-e-3-wide"
  /\ GenerateCreative.image_costKey (VObj [("size", VArr [VStr "1792x1024"])])
     = inr "dall-e-3-standard".
Proof.
  split; reflexivity.
Qed.

(** X17.  The price of a video is flat: whenever the switch completes on a
    video, whatever the duration, the model and any other option, the
    cost key is "runway-video" and the cost 0.50.  And the entry
    "gpt-image-mini" of the table is dead: no completed switch, for an
    image or a video, whatever model the options name, has it as its cost
    key. *)
Theorem flat_and_dead_prices :
  forall (w : World) (type prompt options : value) (t t' : trace)
         (g : GenerateCreative.generation),
    GenerateCreative.switch_type w type prompt options t = (inr (Some g), t') ->
    GenerateCreative.costKey g <> "gpt-image-mini"
    /\ (type = VStr "video" ->
        GenerateCreative.costKey g = "runway-video"
        /\ GenerateCreative.cost g = VNum 0.50).
Proof.
  intros w type prompt options t t' g Hswitch.
  apply switch_type_some in Hswitch.
  destruct Hswitch as [(Htype & _ & Hkey & Hcost) | (Htype & _ & Hkey & Hcost)].
  - split; [ | intros ->; discriminate].
    apply image_costKey_inr in Hkey.
    destruct Hkey as (quality & size & wide & _ & _ & _ & ->).
    destruct (strict_eq_str quality "hd"), (truthy wide); discriminate.
  - split; [rewrite Hkey; discriminate | ].
    intros _. split; [exact Hkey | rewrite Hcost; reflexivity].
Qed.

Lemma flat_and_dead_prices_witness :
  GenerateCreative.costKey
    {| GenerateCreative.result :=
         VObj [ ("task_id", VStr "task-1");
                ("status", VStr "processing");
                ("poll_url", VStr "https://api.dev.runwayml.com/v1/tasks/task-1");
                ("model", VStr "gpt-image-mini");
                ("duration", VNum 60);
                ("note", VStr "Video is generating. Poll the task_id endpoint for completion.") ];
       GenerateCreative.cost := VNum 0.50;
       GenerateCreative.costKey := "runway-video" |}
  <> "gpt-image-mini"
  /\ (VStr "video" = VStr "video" ->
      GenerateCreative.costKey
        {| GenerateCreative.result :=
             VObj [ ("task_id", VStr "task-1");
                    ("status", VStr "processing");
                    ("poll_url", VStr "https://api.dev.runwayml.com/v1/tasks/task-1");
                    ("model", VStr "gpt-image-mini");
                    ("duration", VNum 60);
                    ("note", VStr "Video is generating. Poll the task_id endpoint for completion.") ];
           GenerateCreative.cost := VNum 0.50;
           GenerateCreative.costKey := "runway-video" |}
      = "runway-video"
      /\ GenerateCreative.cost
           {| GenerateCreative.result :=
                VObj [ ("task_id", VStr "task-1");
                       ("status", VStr "processing");
                       ("poll_url", VStr "https://api.dev.runwayml.com/v1/tasks/task-1");
                       ("model", VStr "gpt-image-mini");
                       ("duration", VNum 60);
                       ("note", VStr "Video is generating. Poll the task_id endpoint for completion.") ];
              GenerateCreative.cost := VNum 0.50;
              GenerateCreative.costKey := "runway-video" |}
         = VNum 0.50).
Proof.
  apply (flat_and_dead_prices Example.world (VStr "video") (VStr "a cat")
           (VObj [("duration", VNum 60); ("model", VStr "gpt-image-mini")]) []
           [Fetch (video_request Example.world (VStr "a cat")
                     (VObj [("duration", VNum 60); ("model", VStr "gpt-image-mini")]))]).
  reflexivity.
Defined.

(** ** The generator: when the usage logger runs *)

(** X18.  The effects of a request that passes validation and whose generation
    completes, by configuration of the data store.  The answer is the
    success envelope in every case.  The usage logger runs only for a
    truthy customer_id and a configured data store URL: without the URL
    nothing follows the vendor's request, not even a warning; with the URL
    and without the service key, a warning is written and nothing is
    sent; with both, one usage event is sent to the data store, and its
    rejection, if any, is written to the console. *)
Theorem usage_log_configuration :
  forall (w : World) (event : Event.t) (type prompt customer_id options : value)
         (g : GenerateCreative.generation) (t1 : trace),
    parsed_request w event type prompt customer_id options ->
    truthy type = true ->
    truthy prompt = true ->
    GenerateCreative.switch_type w type prompt options [] = (inr (Some g), t1) ->
    truthy customer_id = true ->
    fst (GenerateCreative.handler w event) = success_response w type g
    /\ (opt_truthy (SUPABASE_URL w) = false ->
        snd (GenerateCreative.handler w event) = t1)
    /\ (opt_truthy (SUPABASE_URL w) = true ->
        opt_truthy (SUPABASE_SERVICE_ROLE_KEY w) = false ->
        snd (GenerateCreative.handler w event)
        = (t1 ++ [Console_warn "Supabase not configured, skipping usage log"])%list)
    /\ (opt_truthy (SUPABASE_URL w) = true ->
        opt_truthy (SUPABASE_SERVICE_ROLE_KEY w) = true ->
        (forall reason : string,
            fetch w (usage_request w customer_id type (GenerateCreative.cost g)
                       (GenerateCreative.costKey g)) = Rejects reason ->
            snd (GenerateCreative.handler w event)
            = (t1 ++ [ Fetch (usage_request w customer_id type (GenerateCreative.cost g)
                                (GenerateCreative.costKey g));
                       Console_error "Failed to log usage:" (FetchError reason) ])%list)
        /\ (forall answer : response,
              fetch w (usage_request w customer_id type (GenerateCreative.cost g)
                         (GenerateCreative.costKey g)) = Resolves answer ->
              snd (GenerateCreative.handler w event)
              = (t1 ++ [ Fetch (usage_request w customer_id type (GenerateCreative.cost g)
                                  (GenerateCreative.costKey g)) ])%list)).
Proof.
  intros w event type prompt customer_id options g t1
         Hrequest Htype Hprompt Hswitch Hcustomer.
  rewrite (handler_success_run w event type prompt customer_id options g t1)
    by assumption.
  rewrite Hcustomer. simpl. unfold usage_log_effects.
  split; [reflexivity | split; [ | split]].
  - intros ->. simpl. apply app_nil_r.
  - intros -> ->. reflexivity.
  - intros -> ->. simpl. split.
    + intros reason ->. reflexivity.
    + intros answer ->. reflexivity.
Qed.

Lemma usage_log_configuration_witness :
  fst (GenerateCreative.handler Example.world_without_key
         (Example.post (Example.from_customer "c-42")))
  = success_response Example.world_without_key (VStr "image") Example.wide_hd_generation
  /\ (opt_truthy (SUPABASE_URL Example.world_without_key) = false ->
      snd (GenerateCreative.handler Example.world_without_key
             (Example.post (Example.from_customer "c-42")))
      = Example.wide_hd_trace)
  /\ (opt_truthy (SUPABASE_URL Example.world_without_key) = true ->
      opt_truthy (SUPABASE_SERVICE_ROLE_KEY Example.world_without_key) = false ->
      snd (GenerateCreative.handler Example.world_without_key
             (Example.post (Example.from_customer "c-42")))
      = (Example.wide_hd_trace
         ++ [Console_warn "Supabase not configured, skipping usage log"])%list)
  /\ (opt_truthy (SUPABASE_URL Example.world_without_key) = true ->
      opt_truthy (SUPABASE_SERVICE_ROLE_KEY Example.world_without_key) = true ->
      (forall reason : string,
          fetch Example.world_without_key
            (usage_request Example.world_without_key (VStr "c-42") (VStr "image")
               (GenerateCreative.cost Example.wide_hd_generation)
               (GenerateCreative.costKey Example.wide_hd_generation))
          = Rejects reason ->
          snd (GenerateCreative.handler Example.world_without_key
                 (Example.post (Example.from_customer "c-42")))
          = (Example.wide_hd_trace
             ++ [ Fetch (usage_request Example.world_without_key (VStr "c-42")
                           (VStr "image")
                           (GenerateCreative.cost Example.wide_hd_generation)
                           (GenerateCreative.costKey Example.wide_hd_generation));
                  Console_error "Failed to log usage:" (FetchError reason) ])%list)
      /\ (forall answer : response,
            fetch Example.world_without_key
              (usage_request Example.world_without_key (VStr "c-42") (VStr "image")
                 (GenerateCreative.cost Example.wide_hd_generation)
                 (GenerateCreative.costKey Example.wide_hd_generation))
            = Resolves answer ->
            snd (GenerateCreative.handler Example.world_without_key
                   (Example.post (Example.from_customer "c-42")))
            = (Example.wide_hd_trace
               ++ [ Fetch (usage_request Example.world_without_key (VStr "c-42")
                             (VStr "image")
                             (GenerateCreative.cost Example.wide_hd_generation)
                             (GenerateCreative.costKey Example.wide_hd_generation)) ])%list)).
Proof.
  apply (usage_log_configuration Example.world_without_key
           (Example.post (Example.from_customer "c-42"))
           (VStr "image") (VStr "a cat") (VStr "c-42") Example.wide_hd_options
           Example.wide_hd_generation Example.wide_hd_trace);
    try reflexivity.
  split; [reflexivity | ].
  exists (VObj [ ("type", VStr "image"); ("prompt", VStr "a cat");
                 ("customer_id", VStr "c-42"); ("options", Example.wide_hd_options) ]).
  repeat split; reflexivity.
Defined.
